(** * ReceiptVerifier: a shallow embedding of [receipt_verifier.py]

    The development follows the Python module top to bottom:
    - [PyDict]: insertion-ordered dictionaries, as Python's [dict];
    - [MD5]: [hashlib.md5(...).hexdigest()] over byte strings;
    - [Json], [Receipt]: decoded response bodies and [Receipt.from_api_response];
    - [RequestParams], [RequestBuilder], [RetryHandler], [ReceiptCache];
    - [Binary64], [Float]: the retry delays in IEEE binary64 arithmetic;
    - [ReceiptVerifier.verify_receipt] over an explicit world (object heap,
      cache, file handles, network log).

    Python [str] values are represented by their UTF-8 byte strings, so that
    [s.encode()] is the identity and f-string concatenation is [++].
    Money amounts, and the delays that the model of the retry loop logs,
    are exact rationals ([Q]). [Float.get_delay] computes the delays in
    binary64, and the section on retry delays says where the two agree. *)

From Stdlib Require Import ZArith QArith Qpower Qabs Lia List Ascii String Bool.
From Stdlib Require Import Floats.SpecFloat.
From stdpp Require Import base list strings pretty.

Import ListNotations.
Local Open Scope string_scope.
Local Open Scope list_scope.
Local Open Scope Z_scope.

(** ** Insertion-ordered dictionaries *)

Module PyDict.
Section Dict.
Context {V : Type}.

(** A Python [dict] with string keys: entries in insertion order, keys
    pairwise distinct. *)
Definition t := list (string * V).

Fixpoint get (d : t) (k : string) : option V :=
  match d with
  | [] => None
  | (k', v) :: d' => if String.eqb k' k then Some v else get d' k
  end.

Definition mem (d : t) (k : string) : bool :=
  match get d k with Some _ => true | None => false end.

(** [d[k] = v]: an existing key keeps its position, a new key goes last. *)
Fixpoint set (d : t) (k : string) (v : V) : t :=
  match d with
  | [] => [(k, v)]
  | (k', v') :: d' =>
      if String.eqb k' k then (k', v) :: d' else (k', v') :: set d' k v
  end.

(** [del d[k]] for a key that is present. *)
Fixpoint del (d : t) (k : string) : t :=
  match d with
  | [] => []
  | (k', v') :: d' => if String.eqb k' k then d' else (k', v') :: del d' k
  end.

Definition keys (d : t) : list string := map fst d.

(** [next(iter(d))]: the earliest-inserted key, [None] for [StopIteration]. *)
Definition first_key (d : t) : option string :=
  match d with
  | [] => None
  | (k, _) :: _ => Some k
  end.

Definition len (d : t) : Z := Z.of_nat (List.length d).

Lemma get_set_eq d k v : get (set d k v) k = Some v.
Proof.
  induction d as [|[k' v'] d IH]; simpl.
  - now rewrite String.eqb_refl.
  - destruct (String.eqb k' k) eqn:E; simpl; rewrite E; auto.
Qed.

Lemma get_set_ne d k k' v : k <> k' -> get (set d k v) k' = get d k'.
Proof.
  intros Hne. induction d as [|[k0 v0] d IH]; simpl.
  - destruct (String.eqb k k') eqn:E; auto.
    apply String.eqb_eq in E. contradiction.
  - destruct (String.eqb k0 k) eqn:E; simpl.
    + apply String.eqb_eq in E. subst k0.
      destruct (String.eqb k k') eqn:E'; auto.
      apply String.eqb_eq in E'. contradiction.
    + now rewrite IH.
Qed.

Lemma get_none_keys d k : get d k = None <-> ~ In k (keys d).
Proof.
  induction d as [|[k' v'] d IH]; simpl.
  - tauto.
  - destruct (String.eqb k' k) eqn:E.
    + apply String.eqb_eq in E. split; [discriminate | tauto].
    + apply String.eqb_neq in E. rewrite IH. tauto.
Qed.

Lemma set_fresh d k v : get d k = None -> set d k v = d ++ [(k, v)].
Proof.
  induction d as [|[k' v'] d IH]; simpl; auto.
  destruct (String.eqb k' k); [discriminate|].
  intros H. now rewrite IH.
Qed.

Lemma set_length_le d k v : (List.length (set d k v) <= S (List.length d))%nat.
Proof.
  induction d as [|[k' v'] d IH]; simpl; auto.
  destruct (String.eqb k' k); simpl; lia.
Qed.

Lemma set_length_present d k v :
  get d k <> None -> List.length (set d k v) = List.length d.
Proof.
  induction d as [|[k' v'] d IH]; simpl; [congruence|].
  destruct (String.eqb k' k); simpl; auto.
Qed.

Lemma set_values (P : V -> Prop) d k v :
  P v -> Forall (fun e => P (snd e)) d ->
  Forall (fun e => P (snd e)) (set d k v).
Proof.
  intros Hv. induction 1 as [|[k' v'] d Hx Hd IH]; simpl.
  - constructor; auto.
  - destruct (String.eqb k' k); constructor; auto.
Qed.

Lemma get_values (P : V -> Prop) d k v :
  Forall (fun e => P (snd e)) d -> get d k = Some v -> P v.
Proof.
  induction 1 as [|[k' v'] d Hx Hd IH]; simpl; [discriminate|].
  destruct (String.eqb k' k); auto. now intros [= <-].
Qed.
End Dict.
Arguments t : clear implicits.
End PyDict.

(** ** MD5 ([hashlib.md5(data).hexdigest()]) *)

Module MD5.

Definition mask32 (x : Z) : Z := Z.land x 4294967295.
Definition add32 (x y : Z) : Z := mask32 (x + y).
Definition not32 (x : Z) : Z := Z.lxor x 4294967295.
Definition rotl32 (x : Z) (c : Z) : Z :=
  mask32 (Z.lor (Z.shiftl x c) (Z.shiftr x (32 - c))).

Definition K : list Z :=
  [ 3614090360; 3905402710; 606105819; 3250441966; 4118548399; 1200080426;
    2821735955; 4249261313; 1770035416; 2336552879; 4294925233; 2304563134;
    1804603682; 4254626195; 2792965006; 1236535329; 4129170786; 3225465664;
    643717713; 3921069994; 3593408605; 38016083; 3634488961; 3889429448;
    568446438; 3275163606; 4107603335; 1163531501; 2850285829; 4243563512;
    1735328473; 2368359562; 4294588738; 2272392833; 1839030562; 4259657740;
    2763975236; 1272893353; 4139469664; 3200236656; 681279174; 3936430074;
    3572445317; 76029189; 3654602809; 3873151461; 530742520; 3299628645;
    4096336452; 1126891415; 2878612391; 4237533241; 1700485571; 2399980690;
    4293915773; 2240044497; 1873313359; 4264355552; 2734768916; 1309151649;
    4149444226; 3174756917; 718787259; 3951481745 ].

Definition shifts : list Z :=
  [ 7; 12; 17; 22; 7; 12; 17; 22; 7; 12; 17; 22; 7; 12; 17; 22;
    5; 9; 14; 20; 5; 9; 14; 20; 5; 9; 14; 20; 5; 9; 14; 20;
    4; 11; 16; 23; 4; 11; 16; 23; 4; 11; 16; 23; 4; 11; 16; 23;
    6; 10; 15; 21; 6; 10; 15; 21; 6; 10; 15; 21; 6; 10; 15; 21 ].

Definition bytes_of (s : string) : list Z :=
  map (fun a => Z.of_N (N_of_ascii a)) (list_ascii_of_string s).

(** Little-endian bytes of [x], [n] of them. *)
Fixpoint le_bytes (n : nat) (x : Z) : list Z :=
  match n with
  | O => []
  | S n' => Z.land x 255 :: le_bytes n' (Z.shiftr x 8)
  end.

Fixpoint le_word (bs : list Z) : Z :=
  match bs with
  | [] => 0
  | b :: bs' => b + 256 * le_word bs'
  end.

(** Append 0x80, zero bytes up to 56 modulo 64, then the bit length. *)
Definition pad (msg : list Z) : list Z :=
  let n := Z.of_nat (List.length msg) in
  let zeros := Z.to_nat ((55 - n) mod 64) in
  msg ++ [128] ++ repeat 0 zeros ++ le_bytes 8 (Z.land (8 * n) 18446744073709551615).

Fixpoint words (n : nat) (bs : list Z) : list Z :=
  match n with
  | O => []
  | S n' => le_word (firstn 4 bs) :: words n' (skipn 4 bs)
  end.

Definition state := (Z * Z * Z * Z)%type.

Definition round (M : list Z) (st : state) (i : nat) : state :=
  let '(a, b, c, d) := st in
  let iz := Z.of_nat i in
  let '(f, g) :=
    if iz <? 16 then (Z.lor (Z.land b c) (Z.land (not32 b) d), iz)
    else if iz <? 32 then
      (Z.lor (Z.land d b) (Z.land (not32 d) c), (5 * iz + 1) mod 16)
    else if iz <? 48 then (Z.lxor b (Z.lxor c d), (3 * iz + 5) mod 16)
    else (Z.lxor c (Z.lor b (not32 d)), (7 * iz) mod 16) in
  let f' := add32 (add32 (add32 f a) (nth i K 0)) (nth (Z.to_nat g) M 0) in
  (d, add32 b (rotl32 f' (nth i shifts 0)), b, c).

Definition chunk (st : state) (bs : list Z) : state :=
  let M := words 16 bs in
  let '(a, b, c, d) := st in
  let '(a', b', c', d') := fold_left (round M) (seq 0 64) st in
  (add32 a a', add32 b b', add32 c c', add32 d d').

Fixpoint chunks (n : nat) (st : state) (bs : list Z) : state :=
  match n with
  | O => st
  | S n' => chunks n' (chunk st (firstn 64 bs)) (skipn 64 bs)
  end.

Definition init : state := (1732584193, 4023233417, 2562383102, 271733878).

Definition digest (msg : list Z) : state :=
  let p := pad msg in
  chunks (List.length p / 64) init p.

Definition hex_digit (x : Z) : ascii :=
  nth (Z.to_nat x) (list_ascii_of_string "0123456789abcdef") "0"%char.

Definition hex_byte (x : Z) (rest : string) : string :=
  String (hex_digit (Z.land (Z.shiftr x 4) 15))
    (String (hex_digit (Z.land x 15)) rest).

Definition hex_word (w : Z) (rest : string) : string :=
  hex_byte w (hex_byte (Z.shiftr w 8) (hex_byte (Z.shiftr w 16)
    (hex_byte (Z.shiftr w 24) rest))).

Definition hexdigest (s : string) : string :=
  let '(a, b, c, d) := digest (bytes_of s) in
  hex_word a (hex_word b (hex_word c (hex_word d ""))).

Example hexdigest_empty : hexdigest "" = "d41d8cd98f00b204e9800998ecf8427e".
Proof. vm_compute. reflexivity. Qed.

Example hexdigest_abc : hexdigest "abc" = "900150983cd24fb0d6963f7d28e17f72".
Proof. vm_compute. reflexivity. Qed.

Example hexdigest_two_blocks :
  hexdigest "xxxxxxxxxxxxxxxxxxxxxxxxxxxxxxxxxxxxxxxxxxxxxxxxxxxxxxxxxxxxxxxxxxxxxx"
  = "7d56c0f83fd1e320d60ea2f13dfdeedd".
Proof. vm_compute. reflexivity. Qed.

(** A hex digest is never the empty string (it has 32 characters), so it
    is truthy in Python. *)
Lemma hexdigest_length s : String.length (hexdigest s) = 32%nat.
Proof.
  unfold hexdigest. destruct (digest (bytes_of s)) as [[[a b] c] d].
  reflexivity.
Qed.

Lemma hexdigest_nonempty s : hexdigest s <> "".
Proof.
  intros H. pose proof (hexdigest_length s) as L. rewrite H in L. discriminate.
Qed.

End MD5.

(** ** Python values, exceptions and results *)

(** The exceptions the modelled code can raise. [DanglingReference] is not
    a Python exception: it is the model's answer to an address that is not
    allocated in the heap, which no Python program can produce. *)
Inductive exn : Type :=
| AttributeError
| TypeError
| ValueError
| StopIteration
| OverflowError
| FileNotFoundError (msg : string)
| IsADirectoryError
| PermissionError
| DanglingReference.

Inductive result (A : Type) : Type :=
| Ok (a : A)
| Raise (e : exn).
Arguments Ok {A} a.
Arguments Raise {A} e.

(** Sequencing: the first exception raised ends the computation. It is
    written [x ← m; k] below. *)
#[global] Instance result_bind : MBind result := fun A B f m =>
  match m with
  | Ok a => f a
  | Raise e => Raise e
  end.

#[global] Instance result_ret : MRet result := fun A a => Ok a.

(** A decoded JSON document ([response.json()]). *)
#[warnings="-register-all"]
Inductive json : Type :=
| JNull
| JBool (b : bool)
| JInt (z : Z)
| JFloat (q : Q)
| JStr (s : string)
| JArr (l : list json)
| JObj (d : list (string * json)).

Module Py.

(** [v == n] for an integer literal [n]: [True == 1], [1.0 == 1]. *)
Definition eq_int (v : json) (n : Z) : bool :=
  match v with
  | JInt z => z =? n
  | JBool b => (if b then 1 else 0) =? n
  | JFloat q => Qeq_bool q (inject_Z n)
  | _ => false
  end.

(** Lists and dicts are unhashable: using one as a dict key is a [TypeError]. *)
Definition hashable (v : json) : bool :=
  match v with
  | JArr _ | JObj _ => false
  | _ => true
  end.

(** [bool(v)] *)
Definition truthy (v : json) : bool :=
  match v with
  | JNull => false
  | JBool b => b
  | JInt z => negb (z =? 0)
  | JFloat q => negb (Qeq_bool q 0)
  | JStr s => negb (String.eqb s "")
  | JArr l => match l with [] => false | _ => true end
  | JObj d => match d with [] => false | _ => true end
  end.

(** [v.get(k, default)]: only dicts have a [get] method. *)
Definition get (v : json) (k : string) (default : json) : result json :=
  match v with
  | JObj d => Ok (match PyDict.get d k with Some x => x | None => default end)
  | _ => Raise AttributeError
  end.

(** [v / 100] *)
Definition div100 (v : json) : result Q :=
  match v with
  | JInt z => Ok (inject_Z z / 100)%Q
  | JBool b => Ok (inject_Z (if b then 1 else 0) / 100)%Q
  | JFloat q => Ok (q / 100)%Q
  | _ => Raise TypeError
  end.

(** [for x in v]: the elements a [for] loop visits. A dict yields its keys
    and a string its characters (here: its bytes). *)
Definition iter (v : json) : result (list json) :=
  match v with
  | JArr l => Ok l
  | JObj d => Ok (map (fun e => JStr (fst e)) d)
  | JStr s => Ok (map (fun a => JStr (String a "")) (list_ascii_of_string s))
  | _ => Raise TypeError
  end.

End Py.

(** ** [RequestParams] and [RequestBuilder] *)

Record RequestParams : Type := {
  fn : string;
  fd : string;
  fp : string;
  t : string;
  n : string;
  s : string;
  qr : string
}.

Definition to_dict (p : RequestParams) : PyDict.t string :=
  [ ("fn", fn p); ("fd", fd p); ("fp", fp p); ("t", t p);
    ("n", n p); ("s", s p); ("qr", qr p) ].

(** [f"{self.fn}_{self.fd}_{self.fp}_{self.t}"] *)
Definition fingerprint_key (p : RequestParams) : string :=
  fn p +:+ "_" +:+ fd p +:+ "_" +:+ fp p +:+ "_" +:+ t p.

Definition fingerprint (p : RequestParams) : string :=
  MD5.hexdigest (fingerprint_key p).

(** Open-file handles. *)
Definition handle := nat.

(** A value of the [files] dict: an open file object, which has a [close]
    method, or in-memory content, which has none. *)
Inductive file_value : Type :=
| FileObj (h : handle)
| FileData (content : string).

Module RequestBuilder.

Definition from_manual_params (data : PyDict.t string) : PyDict.t string := data.

Definition from_qr_string (qr_string : string) : PyDict.t string :=
  [("qrraw", qr_string)].

Definition from_qr_url (url : string) : PyDict.t string :=
  [("qrurl", url)].

(** [from_qr_file(file_path)]. The file system is a parameter: [path_str]
    is [str(Path(file_path))], [exists_] is [Path.exists], which lets
    through the errors of [stat] other than a missing file, and [open_rb]
    is [open(file_path, 'rb')], which gives a handle or raises (on a
    directory, on a file the process may not read, on a file removed since
    the test). *)
Definition from_qr_file (path_str : string -> string)
    (exists_ : string -> result bool) (open_rb : string -> result handle)
    (file_path : string)
  : result (PyDict.t string * PyDict.t file_value) :=
  found ← exists_ file_path;
  if found : bool then
    f ← open_rb file_path;
    Ok ([], [("qrfile", FileObj f)])
  else
    Raise (FileNotFoundError
             ("QR image file not found: " +:+ path_str file_path)).

End RequestBuilder.

(** ** [RetryHandler] *)

Record RetryHandler : Type := {
  max_retries : Z;
  base_delay : Q
}.

(** [code in [2, 3, 4]] *)
Definition should_retry (c : json) : bool :=
  existsb (Py.eq_int c) [2; 3; 4].

(** The delay as an exact rational: the number [get_delay] aims at, and
    returns whenever no product rounds or overflows. [Float.get_delay]
    below is the method in the arithmetic the code runs in. *)
Definition get_delay (rh : RetryHandler) (c : json) (attempt : nat) : Q :=
  if Py.eq_int c 3 then (base_delay rh * inject_Z (2 ^ Z.of_nat attempt))%Q
  else if Py.eq_int c 4 then (base_delay rh * 2)%Q
  else if Py.eq_int c 2 then (base_delay rh * (3 # 2) ^ Z.of_nat attempt)%Q
  else base_delay rh.

(** The schedule after a transport failure, as an exact rational:
    [self.retry_handler.base_delay * (2 ** attempt)]. *)
Definition network_delay (rh : RetryHandler) (attempt : nat) : Q :=
  (base_delay rh * inject_Z (2 ^ Z.of_nat attempt))%Q.

(** ** Binary64

    A Python [float] is an IEEE 754 binary64 number. The operations are
    those of the standard library's [SpecFloat] at precision 53. *)

Module Binary64.

Definition prec : Z := 53.
Definition emax : Z := 1024.

Definition float : Type := spec_float.

(** The mantissa and the exponent are those of a binary64 number. *)
Definition valid (x : float) : bool := valid_binary prec emax x.

(** [x * y], rounded to nearest, ties to even. *)
Definition mul (x y : float) : float := SFmul prec emax x y.

(** [x <= y] *)
Definition leb (x y : float) : bool := SFleb x y.

Definition is_infinite (x : float) : bool :=
  match x with S754_infinity _ => true | _ => false end.

(** [x == 0] *)
Definition is_zero (x : float) : bool :=
  match x with S754_zero _ => true | _ => false end.

Definition zero : float := S754_zero false.
Definition one : float := S754_finite false 4503599627370496 (-52).
Definition two : float := S754_finite false 4503599627370496 (-51).
Definition three_halves : float := S754_finite false 6755399441055744 (-52).

(** The float [2^k]. *)
Definition power_of_two (k : nat) : float :=
  S754_finite false 4503599627370496 (Z.of_nat k - 52).

(** [float(z)] for a Python [int]: the nearest float, ties to even, and
    [OverflowError] beyond the largest one. *)
Definition of_int (z : Z) : result float :=
  let x := binary_normalize prec emax z 0 false in
  if is_infinite x then Raise OverflowError else Ok x.

(** The rational number a finite float stands for. *)
Definition exactly (x : float) (q : Q) : Prop :=
  match x with
  | S754_zero _ => (q == 0)%Q
  | S754_finite s m e => (q == inject_Z (cond_Zopp s (Zpos m)) * 2 ^ e)%Q
  | _ => False
  end.

(** [m * 2^n], written with [n] binary zeros. *)
Definition shifted (m : positive) (n : nat) : positive := Nat.iter n xO m.

(** How far the mantissa moves when a float is scaled by [2^k]: a
    subnormal number first fills its mantissa. *)
Definition fill (m : positive) (k : nat) : nat :=
  Z.to_nat (Z.min (Z.of_nat k) (53 - Zpos (digits2_pos m))).

Lemma iter_pos_nat {A : Type} (f : A -> A) (p : positive) (x : A) :
  SpecFloat.iter_pos f p x = Nat.iter (Pos.to_nat p) f x.
Proof.
  revert x. induction p as [p IH|p IH|]; intros x; cbn [SpecFloat.iter_pos].
  - rewrite !IH, Pos2Nat.inj_xI, <- Nat.iter_succ_r, <- Nat.iter_add.
    f_equal. lia.
  - rewrite !IH, Pos2Nat.inj_xO, <- Nat.iter_add. f_equal. lia.
  - reflexivity.
Qed.

Lemma shifted_add (m : positive) (a b : nat) :
  shifted m (a + b) = shifted (shifted m b) a.
Proof. unfold shifted. apply Nat.iter_add. Qed.

Lemma shifted_Z (m : positive) (n : nat) :
  Zpos (shifted m n) = Zpos m * 2 ^ Z.of_nat n.
Proof.
  induction n as [|n IH].
  - simpl. lia.
  - change (shifted m (S n)) with (xO (shifted m n)).
    rewrite Nat2Z.inj_succ, Z.pow_succ_r by lia. lia.
Qed.

Lemma shifted_mul (m : positive) (n : nat) :
  (m * shifted 1 n)%positive = shifted m n.
Proof.
  apply Pos2Z.inj. rewrite Pos2Z.inj_mul, !shifted_Z. ring.
Qed.

Lemma shifted_digits (m : positive) (n : nat) :
  Zpos (digits2_pos (shifted m n)) = Zpos (digits2_pos m) + Z.of_nat n.
Proof.
  induction n as [|n IH].
  - simpl. lia.
  - change (shifted m (S n)) with (xO (shifted m n)). cbn [digits2_pos].
    rewrite Pos2Z.inj_succ, IH. lia.
Qed.

Lemma shifted_le (m : positive) (a b : nat) :
  (a <= b)%nat -> (shifted m a <= shifted m b)%positive.
Proof.
  intros Hab.
  assert (H : Zpos (shifted m a) <= Zpos (shifted m b)).
  { rewrite !shifted_Z.
    apply Z.mul_le_mono_nonneg_l; [lia|]. apply Z.pow_le_mono_r; lia. }
  lia.
Qed.

Lemma iter_shifted (m d : positive) :
  Pos.iter xO m d = shifted m (Pos.to_nat d).
Proof. apply Pos2Nat.inj_iter. Qed.

Lemma two_power_shifted (k : nat) : 2 ^ Z.of_nat k = Zpos (shifted 1 k).
Proof. rewrite shifted_Z. lia. Qed.

Lemma mantissa_one : 4503599627370496%positive = shifted 1 52.
Proof. reflexivity. Qed.

Lemma digits_lower (m : positive) : 2 ^ (Zpos (digits2_pos m) - 1) <= Zpos m.
Proof.
  induction m as [m IH|m IH|]; cbn [digits2_pos].
  - rewrite Pos2Z.inj_succ.
    replace (Z.succ (Zpos (digits2_pos m)) - 1)
      with (Z.succ (Zpos (digits2_pos m) - 1)) by lia.
    rewrite Z.pow_succ_r by lia. lia.
  - rewrite Pos2Z.inj_succ.
    replace (Z.succ (Zpos (digits2_pos m)) - 1)
      with (Z.succ (Zpos (digits2_pos m) - 1)) by lia.
    rewrite Z.pow_succ_r by lia. lia.
  - simpl. lia.
Qed.

(** Shifting out [n] zeros leaves neither a round bit nor a sticky bit. *)
Lemma shr_shifted (m : positive) (n : nat) :
  Nat.iter n shr_1
    {| shr_m := Zpos (shifted m n); shr_r := false; shr_s := false |}
  = {| shr_m := Zpos m; shr_r := false; shr_s := false |}.
Proof.
  induction n as [|n IH]; [reflexivity|].
  rewrite Nat.iter_succ_r. exact IH.
Qed.

Lemma shr_nat (mrs : shr_record) (e : Z) (n : nat) :
  shr mrs e (Z.of_nat n) = (Nat.iter n shr_1 mrs, e + Z.of_nat n).
Proof.
  destruct n as [|n].
  - simpl. now rewrite Z.add_0_r.
  - change (Z.of_nat (S n)) with (Zpos (Pos.of_succ_nat n)). unfold shr.
    now rewrite iter_pos_nat, SuccNat2Pos.id_succ.
Qed.

(** Rounding a mantissa that ends in [n] zeros, when dropping them gives
    the canonical form: nothing is lost. *)
Lemma binary_round_aux_exact (s : bool) (m : positive) (n : nat) (e : Z) :
  fexp prec emax (Zpos (digits2_pos m) + (e + Z.of_nat n)) = e + Z.of_nat n ->
  binary_round_aux prec emax s (Zpos (shifted m n)) e loc_Exact
  = if e + Z.of_nat n <=? emax - prec
    then S754_finite s m (e + Z.of_nat n)
    else S754_infinity s.
Proof.
  intros Hcanon. unfold binary_round_aux, shr_fexp.
  cbn [Zdigits2 shr_record_of_loc].
  rewrite shifted_digits.
  replace (fexp prec emax (Zpos (digits2_pos m) + Z.of_nat n + e) - e)
    with (Z.of_nat n)
    by (replace (Zpos (digits2_pos m) + Z.of_nat n + e)
          with (Zpos (digits2_pos m) + (e + Z.of_nat n)) by lia; lia).
  rewrite shr_nat, shr_shifted.
  cbn [shr_m loc_of_shr_record round_nearest_even Zdigits2 shr_record_of_loc].
  rewrite Hcanon, Z.sub_diag. reflexivity.
Qed.

(** [float(2 ** k)]: exact up to [2^1023], [OverflowError] beyond. *)
Lemma of_int_power_of_two (k : nat) :
  of_int (2 ^ Z.of_nat k)
  = if Z.of_nat k <=? 1023 then Ok (power_of_two k) else Raise OverflowError.
Proof.
  unfold of_int. rewrite two_power_shifted.
  cbn [binary_normalize]. unfold binary_round.
  rewrite shifted_digits.
  replace (fexp prec emax (Zpos (digits2_pos 1) + Z.of_nat k + 0))
    with (Z.of_nat k - 52) by (unfold fexp, emin, prec, emax; simpl; lia).
  unfold shl_align.
  destruct (Z.of_nat k - 52 - 0) as [|d|d] eqn:Hd.
  - replace k with (0 + 52)%nat by lia.
    rewrite shifted_add.
    rewrite (binary_round_aux_exact false (shifted 1 52) 0 0)
      by (unfold fexp, emin, prec, emax; simpl; lia).
    reflexivity.
  - replace k with (Pos.to_nat d + 52)%nat by lia.
    rewrite shifted_add.
    rewrite (binary_round_aux_exact false (shifted 1 52) (Pos.to_nat d) 0)
      by (unfold fexp, emin, prec, emax; simpl; lia).
    unfold power_of_two, prec, emax.
    destruct (Z.leb_spec (0 + Z.of_nat (Pos.to_nat d)) (1024 - 53));
      destruct (Z.leb_spec (Z.of_nat (Pos.to_nat d + 52)) 1023); try lia.
    + cbn [is_infinite]. do 2 f_equal. lia.
    + reflexivity.
  - rewrite iter_shifted, <- shifted_add.
    replace (Pos.to_nat d + k)%nat with (0 + 52)%nat by lia.
    rewrite shifted_add.
    rewrite (binary_round_aux_exact false (shifted 1 52) 0 (Z.of_nat k - 52))
      by (unfold fexp, emin, prec, emax; simpl; lia).
    unfold power_of_two, prec, emax.
    destruct (Z.leb_spec (Z.of_nat k - 52 + Z.of_nat 0) (1024 - 53));
      destruct (Z.leb_spec (Z.of_nat k) 1023); try lia.
    cbn [is_infinite]. do 2 f_equal. simpl. lia.
Qed.

Lemma valid_finite (s : bool) (m : positive) (e : Z) :
  valid (S754_finite s m e) = true ->
  Z.max (Zpos (digits2_pos m) + e - 53) (-1074) = e /\ e <= 971.
Proof.
  unfold valid, valid_binary, bounded, canonical_mantissa, fexp, emin, prec, emax.
  intros H. apply andb_prop in H. destruct H as [Hc Hb].
  apply Z.eqb_eq in Hc. apply Z.leb_le in Hb. simpl in *. lia.
Qed.

Lemma valid_power_of_two (k : nat) :
  Z.of_nat k <= 1023 -> valid (power_of_two k) = true.
Proof.
  intros Hk.
  unfold valid, valid_binary, power_of_two, bounded, canonical_mantissa,
    fexp, emin, prec, emax.
  apply andb_true_intro. split; [apply Z.eqb_eq|apply Z.leb_le]; simpl; lia.
Qed.

(** Scaling by a power of two does not round. *)
Lemma mul_power_of_two (s : bool) (m : positive) (e : Z) (k : nat) :
  valid (S754_finite s m e) = true ->
  mul (S754_finite s m e) (power_of_two k)
  = if e + Z.of_nat k - Z.of_nat (fill m k) <=? 971
    then S754_finite s (shifted m (fill m k))
           (e + Z.of_nat k - Z.of_nat (fill m k))
    else S754_infinity s.
Proof.
  intros Hvalid. apply valid_finite in Hvalid. destruct Hvalid as [Hcanon Hmax].
  unfold mul, SFmul, power_of_two. rewrite xorb_false_r.
  rewrite mantissa_one, shifted_mul.
  pose proof (Pos2Z.is_pos (digits2_pos m)) as Hd.
  assert (Hj : (fill m k <= 52)%nat) by (unfold fill; lia).
  replace 52%nat with ((52 - fill m k) + fill m k)%nat at 1 by lia.
  rewrite shifted_add.
  rewrite (binary_round_aux_exact s (shifted m (fill m k)) (52 - fill m k)
             (e + (Z.of_nat k - 52))).
  - unfold prec, emax.
    replace (e + (Z.of_nat k - 52) + Z.of_nat (52 - fill m k))
      with (e + Z.of_nat k - Z.of_nat (fill m k)) by lia.
    reflexivity.
  - rewrite shifted_digits. unfold fexp, emin, prec, emax, fill in *.
    simpl. lia.
Qed.

Lemma mul_one (x : float) : valid x = true -> mul x one = x.
Proof.
  destruct x as [s|s| |s m e]; try reflexivity;
    try (simpl; now rewrite xorb_false_r).
  intros Hvalid. change one with (power_of_two 0).
  rewrite (mul_power_of_two s m e 0 Hvalid).
  apply valid_finite in Hvalid. destruct Hvalid as [_ Hmax].
  unfold fill. pose proof (Pos2Z.is_pos (digits2_pos m)).
  replace (Z.to_nat (Z.min (Z.of_nat 0) (53 - Zpos (digits2_pos m))))
    with 0%nat by lia.
  replace (e + Z.of_nat 0 - Z.of_nat 0) with e by lia.
  destruct (Z.leb_spec e 971); [reflexivity|lia].
Qed.

Lemma mul_comm (x y : float) : mul x y = mul y x.
Proof.
  unfold mul.
  destruct x as [sx|sx| |sx mx ex], y as [sy|sy| |sy my ey]; simpl;
    try reflexivity; try (now rewrite xorb_comm).
  now rewrite xorb_comm, Pos.mul_comm, Z.add_comm.
Qed.

Lemma two_ne_0 : ~ (2 == 0)%Q.
Proof. discriminate. Qed.

Lemma cond_Zopp_scale (s : bool) (a b : Z) :
  cond_Zopp s (a * b) = cond_Zopp s a * b.
Proof. destruct s; simpl; ring. Qed.

(** The value of a product by [2^k]: exact, unless it lies beyond the
    largest float. *)
Lemma exactly_mul_power_of_two (x : float) (k : nat) (b : Q) :
  valid x = true -> exactly x b ->
  exactly (mul x (power_of_two k)) (b * inject_Z (2 ^ Z.of_nat k))
  \/ (is_infinite (mul x (power_of_two k)) = true
      /\ (2 ^ 1024 <= Qabs (b * inject_Z (2 ^ Z.of_nat k)))%Q).
Proof.
  destruct x as [s|s| |s m e]; cbn [exactly]; try contradiction.
  - intros _ Hb. left. simpl. rewrite Hb. ring.
  - intros Hvalid Hb. rewrite (mul_power_of_two s m e k Hvalid).
    set (j := fill m k).
    assert (Hval : (b * inject_Z (2 ^ Z.of_nat k)
                    == inject_Z (cond_Zopp s (Zpos (shifted m j)))
                       * 2 ^ (e + Z.of_nat k - Z.of_nat j))%Q).
    { rewrite Hb, shifted_Z, cond_Zopp_scale, inject_Z_mult.
      rewrite !Zpower_Qpower by lia.
      replace (e + Z.of_nat k - Z.of_nat j)
        with (e + Z.of_nat k + - Z.of_nat j) by lia.
      rewrite !(Qpower_plus _ _ _ two_ne_0).
      rewrite Qpower_opp.
      change (inject_Z 2) with 2%Q.
      field. apply Qpower_not_0. exact two_ne_0. }
    destruct (Z.leb_spec (e + Z.of_nat k - Z.of_nat j) 971) as [Hfit|Hover].
    + left. exact Hval.
    + right. split; [reflexivity|].
      apply valid_finite in Hvalid. destruct Hvalid as [Hcanon Hmax].
      pose proof (Pos2Z.is_pos (digits2_pos m)) as Hd.
      assert (Hfull : Zpos (digits2_pos (shifted m j)) = 53).
      { rewrite shifted_digits. subst j. unfold fill in *. lia. }
      pose proof (digits_lower (shifted m j)) as Hlow.
      rewrite Hfull in Hlow.
      set (E := e + Z.of_nat k - Z.of_nat j) in *.
      rewrite Hval, <- (Zpower_Qpower 2 E) by lia.
      rewrite <- inject_Z_mult.
      change (Qabs (inject_Z ?z)) with (inject_Z (Z.abs z)).
      rewrite <- (Zpower_Qpower 2 1024) by lia.
      rewrite <- Zle_Qle.
      assert (Habs : Z.abs (cond_Zopp s (Zpos (shifted m j)) * 2 ^ E)
                     = Zpos (shifted m j) * 2 ^ E).
      { pose proof (Z.pow_pos_nonneg 2 E). destruct s; simpl; lia. }
      rewrite Habs.
      replace 1024 with (52 + 972) by lia. rewrite Z.pow_add_r by lia.
      assert (Hpow : 2 ^ 972 <= 2 ^ E) by (apply Z.pow_le_mono_r; lia).
      pose proof (Z.pow_pos_nonneg 2 972).
      change (53 - 1) with 52 in Hlow.
      apply Z.mul_le_mono_nonneg; lia.
Qed.

(** A non-negative float scaled by a larger power of two is not smaller. *)
Lemma mul_power_of_two_mono (x : float) (k k' : nat) :
  valid x = true -> leb zero x = true -> (k <= k')%nat ->
  leb (mul x (power_of_two k)) (mul x (power_of_two k')) = true.
Proof.
  destruct x as [s|s| |s m e]; try discriminate.
  - reflexivity.
  - destruct s; [discriminate|reflexivity].
  - destruct s; [discriminate|]. intros Hvalid _ Hk.
    rewrite !(mul_power_of_two false m e _ Hvalid).
    pose proof (Pos2Z.is_pos (digits2_pos m)) as Hd.
    assert (Hj : (fill m k <= fill m k')%nat) by (unfold fill; lia).
    assert (HE : e + Z.of_nat k - Z.of_nat (fill m k)
                 <= e + Z.of_nat k' - Z.of_nat (fill m k'))
      by (unfold fill; lia).
    destruct (Z.leb_spec (e + Z.of_nat k - Z.of_nat (fill m k)) 971);
      destruct (Z.leb_spec (e + Z.of_nat k' - Z.of_nat (fill m k')) 971);
      try lia; try reflexivity.
    unfold leb, SFleb, SFcompare.
    destruct (Z.compare_spec (e + Z.of_nat k - Z.of_nat (fill m k))
                (e + Z.of_nat k' - Z.of_nat (fill m k'))) as [Heq|Hlt|Hgt];
      [|reflexivity|lia].
    change (Pos.compare_cont Eq ?a ?b) with (Pos.compare a b).
    pose proof (shifted_le m _ _ Hj) as Hle.
    apply Pos.compare_le_iff in Hle.
    destruct (shifted m (fill m k) ?= shifted m (fill m k'))%positive;
      [reflexivity|reflexivity|contradiction].
Qed.

Lemma mul_power_of_two_nonneg (x : float) (k : nat) :
  valid x = true -> leb zero x = true ->
  leb zero (mul x (power_of_two k)) = true.
Proof.
  destruct x as [s|s| |s m e]; try discriminate;
    try (destruct s; [discriminate|reflexivity]).
  - reflexivity.
  - destruct s; [discriminate|]. intros Hvalid _.
    rewrite (mul_power_of_two false m e k Hvalid).
    destruct (_ <=? 971); reflexivity.
Qed.

End Binary64.

(** The C library's [pow], as far as Python's [float ** int] calls it.
    The C standard does not fix its last bit, so it is a parameter. *)
Class LibM : Type := {
  libm_pow : Binary64.float -> Binary64.float -> Binary64.float
}.

(** ** The delays in binary64 *)

Module Float.
Section WithLibM.
Context `{LM : LibM}.
Import Binary64.

(** [1.5 ** attempt]: the exponent is converted to a float; Python answers
    a zero exponent itself and leaves the rest to [pow], turning an
    infinite result into [OverflowError]. *)
Definition three_halves_pow (attempt : nat) : result float :=
  iw ← of_int (Z.of_nat attempt);
  if is_zero iw then Ok one
  else
    let ix := libm_pow three_halves iw in
    if is_infinite ix then Raise OverflowError else Ok ix.

(** [x * z] for a float [x] and an [int] [z]: [z] is converted first. *)
Definition mul_int (x : float) (z : Z) : result float :=
  y ← of_int z; Ok (mul x y).

(** [RetryHandler.get_delay], in the arithmetic the code runs in. *)
Definition get_delay (base_delay : float) (c : json) (attempt : nat)
  : result float :=
  if Py.eq_int c 3 then mul_int base_delay (2 ^ Z.of_nat attempt)
  else if Py.eq_int c 4 then mul_int base_delay 2
  else if Py.eq_int c 2 then
    p ← three_halves_pow attempt; Ok (mul base_delay p)
  else Ok base_delay.

(** [self.retry_handler.base_delay * (2 ** attempt)], the delay after a
    transport failure. *)
Definition network_delay (base_delay : float) (attempt : nat) : result float :=
  mul_int base_delay (2 ^ Z.of_nat attempt).

End WithLibM.
End Float.

(** ** The [datetime] library, as far as the module uses it *)

(** [strptime s fmt] is [None] where Python raises [ValueError]. *)
Class DateTimeLib (datetime : Type) : Type := {
  strptime : string -> string -> option datetime;
  strftime : datetime -> string -> string
}.

(** ** [ReceiptItem] and [Receipt] *)

Record ReceiptItem : Type := {
  item_name : json;
  item_price : Q;
  item_quantity : json;
  item_sum : Q
}.

Section Model.
Context {datetime : Type} `{DT : DateTimeLib datetime}.

Record Receipt : Type := {
  code : json;
  is_valid : bool;
  date_time : option datetime;
  error_message : option json;
  organization : json;
  address : json;
  inn : json;
  date : string;
  time : string;
  place : json;
  cashier : json;
  receipt_number : json;
  shift_number : json;
  fiscal_drive_number : json;
  fiscal_document_number : json;
  fiscal_sign : json;
  operation_type : json;
  items : list ReceiptItem;
  total_sum : Q;
  cash_sum : Q;
  card_sum : Q;
  vat_20 : Q;
  vat_10 : Q;
  vat_0 : Q;
  vat_none : Q;
  raw_response : json;
  html_content : json
}.

(** [cls(code=c, is_valid=False, error_message=msg, date_time=now)]: every
    other field keeps its dataclass default. *)
Definition invalid_receipt (c : json) (msg : json) (now : datetime) : Receipt :=
  {| code := c; is_valid := false; date_time := Some now;
     error_message := Some msg;
     organization := JStr ""; address := JStr ""; inn := JStr "";
     date := ""; time := ""; place := JStr ""; cashier := JStr "";
     receipt_number := JStr ""; shift_number := JStr "";
     fiscal_drive_number := JStr ""; fiscal_document_number := JStr "";
     fiscal_sign := JStr ""; operation_type := JInt 0; items := [];
     total_sum := 0; cash_sum := 0; card_sum := 0;
     vat_20 := 0; vat_10 := 0; vat_0 := 0; vat_none := 0;
     raw_response := JObj []; html_content := JStr "" |}.

Definition error_messages : list (Z * string) :=
  [ (0, "Invalid receipt");
    (2, "Receipt data not yet available");
    (3, "Request limit exceeded");
    (4, "Wait before retrying");
    (5, "Data not received") ].

(** [error_messages[c]] when [c in error_messages]. *)
Definition error_message_of (c : json) : result (option string) :=
  if Py.hashable c
  then Ok (option_map snd (find (fun e => Py.eq_int c (fst e)) error_messages))
  else Raise TypeError.

(** The [try: ... except ValueError: date_time = None] block. A truthy
    [date_str] that is not a string makes [strptime] raise [TypeError],
    which the handler does not catch. *)
Definition parse_date (date_str : json) : result (option datetime) :=
  if Py.truthy date_str then
    match date_str with
    | JStr s => Ok (strptime s "%Y-%m-%dT%H:%M:%S")
    | _ => Raise TypeError
    end
  else Ok None.

Definition parse_item (item_data : json) : result ReceiptItem :=
  name ← Py.get item_data "name" (JStr "");
  price_raw ← Py.get item_data "price" (JInt 0);
  price ← Py.div100 price_raw;
  quantity ← Py.get item_data "quantity" (JInt 0);
  sum_raw ← Py.get item_data "sum" (JInt 0);
  sum ← Py.div100 sum_raw;
  Ok {| item_name := name; item_price := price;
        item_quantity := quantity; item_sum := sum |}.

Fixpoint parse_items (l : list json) : result (list ReceiptItem) :=
  match l with
  | [] => Ok []
  | item_data :: l' =>
      it ← parse_item item_data;
      rest ← parse_items l';
      Ok (it :: rest)
  end.

(** [date_time.strftime(fmt)]: [None] has no such attribute. *)
Definition strftime_opt (d : option datetime) (fmt : string) : result string :=
  match d with
  | Some dt => Ok (strftime dt fmt)
  | None => Raise AttributeError
  end.

(** [data.get(k, 0) / 100] *)
Definition money (data : json) (k : string) : result Q :=
  v ← Py.get data k (JInt 0); Py.div100 v.

(** [Receipt.from_api_response(response)]; [now] is what [datetime.now()]
    returns. The keyword arguments of the final [cls(...)] are evaluated
    in the order they are written. *)
Definition from_api_response (now : datetime) (response : json)
  : result Receipt :=
  c ← Py.get response "code" (JInt (-1));
  canned ← error_message_of c;
  match canned with
  | Some msg => Ok (invalid_receipt c (JStr msg) now)
  | None =>
    if negb (Py.eq_int c 1) then
      error ← Py.get response "error" (JStr "Unknown error");
      Ok (invalid_receipt c error now)
    else
      data0 ← Py.get response "data" (JObj []);
      data ← Py.get data0 "json" (JObj []);
      date_str ← Py.get data "dateTime" (JStr "");
      date_time ← parse_date date_str;
      items_raw ← Py.get data "items" (JArr []);
      items_seq ← Py.iter items_raw;
      items ← parse_items items_seq;
      organization ← Py.get data "user" (JStr "");
      address ← Py.get data "retailPlaceAddress" (JStr "");
      inn ← Py.get data "userInn" (JStr "");
      time ← strftime_opt date_time "%H:%M:%S";
      date ← strftime_opt date_time "%Y-%m-%d";
      place ← Py.get data "retailPlace" (JStr "");
      cashier ← Py.get data "operator" (JStr "");
      receipt_number ← Py.get data "requestNumber" (JStr "");
      shift_number ← Py.get data "shiftNumber" (JStr "");
      fiscal_drive_number ← Py.get data "fiscalDriveNumber" (JStr "");
      fiscal_document_number ← Py.get data "fiscalDocumentNumber" (JStr "");
      fiscal_sign ← Py.get data "fiscalSign" (JStr "");
      operation_type ← Py.get data "operationType" (JInt 0);
      total_sum ← money data "totalSum";
      cash_sum ← money data "cashTotalSum";
      card_sum ← money data "ecashTotalSum";
      vat_20 ← money data "nds18";
      vat_10 ← money data "nds";
      vat_0 ← money data "nds0";
      vat_none ← money data "ndsNo";
      data1 ← Py.get response "data" (JObj []);
      html_content ← Py.get data1 "html" (JStr "");
      Ok {| code := c; is_valid := true; date_time := None;
            error_message := None;
            organization := organization; address := address; inn := inn;
            date := date; time := time; place := place; cashier := cashier;
            receipt_number := receipt_number; shift_number := shift_number;
            fiscal_drive_number := fiscal_drive_number;
            fiscal_document_number := fiscal_document_number;
            fiscal_sign := fiscal_sign; operation_type := operation_type;
            items := items;
            total_sum := total_sum; cash_sum := cash_sum; card_sum := card_sum;
            vat_20 := vat_20; vat_10 := vat_10; vat_0 := vat_0;
            vat_none := vat_none;
            raw_response := response; html_content := html_content |}
  end.

(** ** [ReceiptCache] *)

Record ReceiptCache : Type := {
  cache : PyDict.t Receipt;
  max_size : Z;
  hits : Z;
  misses : Z
}.

Definition cache_init (size : Z) : ReceiptCache :=
  {| cache := []; max_size := size; hits := 0; misses := 0 |}.

Definition cache_get (c : ReceiptCache) (key : string)
  : option Receipt * ReceiptCache :=
  match PyDict.get (cache c) key with
  | Some r =>
      (Some r, {| cache := cache c; max_size := max_size c;
                  hits := hits c + 1; misses := misses c |})
  | None =>
      (None, {| cache := cache c; max_size := max_size c;
                hits := hits c; misses := misses c + 1 |})
  end.

(** The eviction step of [put]: at capacity, [next(iter(self.cache))]
    names the earliest-inserted key (or raises [StopIteration] on an empty
    dict) and [del] removes it. *)
Definition evict (c : ReceiptCache) : result (PyDict.t Receipt) :=
  if PyDict.len (cache c) >=? max_size c then
    match PyDict.first_key (cache c) with
    | Some oldest_key => Ok (PyDict.del (cache c) oldest_key)
    | None => Raise StopIteration
    end
  else Ok (cache c).

Definition cache_put (c : ReceiptCache) (key : string) (_receipt : Receipt)
  : result ReceiptCache :=
  d ← evict c;
  Ok {| cache := PyDict.set d key _receipt; max_size := max_size c;
        hits := hits c; misses := misses c |}.

Definition cache_clear (c : ReceiptCache) : ReceiptCache :=
  {| cache := []; max_size := max_size c; hits := 0; misses := 0 |}.

Definition cache_size (c : ReceiptCache) : Z := PyDict.len (cache c).

(** ** [ReceiptVerifier] *)

(** Addresses of caller-visible objects. *)
Definition loc := nat.

(** What [request_data] (and [userdata]) may point to. *)
Inductive obj : Type :=
| ODict (d : PyDict.t string)
| OParams (p : RequestParams).

(** What one [requests.post(...)]; [raise_for_status()]; [json()] sequence
    yields: a [RequestException] or the decoded body. *)
Inductive net_outcome : Type :=
| NetError (msg : string)
| NetJson (body : json).

Record post_record : Type := {
  post_data : PyDict.t string;
  post_files : option (PyDict.t file_value)
}.

Record ReceiptVerifier : Type := {
  token : string;
  api_url : string;
  retry_handler : RetryHandler
}.

Definition verifier_init (tok : string) (retries : Z) : ReceiptVerifier :=
  {| token := tok;
     api_url := "https://proverkacheka.com/api/v1/check/get";
     retry_handler := {| max_retries := retries; base_delay := 1 |} |}.

(** Everything a call of [verify_receipt] can read or change. *)
Record world : Type := {
  w_heap : list obj;
  w_cache : ReceiptCache;
  w_closed : list handle;
  w_posts : list post_record;
  w_sleeps : list Q;
  w_now : datetime;
  w_net : nat -> net_outcome
}.

Definition with_heap (w : world) (h : list obj) : world :=
  {| w_heap := h; w_cache := w_cache w; w_closed := w_closed w;
     w_posts := w_posts w; w_sleeps := w_sleeps w; w_now := w_now w;
     w_net := w_net w |}.

Definition with_cache (w : world) (c : ReceiptCache) : world :=
  {| w_heap := w_heap w; w_cache := c; w_closed := w_closed w;
     w_posts := w_posts w; w_sleeps := w_sleeps w; w_now := w_now w;
     w_net := w_net w |}.

(** [f.close()] *)
Definition close (h : handle) (w : world) : world :=
  {| w_heap := w_heap w; w_cache := w_cache w; w_closed := w_closed w ++ [h];
     w_posts := w_posts w; w_sleeps := w_sleeps w; w_now := w_now w;
     w_net := w_net w |}.

Definition log_post (p : post_record) (w : world) : world :=
  {| w_heap := w_heap w; w_cache := w_cache w; w_closed := w_closed w;
     w_posts := w_posts w ++ [p]; w_sleeps := w_sleeps w; w_now := w_now w;
     w_net := w_net w |}.

Definition sleep (delay : Q) (w : world) : world :=
  {| w_heap := w_heap w; w_cache := w_cache w; w_closed := w_closed w;
     w_posts := w_posts w; w_sleeps := w_sleeps w ++ [delay]; w_now := w_now w;
     w_net := w_net w |}.

(** [time.sleep(delay)]: a negative delay is a [ValueError]. *)
Definition time_sleep (delay : Q) (w : world) : result world :=
  if Qle_bool 0 delay then Ok (sleep delay w) else Raise ValueError.

(** [d[k] = v] on the dict stored at address [l]. *)
Definition heap_setitem (l : loc) (k v : string) (w : world) : world :=
  match w_heap w !! l with
  | Some (ODict d) => with_heap w (<[l := ODict (PyDict.set d k v)]> (w_heap w))
  | _ => w
  end.

Definition is_closed (w : world) (h : handle) : bool :=
  existsb (Nat.eqb h) (w_closed w).

Definition reads_closed_file (w : world) (files : option (PyDict.t file_value))
  : bool :=
  match files with
  | Some fs =>
      existsb (fun f => match snd f with
                        | FileObj h => is_closed w h
                        | FileData _ => false
                        end) fs
  | None => false
  end.

Inductive post_result : Type :=
| PostRaise (e : exn)
| PostFail (msg : string)
| PostJson (body : json).

(** [requests.post(self.api_url, data=request_dict, files=files)] followed
    by [raise_for_status()] and [json()]. Building the multipart body reads
    every file object, and reading a closed file raises [ValueError] before
    anything is sent. Otherwise the call is logged and the network answers
    with its next outcome. *)
Definition requests_post (request_dict : loc)
    (files : option (PyDict.t file_value)) (w : world) : post_result * world :=
  match w_heap w !! request_dict with
  | Some (ODict data) =>
      if reads_closed_file w files then (PostRaise ValueError, w)
      else
        let w' := log_post {| post_data := data; post_files := files |} w in
        match w_net w (List.length (w_posts w)) with
        | NetError msg => (PostFail msg, w')
        | NetJson body => (PostJson body, w')
        end
  | _ => (PostRaise DanglingReference, w)
  end.

(** The [finally] block of the loop body. *)
Definition close_files (files : option (PyDict.t file_value)) (w : world)
  : world :=
  match files with
  | Some fs =>
      fold_left (fun w' f => match snd f with
                             | FileObj h => close h w'
                             | FileData _ => w'
                             end) fs w
  | None => w
  end.

(** [cache_key] as computed at the top of [verify_receipt]. *)
Definition cache_key_of (o : obj) : option string :=
  match o with
  | OParams p => Some (fingerprint p)
  | ODict d =>
      match PyDict.get d "qrraw" with
      | Some payload => Some (MD5.hexdigest payload)
      | None => None
      end
  end.

(** [if cache_key:] *)
Definition key_truthy (cache_key : option string) : option string :=
  match cache_key with
  | Some k => if String.eqb k "" then None else Some k
  | None => None
  end.

Definition max_retries_receipt (w : world) : Receipt :=
  invalid_receipt (JInt (-1)) (JStr "Max retries exceeded") (w_now w).

Definition network_error_receipt (msg : string) (w : world) : Receipt :=
  invalid_receipt (JInt (-1)) (JStr ("Network error: " +:+ msg)) (w_now w).

(** The body of [if code == 1:]. *)
Definition on_success (cache_key : option string) (response : json) (w : world)
  : result Receipt * world :=
  match from_api_response (w_now w) response with
  | Raise e => (Raise e, w)
  | Ok formed_receipt =>
      match key_truthy cache_key with
      | Some k =>
          if is_valid formed_receipt then
            match cache_put (w_cache w) k formed_receipt with
            | Ok c' => (Ok formed_receipt, with_cache w c')
            | Raise e => (Raise e, w)
            end
          else (Ok formed_receipt, w)
      | None => (Ok formed_receipt, w)
      end
  end.

(** [for attempt in range(max_retries)]: [remaining] iterations are left,
    the next one has index [attempt]. Every way out of the [try] statement
    (return, continue, exception) runs [close_files]. *)
Fixpoint retry_loop (v : ReceiptVerifier) (request_dict : loc)
    (files : option (PyDict.t file_value)) (cache_key : option string)
    (remaining attempt : nat) (w : world) : result Receipt * world :=
  match remaining with
  | O => (Ok (max_retries_receipt w), w)
  | S remaining' =>
      let rh := retry_handler v in
      let more := Z.of_nat attempt <? max_retries rh - 1 in
      match requests_post request_dict files w with
      | (PostRaise e, w1) => (Raise e, close_files files w1)
      | (PostFail msg, w1) =>
          if more then
            match time_sleep (network_delay rh attempt) w1 with
            | Ok w2 =>
                retry_loop v request_dict files cache_key remaining' (S attempt)
                  (close_files files w2)
            | Raise e => (Raise e, close_files files w1)
            end
          else (Ok (network_error_receipt msg w1), close_files files w1)
      | (PostJson response, w1) =>
          match Py.get response "code" (JInt (-1)) with
          | Raise e => (Raise e, close_files files w1)
          | Ok c =>
              if Py.eq_int c 1 then
                let (r, w2) := on_success cache_key response w1 in
                (r, close_files files w2)
              else if should_retry c && more then
                match time_sleep (get_delay rh c attempt) w1 with
                | Ok w2 =>
                    retry_loop v request_dict files cache_key remaining'
                      (S attempt) (close_files files w2)
                | Raise e => (Raise e, close_files files w1)
                end
              else
                (from_api_response (w_now w1) response, close_files files w1)
          end
      end
  end.

(** The [userdata] loop: [request_dict[f'userdata_{key}'] = value]. *)
Definition add_userdata (request_dict : loc) (userdata : option loc) (w : world)
  : result world :=
  match userdata with
  | None => Ok w
  | Some u =>
      match w_heap w !! u with
      | Some (ODict ud) =>
          Ok (fold_left (fun w' e =>
                heap_setitem request_dict ("userdata_" +:+ fst e) (snd e) w')
              ud w)
      | Some (OParams _) => Raise AttributeError
      | None => Raise DanglingReference
      end
  end.

(** [if promo_id: request_dict['promo_id'] = str(promo_id)] *)
Definition add_promo (request_dict : loc) (promo_id : option Z) (w : world)
  : world :=
  match promo_id with
  | Some p =>
      if p =? 0 then w else heap_setitem request_dict "promo_id" (pretty p) w
  | None => w
  end.

(** The cache check: [cached = self.cache.get(cache_key)]. A [Receipt] is
    always truthy, so [if cached:] holds exactly on a hit. *)
Definition check_cache (cache_key : option string) (w : world)
  : option Receipt * world :=
  match key_truthy cache_key with
  | Some k =>
      let (cached, c') := cache_get (w_cache w) k in
      (cached, with_cache w c')
  | None => (None, w)
  end.

Definition verify_receipt (v : ReceiptVerifier) (request_data : loc)
    (files : option (PyDict.t file_value)) (promo_id : option Z)
    (userdata : option loc) (w : world) : result Receipt * world :=
  match w_heap w !! request_data with
  | None => (Raise DanglingReference, w)
  | Some o =>
      (* request_dict = request_data.to_dict() / request_data.copy() *)
      let request_dict := List.length (w_heap w) in
      let fresh := match o with OParams p => to_dict p | ODict d => d end in
      let w1 := with_heap w (w_heap w ++ [ODict fresh]) in
      let cache_key := cache_key_of o in
      match check_cache cache_key w1 with
      | (Some cached, w2) => (Ok cached, w2)
      | (None, w2) =>
          let w3 := heap_setitem request_dict "token" (token v) w2 in
          let w4 := add_promo request_dict promo_id w3 in
          match add_userdata request_dict userdata w4 with
          | Raise e => (Raise e, w4)
          | Ok w5 =>
              retry_loop v request_dict files cache_key
                (Z.to_nat (max_retries (retry_handler v))) 0 w5
          end
      end
  end.

(** * Properties *)

(** ** Fingerprints *)

(** The layout of a QR payload, as the docstring of
    [RequestBuilder.from_qr_string] gives it:
    [t=20200924T1837&s=349.93&fn=9282440300682838&i=46534&fp=1273019065&n=1].
    It is used only to state what the fingerprint of a scanned receipt is
    compared with. *)
Definition qr_payload (p : RequestParams) : string :=
  "t=" +:+ t p +:+ "&s=" +:+ s p +:+ "&fn=" +:+ fn p +:+ "&i=" +:+ fd p
  +:+ "&fp=" +:+ fp p +:+ "&n=" +:+ n p.

Definition docstring_params : RequestParams :=
  {| fn := "9282440300682838"; fd := "46534"; fp := "1273019065";
     t := "20200924T1837"; n := "1"; s := "349.93"; qr := "0" |}.

Lemma fingerprint_key_fields (p1 p2 : RequestParams) :
  fn p1 = fn p2 -> fd p1 = fd p2 -> fp p1 = fp p2 -> t p1 = t p2 ->
  fingerprint_key p1 = fingerprint_key p2.
Proof.
  unfold fingerprint_key. intros -> -> -> ->. reflexivity.
Qed.

(** C1 (as amended): two [RequestParams] with the same [fn], [fd], [fp] and
    [t] have the same cache key whatever their other fields are, and two
    dict requests with the same [qrraw] entry have the same cache key. *)
Theorem cache_key_deterministic_per_variant
    (p1 p2 : RequestParams) (d1 d2 : PyDict.t string) :
  fn p1 = fn p2 -> fd p1 = fd p2 -> fp p1 = fp p2 -> t p1 = t p2 ->
  PyDict.get d1 "qrraw" = PyDict.get d2 "qrraw" ->
  fingerprint p1 = fingerprint p2
  /\ cache_key_of (OParams p1) = cache_key_of (OParams p2)
  /\ cache_key_of (ODict d1) = cache_key_of (ODict d2).
Proof.
  intros Hfn Hfd Hfp Ht Hraw.
  assert (Hk : fingerprint p1 = fingerprint p2).
  { unfold fingerprint. f_equal. now apply fingerprint_key_fields. }
  split; [exact Hk|]. split.
  - simpl. now rewrite Hk.
  - simpl. now rewrite Hraw.
Qed.

Lemma cache_key_deterministic_per_variant_witness :
  let p1 := docstring_params in
  let p2 := {| fn := fn p1; fd := fd p1; fp := fp p1; t := t p1;
               n := "2"; s := "1.00"; qr := "1" |} in
  let d1 := RequestBuilder.from_qr_string "t=1&s=2" in
  let d2 := [("promo", "x"); ("qrraw", "t=1&s=2")] in
  fingerprint p1 = fingerprint p2
  /\ cache_key_of (OParams p1) = cache_key_of (OParams p2)
  /\ cache_key_of (ODict d1) = cache_key_of (ODict d2).
Proof.
  intros p1 p2 d1 d2.
  apply (cache_key_deterministic_per_variant p1 p2 d1 d2); reflexivity.
Defined.

(** C1 (as stated) fails: the manual request of the docstring's receipt and
    the raw QR payload carrying the same [fn], [fd] ([i]), [fp] and [t] get
    different cache keys, and the same fields passed as a plain dict get no
    cache key at all. *)
Lemma cache_key_differs_across_variants :
  let p := docstring_params in
  cache_key_of (OParams p) = Some "12854b1463690568d635b9cfe994862c"
  /\ cache_key_of (ODict (RequestBuilder.from_qr_string (qr_payload p)))
     = Some "3bcfcd07f8c1d447f7b40cdbf5d3975e"
  /\ cache_key_of (OParams p) <>
     cache_key_of (ODict (RequestBuilder.from_qr_string (qr_payload p)))
  /\ cache_key_of (ODict (RequestBuilder.from_manual_params (to_dict p))) = None.
Proof.
  intros p. repeat split; try (vm_compute; reflexivity).
  vm_compute. intros H. discriminate H.
Qed.

(** ** Retry delays *)

Section Delays.
Context `{LM : LibM}.

Lemma mul_int_power_of_two (x : Binary64.float) (k : nat) :
  Float.mul_int x (2 ^ Z.of_nat k)
  = if Z.of_nat k <=? 1023 then Ok (Binary64.mul x (Binary64.power_of_two k))
    else Raise OverflowError.
Proof.
  unfold Float.mul_int. rewrite Binary64.of_int_power_of_two.
  destruct (Z.of_nat k <=? 1023); reflexivity.
Qed.

Lemma get_delay_rate_limit (base : Binary64.float) (attempt : nat) :
  Float.get_delay base (JInt 3) attempt
  = Float.mul_int base (2 ^ Z.of_nat attempt).
Proof. reflexivity. Qed.

(** C6 (as amended): [get_delay] in binary64, for every float [base].
    For code 3 and an attempt up to 1023 it returns the float product
    [base * 2^attempt], whose value is exactly that of the rational
    [get_delay] unless it lies beyond the largest float, in which case the
    product is infinite; from attempt 1024 on it raises [OverflowError].
    It returns [base] at attempt 0 and the float [2*base] at attempt 1.
    For code 4 it returns the float [2*base] at every attempt, again exact
    unless infinite. For code 2 it returns [base] at attempt 0, the float
    product [1.5*base] at attempt 1 (when [pow(1.5, 1.0)] is [1.5]), and in
    general the float product of [base] and [1.5 ** attempt], or raises
    [OverflowError] when that power is infinite. *)
Theorem get_delay_binary64 (base : Binary64.float) (attempt : nat) :
  Binary64.valid base = true ->
  (Z.of_nat attempt <= 1023 ->
   exists d, Float.get_delay base (JInt 3) attempt = Ok d
     /\ forall rh, Binary64.exactly base (base_delay rh) ->
          Binary64.exactly d (get_delay rh (JInt 3) attempt)
          \/ (Binary64.is_infinite d = true
              /\ (2 ^ 1024 <= Qabs (get_delay rh (JInt 3) attempt))%Q))
  /\ (1024 <= Z.of_nat attempt ->
      Float.get_delay base (JInt 3) attempt = Raise OverflowError)
  /\ Float.get_delay base (JInt 3) 0 = Ok base
  /\ Float.get_delay base (JInt 3) 1 = Ok (Binary64.mul Binary64.two base)
  /\ Float.get_delay base (JInt 4) attempt
     = Ok (Binary64.mul Binary64.two base)
  /\ (forall rh, Binary64.exactly base (base_delay rh) ->
        Binary64.exactly (Binary64.mul Binary64.two base)
          (get_delay rh (JInt 4) attempt)
        \/ (Binary64.is_infinite (Binary64.mul Binary64.two base) = true
            /\ (2 ^ 1024 <= Qabs (get_delay rh (JInt 4) attempt))%Q))
  /\ Float.get_delay base (JInt 2) 0 = Ok base
  /\ (libm_pow Binary64.three_halves Binary64.one = Binary64.three_halves ->
      Float.get_delay base (JInt 2) 1
      = Ok (Binary64.mul Binary64.three_halves base))
  /\ (forall iw,
        Binary64.of_int (Z.of_nat attempt) = Ok iw ->
        Binary64.is_zero iw = false ->
        Float.get_delay base (JInt 2) attempt
        = if Binary64.is_infinite (libm_pow Binary64.three_halves iw)
          then Raise OverflowError
          else Ok (Binary64.mul base (libm_pow Binary64.three_halves iw))).
Proof.
  intros Hvalid.
  assert (Htwo : Binary64.mul Binary64.two base
                 = Binary64.mul base (Binary64.power_of_two 1))
    by apply Binary64.mul_comm.
  repeat apply conj.
  - intros Hsmall. rewrite get_delay_rate_limit, mul_int_power_of_two.
    destruct (Z.leb_spec (Z.of_nat attempt) 1023); [|lia].
    eexists. split; [reflexivity|]. intros rh Hb.
    exact (Binary64.exactly_mul_power_of_two base attempt (base_delay rh)
             Hvalid Hb).
  - intros Hbig. rewrite get_delay_rate_limit, mul_int_power_of_two.
    destruct (Z.leb_spec (Z.of_nat attempt) 1023); [lia|reflexivity].
  - rewrite get_delay_rate_limit, mul_int_power_of_two.
    cbn [Z.of_nat Z.leb Z.compare].
    change (Binary64.power_of_two 0) with Binary64.one.
    now rewrite Binary64.mul_one.
  - rewrite get_delay_rate_limit, mul_int_power_of_two. now rewrite Htwo.
  - rewrite Htwo. reflexivity.
  - intros rh Hb. rewrite Htwo.
    exact (Binary64.exactly_mul_power_of_two base 1 (base_delay rh) Hvalid Hb).
  - change (Float.get_delay base (JInt 2) 0)
      with (Ok (Binary64.mul base Binary64.one)).
    now rewrite Binary64.mul_one.
  - intros Hpow. unfold Float.get_delay, Float.three_halves_pow.
    cbn [Py.eq_int Z.eqb Pos.eqb].
    change (Binary64.of_int (Z.of_nat 1)) with (Ok Binary64.one).
    cbn. rewrite Hpow. cbn. now rewrite Binary64.mul_comm.
  - intros iw Hiw Hnz. unfold Float.get_delay, Float.three_halves_pow.
    cbn [Py.eq_int Z.eqb Pos.eqb]. rewrite Hiw. cbn. rewrite Hnz.
    destruct (Binary64.is_infinite (libm_pow Binary64.three_halves iw));
      reflexivity.
Qed.

Lemma mul_one_power_of_two (k : nat) :
  Z.of_nat k <= 1023 ->
  Binary64.mul Binary64.one (Binary64.power_of_two k) = Binary64.power_of_two k.
Proof.
  intros Hk. rewrite Binary64.mul_comm.
  apply Binary64.mul_one. now apply Binary64.valid_power_of_two.
Qed.

(** X22: the verifier's own configuration. [ReceiptVerifier.__init__]
    builds its [RetryHandler] with the default base delay [1.0]; up to
    attempt 1023 the delays the code then computes for code 3, for code 4,
    for a code outside 2, 3 and 4, and after a transport failure are
    finite floats whose values are exactly the rational delays
    [get_delay] and [network_delay]. *)
Theorem default_delays_are_exact (rh : RetryHandler) (c : json) (attempt : nat) :
  (base_delay rh == 1)%Q ->
  Z.of_nat attempt <= 1023 ->
  Py.eq_int c 2 = false ->
  (exists d, Float.get_delay Binary64.one c attempt = Ok d
             /\ Binary64.valid d = true
             /\ Binary64.exactly d (get_delay rh c attempt))
  /\ (exists d, Float.network_delay Binary64.one attempt = Ok d
                /\ Binary64.valid d = true
                /\ Binary64.exactly d (network_delay rh attempt)).
Proof.
  intros Hbase Hsmall Hc2.
  assert (Hone : Binary64.exactly Binary64.one (base_delay rh)).
  { cbn. rewrite Hbase. reflexivity. }
  assert (Hscale : forall k, Z.of_nat k <= 1023 ->
            Binary64.exactly (Binary64.power_of_two k)
              (base_delay rh * inject_Z (2 ^ Z.of_nat k))).
  { intros k Hk.
    destruct (Binary64.exactly_mul_power_of_two Binary64.one k (base_delay rh)
                eq_refl Hone) as [Hex|[Hinf _]];
      rewrite (mul_one_power_of_two k Hk) in *; [exact Hex|discriminate]. }
  assert (Hnet : exists d, Float.mul_int Binary64.one (2 ^ Z.of_nat attempt) = Ok d
                           /\ Binary64.valid d = true
                           /\ Binary64.exactly d
                                (base_delay rh * inject_Z (2 ^ Z.of_nat attempt))).
  { rewrite mul_int_power_of_two.
    destruct (Z.leb_spec (Z.of_nat attempt) 1023); [|lia].
    rewrite (mul_one_power_of_two attempt Hsmall).
    eexists. split; [reflexivity|].
    split; [now apply Binary64.valid_power_of_two|now apply Hscale]. }
  split; [|exact Hnet].
  unfold Float.get_delay, get_delay. rewrite Hc2.
  destruct (Py.eq_int c 3); [exact Hnet|].
  destruct (Py.eq_int c 4).
  - exists (Binary64.power_of_two 1). split; [reflexivity|].
    split; [reflexivity|]. apply (Hscale 1%nat). simpl. lia.
  - exists Binary64.one. split; [reflexivity|]. split; [reflexivity|exact Hone].
Qed.

End Delays.

(** Codes outside 2, 3 and 4 fall through to [base_delay]. *)
Lemma get_delay_other (rh : RetryHandler) (z : Z) (attempt : nat) :
  z <> 2 -> z <> 3 -> z <> 4 -> get_delay rh (JInt z) attempt = base_delay rh.
Proof.
  intros H2 H3 H4. unfold get_delay. cbn [Py.eq_int].
  destruct (Z.eqb_spec z 3); [contradiction|].
  destruct (Z.eqb_spec z 4); [contradiction|].
  destruct (Z.eqb_spec z 2); [contradiction|]. reflexivity.
Qed.

(** ** The cache *)

(** [get] changes the counters only. *)
Lemma cache_get_entries (c : ReceiptCache) (key : string) :
  cache (snd (cache_get c key)) = cache c
  /\ max_size (snd (cache_get c key)) = max_size c
  /\ fst (cache_get c key) = PyDict.get (cache c) key.
Proof.
  unfold cache_get. destruct (PyDict.get (cache c) key); simpl; auto.
Qed.

Lemma evict_at_capacity (c : ReceiptCache) k0 r0 rest :
  cache c = (k0, r0) :: rest -> max_size c <= cache_size c ->
  evict c = Ok rest.
Proof.
  intros Hc Hcap. unfold evict, cache_size in *.
  destruct (Z.geb_spec (PyDict.len (cache c)) (max_size c)) as [_|Hlt]; [|lia].
  rewrite Hc. simpl. now rewrite String.eqb_refl.
Qed.

Lemma evict_below_capacity (c : ReceiptCache) :
  cache_size c < max_size c -> evict c = Ok (cache c).
Proof.
  intros Hlt. unfold evict, cache_size in *.
  destruct (Z.geb_spec (PyDict.len (cache c)) (max_size c)); [lia|reflexivity].
Qed.

Lemma evict_length (c : ReceiptCache) (d : PyDict.t Receipt) :
  cache_size c <= max_size c -> evict c = Ok d ->
  PyDict.len d + 1 <= max_size c.
Proof.
  intros Hinv. unfold evict, cache_size, PyDict.len in *.
  destruct (Z.geb_spec (Z.of_nat (List.length (cache c))) (max_size c)) as [Hge|Hlt].
  - destruct (cache c) as [|[k0 r0] rest] eqn:Hc; simpl; [discriminate|].
    rewrite String.eqb_refl. intros [= <-]. simpl in *. lia.
  - intros [= <-]. lia.
Qed.

Lemma evict_sublist (P : Receipt -> Prop) (c : ReceiptCache) (d : PyDict.t Receipt) :
  Forall (fun e => P (snd e)) (cache c) -> evict c = Ok d ->
  Forall (fun e => P (snd e)) d.
Proof.
  intros Hall. unfold evict.
  destruct (PyDict.len (cache c) >=? max_size c).
  - destruct (cache c) as [|[k0 r0] rest]; simpl; [discriminate|].
    rewrite String.eqb_refl. intros [= <-]. now inversion Hall.
  - now intros [= <-].
Qed.

(** C4 (as amended): a cache of capacity [N >= 1] that holds [N] entries
    and receives a key it does not hold drops exactly its first-inserted
    entry and appends the new one; a [get] in between, of any key, changes
    neither the entries nor their order, so the entry dropped is the
    first-inserted one whether or not it was the one read last. *)
Theorem put_at_capacity_evicts_first_inserted
    (c : ReceiptCache) k0 r0 rest (key read : string) (r : Receipt) :
  cache c = (k0, r0) :: rest ->
  cache_size c = max_size c ->
  PyDict.get (cache c) key = None ->
  (exists c', cache_put c key r = Ok c' /\ cache c' = rest ++ [(key, r)])
  /\ cache (snd (cache_get c read)) = cache c
  /\ (exists c', cache_put (snd (cache_get c read)) key r = Ok c'
                 /\ cache c' = rest ++ [(key, r)]).
Proof.
  intros Hc Hcap Hfresh.
  assert (Hrest : PyDict.get rest key = None).
  { rewrite Hc in Hfresh. simpl in Hfresh.
    destruct (String.eqb k0 key); [discriminate|assumption]. }
  destruct (cache_get_entries c read) as (Hg & Hm & _).
  split; [|split; [exact Hg|]].
  - unfold cache_put. rewrite (evict_at_capacity c k0 r0 rest Hc) by lia.
    simpl. eexists; split; [reflexivity|]. simpl. now apply PyDict.set_fresh.
  - unfold cache_put.
    rewrite (evict_at_capacity _ k0 r0 rest) by
      (try (rewrite Hg; exact Hc); unfold cache_size; rewrite Hg, Hm;
       unfold cache_size in Hcap; lia).
    simpl. eexists; split; [reflexivity|]. simpl. now apply PyDict.set_fresh.
Qed.

Lemma cache_put_within_capacity (c c' : ReceiptCache) key (r : Receipt) :
  cache_size c <= max_size c -> cache_put c key r = Ok c' ->
  max_size c' = max_size c /\ cache_size c' <= max_size c'.
Proof.
  intros Hinv. unfold cache_put.
  destruct (evict c) as [d|e] eqn:He; simpl; [|discriminate].
  intros [= <-]. simpl. split; [reflexivity|].
  pose proof (evict_length c d Hinv He) as Hd.
  pose proof (PyDict.set_length_le d key r) as Hs.
  unfold cache_size, PyDict.len in *. simpl. lia.
Qed.

(** The caches a [ReceiptCache(max_size=size)] can become through its
    methods. *)
Inductive reachable (size : Z) : ReceiptCache -> Prop :=
| reach_init : reachable size (cache_init size)
| reach_get c key : reachable size c -> reachable size (snd (cache_get c key))
| reach_put c key r c' :
    reachable size c -> cache_put c key r = Ok c' -> reachable size c'
| reach_clear c : reachable size c -> reachable size (cache_clear c).

(** With a non-negative capacity, no sequence of calls takes the cache
    beyond it. *)
Lemma reachable_within_capacity (size : Z) (c : ReceiptCache) :
  0 <= size -> reachable size c ->
  max_size c = size /\ cache_size c <= max_size c.
Proof.
  intros Hsize. induction 1 as [|c key Hc [IHm IHs]|c key r c' Hc [IHm IHs] Hput
                               |c Hc [IHm IHs]].
  - unfold cache_size, PyDict.len. simpl. lia.
  - destruct (cache_get_entries c key) as (He & Hm & _).
    unfold cache_size. rewrite He, Hm. auto.
  - destruct (cache_put_within_capacity c c' key r IHs Hput) as [Hm Hs].
    split; [congruence|exact Hs].
  - unfold cache_size, PyDict.len. simpl. split; [exact IHm|lia].
Qed.

(** C10 (as amended): when the cache holds at least [max_size] entries
    and at least one, [put] removes the earliest-inserted entry and only
    then stores the key, also when the key is already present. The next
    lookup of the key gives the receipt; every key other than the stored
    one and the earliest-inserted one keeps its entry. Overwriting a key
    other than the earliest-inserted one evicts the earliest-inserted
    entry and leaves one entry fewer; putting the earliest-inserted key
    itself moves it to the end with its new receipt and evicts no other
    entry. On an empty cache with [max_size <= 0], [put] raises
    [StopIteration]. A cache within its capacity is within it after every
    [put] that returns. *)
Theorem put_evicts_before_insert_and_bounds_size
    (c : ReceiptCache) (key : string) (r : Receipt) :
  List.NoDup (PyDict.keys (cache c)) ->
  (forall k0 r0 rest,
      cache c = (k0, r0) :: rest -> max_size c <= cache_size c ->
      exists c', cache_put c key r = Ok c'
                 /\ PyDict.get (cache c') key = Some r
                 /\ (k0 <> key -> PyDict.get (cache c') k0 = None)
                 /\ (forall k, k <> key -> k <> k0 ->
                     PyDict.get (cache c') k = PyDict.get (cache c) k)
                 /\ (k0 <> key -> PyDict.get (cache c) key <> None ->
                     cache_size c' = cache_size c - 1)
                 /\ (k0 = key ->
                     cache c' = rest ++ [(key, r)]
                     /\ cache_size c' = cache_size c)
                 /\ (PyDict.get (cache c) key = None ->
                     cache c' = rest ++ [(key, r)]))
  /\ (cache c = [] -> max_size c <= 0 ->
      cache_put c key r = Raise StopIteration)
  /\ (cache_size c <= max_size c ->
      forall c', cache_put c key r = Ok c' ->
                 max_size c' = max_size c /\ cache_size c' <= max_size c').
Proof.
  intros Hnodup. split; [|split].
  - intros k0 r0 rest Hc Hcap. unfold cache_put.
    rewrite (evict_at_capacity c k0 r0 rest Hc Hcap). simpl.
    eexists; split; [reflexivity|]. cbn [cache].
    assert (Hk0 : PyDict.get rest k0 = None).
    { apply PyDict.get_none_keys. rewrite Hc in Hnodup.
      unfold PyDict.keys in Hnodup. simpl in Hnodup.
      apply NoDup_cons_iff in Hnodup. exact (proj1 Hnodup). }
    assert (Hlen : forall d : PyDict.t Receipt,
              Z.of_nat (List.length (d ++ [(key, r)]))
              = Z.of_nat (List.length d) + 1).
    { intros d. rewrite length_app. simpl. lia. }
    split; [apply PyDict.get_set_eq|]. split; [|split; [|split; [|split]]].
    + intros Hne. rewrite PyDict.get_set_ne by congruence. exact Hk0.
    + intros k Hk Hk'. rewrite PyDict.get_set_ne by congruence.
      rewrite Hc. simpl.
      destruct (String.eqb_spec k0 k); [congruence|reflexivity].
    + intros Hne Hin. unfold cache_size, PyDict.len. cbn [cache].
      rewrite Hc in Hin. simpl in Hin.
      destruct (String.eqb_spec k0 key); [contradiction|].
      rewrite (PyDict.set_length_present rest key r Hin), Hc. simpl. lia.
    + intros ->. rewrite (PyDict.set_fresh rest key r Hk0).
      split; [reflexivity|]. unfold cache_size, PyDict.len. cbn [cache].
      rewrite Hlen, Hc. simpl. lia.
    + intros Hfresh. apply PyDict.set_fresh. rewrite Hc in Hfresh.
      simpl in Hfresh. destruct (String.eqb k0 key); [discriminate|exact Hfresh].
  - intros Hc Hcap. unfold cache_put, evict. rewrite Hc.
    unfold PyDict.len. cbn [List.length PyDict.first_key].
    destruct (Z.geb_spec (Z.of_nat 0) (max_size c)); [reflexivity|lia].
  - intros Hinv c' Hput. now apply (cache_put_within_capacity c c' key r).
Qed.

(** ** [verify_receipt]: what a call leaves untouched *)

(** Every receipt the cache holds is a valid one. *)
Definition cache_all_valid (c : ReceiptCache) : Prop :=
  Forall (fun e => is_valid (snd e) = true) (cache c).

(** [w'] differs from [w] at most in the handles closed and the sleeps. *)
Definition same_store (w w' : world) : Prop :=
  w_heap w' = w_heap w /\ w_cache w' = w_cache w /\ w_posts w' = w_posts w
  /\ w_now w' = w_now w /\ w_net w' = w_net w.

Lemma same_store_refl (w : world) : same_store w w.
Proof. repeat split. Qed.

Lemma same_store_trans (w1 w2 w3 : world) :
  same_store w1 w2 -> same_store w2 w3 -> same_store w1 w3.
Proof.
  unfold same_store. intros (A1 & A2 & A3 & A4 & A5) (B1 & B2 & B3 & B4 & B5).
  repeat split; congruence.
Qed.

Lemma close_files_same_store files (w : world) : same_store w (close_files files w).
Proof.
  destruct files as [fs|]; simpl; [|apply same_store_refl].
  revert w. induction fs as [|[name f] fs IH]; intros w; simpl.
  - apply same_store_refl.
  - eapply same_store_trans; [|apply IH].
    destruct f; simpl; repeat split.
Qed.

Lemma sleep_same_store delay (w : world) : same_store w (sleep delay w).
Proof. repeat split. Qed.

(** A post reads the request dict and appends at most one log entry, whose
    data is that dict. *)
Lemma requests_post_frame rd files (w : world) res w1 :
  requests_post rd files w = (res, w1) ->
  w_heap w1 = w_heap w /\ w_cache w1 = w_cache w
  /\ (w_posts w1 = w_posts w
      \/ exists d, w_heap w !! rd = Some (ODict d)
                   /\ w_posts w1 = w_posts w
                        ++ [{| post_data := d; post_files := files |}]).
Proof.
  unfold requests_post.
  destruct (w_heap w !! rd) as [[d|p]|] eqn:Hrd;
    try (intros [= <- <-]; auto).
  destruct (reads_closed_file w files); [intros [= <- <-]; auto|].
  destruct (w_net w (List.length (w_posts w)));
    intros [= <- <-]; simpl; (split; [reflexivity|split; [reflexivity|]]);
    right; exists d; auto.
Qed.

Lemma evict_all_valid (c : ReceiptCache) (d : PyDict.t Receipt) :
  cache_all_valid c -> evict c = Ok d ->
  Forall (fun e => is_valid (snd e) = true) d.
Proof.
  exact (evict_sublist (fun r => is_valid r = true) c d).
Qed.

Lemma cache_put_all_valid (c c' : ReceiptCache) key (r : Receipt) :
  cache_all_valid c -> is_valid r = true -> cache_put c key r = Ok c' ->
  cache_all_valid c'.
Proof.
  intros Hall Hr. unfold cache_put.
  destruct (evict c) as [d|e] eqn:He; simpl; [|discriminate].
  intros [= <-]. unfold cache_all_valid. simpl.
  apply (PyDict.set_values (fun r => is_valid r = true)); [exact Hr|].
  now apply (evict_all_valid c).
Qed.

Lemma on_success_frame cache_key response (w : world) r w' :
  on_success cache_key response w = (r, w') ->
  w_heap w' = w_heap w /\ w_posts w' = w_posts w
  /\ (cache_all_valid (w_cache w) -> cache_all_valid (w_cache w')).
Proof.
  unfold on_success.
  destruct (from_api_response (w_now w) response) as [formed|e];
    [|intros [= <- <-]; auto].
  destruct (key_truthy cache_key) as [k|]; [|intros [= <- <-]; auto].
  destruct (is_valid formed) eqn:Hv; [|intros [= <- <-]; auto].
  destruct (cache_put (w_cache w) k formed) as [c'|e] eqn:Hput;
    intros [= <- <-]; auto.
  simpl. repeat split. intros Hall. now apply (cache_put_all_valid (w_cache w) c' k formed).
Qed.

(** The loop never writes to the heap; it stores only valid receipts; and
    every request it sends carries the dict at [request_dict]. *)
Lemma retry_loop_frame v rd files cache_key (remaining : nat) :
  forall (attempt : nat) (w : world) r w',
    retry_loop v rd files cache_key remaining attempt w = (r, w') ->
    w_heap w' = w_heap w
    /\ (cache_all_valid (w_cache w) -> cache_all_valid (w_cache w'))
    /\ exists new, w_posts w' = w_posts w ++ new
         /\ Forall (fun p => w_heap w !! rd = Some (ODict (post_data p))) new.
Proof.
  induction remaining as [|remaining IH]; intros attempt w r w'; simpl.
  - intros [= <- <-]. repeat split; auto. exists []. now rewrite app_nil_r.
  - destruct (requests_post rd files w) as [res w1] eqn:Hpost.
    destruct (requests_post_frame _ _ _ _ _ Hpost) as (Hh1 & Hc1 & Hp1).
    assert (Hsent : exists sent, w_posts w1 = w_posts w ++ sent
              /\ Forall (fun p => w_heap w !! rd = Some (ODict (post_data p))) sent).
    { destruct Hp1 as [Hp1|(d & Hd & Hp1)].
      - exists []. now rewrite app_nil_r.
      - eexists; split; [exact Hp1|]. constructor; [exact Hd|constructor]. }
    destruct Hsent as (sent & Hsent & Hsent_ok).
    assert (Hstop : forall w2, w_heap w2 = w_heap w1 ->
              w_posts w2 = w_posts w1 ->
              (cache_all_valid (w_cache w1) -> cache_all_valid (w_cache w2)) ->
              w_heap (close_files files w2) = w_heap w
              /\ (cache_all_valid (w_cache w) ->
                  cache_all_valid (w_cache (close_files files w2)))
              /\ exists new, w_posts (close_files files w2) = w_posts w ++ new
                   /\ Forall (fun p => w_heap w !! rd = Some (ODict (post_data p))) new).
    { intros w2 Hh2 Hp2 Hc2.
      destruct (close_files_same_store files w2) as (Ch & Cc & Cp & _).
      rewrite Ch, Cc, Cp, Hh2, Hp2, Hh1. repeat split; auto.
      - intros Hall. apply Hc2. now rewrite Hc1.
      - exists sent. auto. }
    assert (Hgo : forall delay r0 w0,
              match time_sleep delay w1 with
              | Ok w2 =>
                  retry_loop v rd files cache_key remaining (S attempt)
                    (close_files files w2)
              | Raise e => (Raise e, close_files files w1)
              end = (r0, w0) ->
              w_heap w0 = w_heap w
              /\ (cache_all_valid (w_cache w) -> cache_all_valid (w_cache w0))
              /\ exists new, w_posts w0 = w_posts w ++ new
                   /\ Forall (fun p => w_heap w !! rd = Some (ODict (post_data p))) new).
    { intros delay r0 w0. unfold time_sleep.
      destruct (Qle_bool 0 delay); [|intros [= <- <-]; apply Hstop; auto].
      intros Hloop.
      destruct (IH _ _ _ _ Hloop) as (Ih & Ic & new & Ip & Inew).
      destruct (close_files_same_store files (sleep delay w1)) as (Ch & Cc & Cp & _).
      simpl in Ch, Cc, Cp. rewrite Ch, Hh1 in Ih, Inew. rewrite Cc, Hc1 in Ic.
      rewrite Cp, Hsent in Ip. repeat split; auto.
      exists (sent ++ new). rewrite app_assoc. split; [exact Ip|].
      apply Forall_app; auto. }
    destruct res as [e|msg|response].
    + intros [= <- <-]. apply Hstop; auto.
    + destruct (Z.of_nat attempt <? max_retries (retry_handler v) - 1).
      * apply Hgo.
      * intros [= <- <-]. apply Hstop; auto.
    + destruct (Py.get response "code" (JInt (-1))) as [c|e].
      * destruct (Py.eq_int c 1).
        -- destruct (on_success cache_key response w1) as [r2 w2] eqn:Hs.
           destruct (on_success_frame _ _ _ _ _ Hs) as (Sh & Sp & Sc).
           intros [= <- <-]. apply Hstop; auto.
        -- destruct (should_retry c
                     && (Z.of_nat attempt <? max_retries (retry_handler v) - 1)).
           ++ apply Hgo.
           ++ intros [= <- <-]. apply Hstop; auto.
      * intros [= <- <-]. apply Hstop; auto.
Qed.

(** Writes to the dict at [rd] leave every other address alone. *)
Definition writes_only (rd : loc) (w w' : world) : Prop :=
  (forall l, l <> rd -> w_heap w' !! l = w_heap w !! l)
  /\ w_cache w' = w_cache w /\ w_posts w' = w_posts w.

Lemma writes_only_refl rd (w : world) : writes_only rd w w.
Proof. repeat split. Qed.

Lemma writes_only_trans rd (w1 w2 w3 : world) :
  writes_only rd w1 w2 -> writes_only rd w2 w3 -> writes_only rd w1 w3.
Proof.
  intros (A1 & A2 & A3) (B1 & B2 & B3). repeat split; try congruence.
  intros l Hl. rewrite B1, A1; auto.
Qed.

Lemma heap_setitem_writes_only rd k val (w : world) :
  writes_only rd w (heap_setitem rd k val w).
Proof.
  unfold heap_setitem.
  destruct (w_heap w !! rd) as [[d|p]|]; try apply writes_only_refl.
  repeat split. intros l Hl. simpl. now apply list_lookup_insert_ne.
Qed.

(** The dict at [rd] maps [k] to [val]. *)
Definition has_entry (rd : loc) (k val : string) (w : world) : Prop :=
  exists d, w_heap w !! rd = Some (ODict d) /\ PyDict.get d k = Some val.

Definition is_dict (rd : loc) (w : world) : Prop :=
  exists d, w_heap w !! rd = Some (ODict d).

Lemma heap_setitem_is_dict rd k val (w : world) :
  is_dict rd w -> is_dict rd (heap_setitem rd k val w).
Proof.
  intros (d & Hd). unfold heap_setitem, is_dict. rewrite Hd. simpl.
  eexists. apply list_lookup_insert_eq. now apply lookup_lt_Some in Hd.
Qed.

Lemma heap_setitem_sets rd k val (w : world) :
  is_dict rd w -> has_entry rd k val (heap_setitem rd k val w).
Proof.
  intros (d & Hd). unfold heap_setitem, has_entry. rewrite Hd. simpl.
  eexists. split.
  - apply list_lookup_insert_eq. now apply lookup_lt_Some in Hd.
  - apply PyDict.get_set_eq.
Qed.

Lemma heap_setitem_keeps rd k val k' val' (w : world) :
  k' <> k -> has_entry rd k val w -> has_entry rd k val (heap_setitem rd k' val' w).
Proof.
  intros Hne (d & Hd & Hk). unfold heap_setitem, has_entry. rewrite Hd. simpl.
  eexists. split.
  - apply list_lookup_insert_eq. now apply lookup_lt_Some in Hd.
  - rewrite PyDict.get_set_ne; auto.
Qed.

Lemma add_promo_writes_only rd promo (w : world) :
  writes_only rd w (add_promo rd promo w).
Proof.
  unfold add_promo. destruct promo as [z|]; [|apply writes_only_refl].
  destruct (z =? 0); [apply writes_only_refl|apply heap_setitem_writes_only].
Qed.

Lemma add_promo_keeps rd promo k val (w : world) :
  k <> "promo_id" -> has_entry rd k val w -> has_entry rd k val (add_promo rd promo w).
Proof.
  intros Hne H. unfold add_promo. destruct promo as [z|]; auto.
  destruct (z =? 0); auto. apply heap_setitem_keeps; auto.
Qed.

Lemma add_promo_sets rd z (w : world) :
  z <> 0 -> is_dict rd w ->
  has_entry rd "promo_id" (pretty z) (add_promo rd (Some z) w).
Proof.
  intros Hz Hd. unfold add_promo.
  destruct (Z.eqb_spec z 0); [contradiction|]. now apply heap_setitem_sets.
Qed.

Lemma userdata_fold_writes_only rd (ud : PyDict.t string) : forall w : world,
  writes_only rd w
    (fold_left (fun w' e => heap_setitem rd ("userdata_" +:+ fst e) (snd e) w') ud w).
Proof.
  induction ud as [|[k val] ud IH]; intros w; simpl.
  - apply writes_only_refl.
  - eapply writes_only_trans; [apply heap_setitem_writes_only|apply IH].
Qed.

Lemma userdata_fold_keeps rd k val (ud : PyDict.t string) : forall w : world,
  (forall k', "userdata_" +:+ k' <> k) -> has_entry rd k val w ->
  has_entry rd k val
    (fold_left (fun w' e => heap_setitem rd ("userdata_" +:+ fst e) (snd e) w') ud w).
Proof.
  induction ud as [|[k0 v0] ud IH]; intros w Hne H; simpl; auto.
  apply IH; auto. apply heap_setitem_keeps; auto.
Qed.

Lemma add_userdata_frame rd userdata (w w' : world) :
  add_userdata rd userdata w = Ok w' ->
  writes_only rd w w'
  /\ (forall k val, (forall k', "userdata_" +:+ k' <> k) ->
         has_entry rd k val w -> has_entry rd k val w').
Proof.
  unfold add_userdata. destruct userdata as [u|].
  - destruct (w_heap w !! u) as [[ud|p]|]; try discriminate.
    intros [= <-]. split.
    + apply userdata_fold_writes_only.
    + intros k val Hne H. now apply userdata_fold_keeps.
  - intros [= <-]. split; [apply writes_only_refl|auto].
Qed.

Lemma check_cache_frame cache_key (w : world) cached w' :
  check_cache cache_key w = (cached, w') ->
  w_heap w' = w_heap w /\ w_posts w' = w_posts w /\ w_sleeps w' = w_sleeps w
  /\ w_closed w' = w_closed w
  /\ cache (w_cache w') = cache (w_cache w)
  /\ max_size (w_cache w') = max_size (w_cache w).
Proof.
  unfold check_cache. destruct (key_truthy cache_key) as [k|].
  - destruct (cache_get (w_cache w) k) as [r c'] eqn:Hget.
    intros [= <- <-]. simpl.
    destruct (cache_get_entries (w_cache w) k) as (Hc & Hm & _).
    rewrite Hget in Hc, Hm. simpl in Hc, Hm. auto 10.
  - intros [= <- <-]. auto 10.
Qed.

(** What the requests sent by one call carry. *)
Definition augmented (v : ReceiptVerifier) (promo_id : option Z)
    (p : post_record) : Prop :=
  PyDict.get (post_data p) "token" = Some (token v)
  /\ (forall z, promo_id = Some z -> z <> 0 ->
        PyDict.get (post_data p) "promo_id" = Some (pretty z)).

Lemma userdata_key_not_token k : "userdata_" +:+ k <> "token".
Proof. simpl. discriminate. Qed.

Lemma userdata_key_not_promo k : "userdata_" +:+ k <> "promo_id".
Proof. simpl. discriminate. Qed.

Lemma verify_receipt_frame v req files promo_id userdata (w : world) r w' :
  verify_receipt v req files promo_id userdata w = (r, w') ->
  (forall l, (l < List.length (w_heap w))%nat -> w_heap w' !! l = w_heap w !! l)
  /\ (cache_all_valid (w_cache w) -> cache_all_valid (w_cache w'))
  /\ exists new, w_posts w' = w_posts w ++ new
                  /\ Forall (augmented v promo_id) new.
Proof.
  unfold verify_receipt.
  destruct (w_heap w !! req) as [o|] eqn:Hreq.
  2:{ intros [= <- <-]. repeat split; auto. exists []. now rewrite app_nil_r. }
  set (rd := List.length (w_heap w)).
  set (fresh := match o with OParams p => to_dict p | ODict d => d end).
  set (w1 := with_heap w (w_heap w ++ [ODict fresh])).
  destruct (check_cache (cache_key_of o) w1) as [cached w2] eqn:Hcheck.
  destruct (check_cache_frame _ _ _ _ Hcheck) as (Hh2 & Hp2 & _ & _ & Hc2 & _).
  assert (Hold : forall l, (l < rd)%nat -> w_heap w2 !! l = w_heap w !! l).
  { intros l Hl. rewrite Hh2. simpl. now apply lookup_app_l. }
  assert (Hvalid2 : cache_all_valid (w_cache w) -> cache_all_valid (w_cache w2)).
  { unfold cache_all_valid. now rewrite Hc2. }
  destruct cached as [cached|].
  { intros [= <- <-]. repeat split; auto.
    exists []. rewrite Hp2. simpl. now rewrite app_nil_r. }
  assert (Hdict2 : is_dict rd w2).
  { exists fresh. rewrite Hh2. simpl. unfold rd.
    rewrite lookup_app_r by lia. now rewrite Nat.sub_diag. }
  set (w3 := heap_setitem rd "token" (token v) w2).
  set (w4 := add_promo rd promo_id w3).
  assert (Hw4 : writes_only rd w2 w4).
  { eapply writes_only_trans;
      [apply heap_setitem_writes_only|apply add_promo_writes_only]. }
  assert (Htok4 : has_entry rd "token" (token v) w4).
  { apply add_promo_keeps; [discriminate|]. now apply heap_setitem_sets. }
  assert (Hpromo4 : forall z, promo_id = Some z -> z <> 0 ->
            has_entry rd "promo_id" (pretty z) w4).
  { intros z -> Hz. apply add_promo_sets; auto.
    now apply heap_setitem_is_dict. }
  destruct Hw4 as (Hl4 & Hc4 & Hp4).
  destruct (add_userdata rd userdata w4) as [w5|e] eqn:Hud.
  2:{ intros [= <- <-]. repeat split.
      - intros l Hl. rewrite Hl4 by lia. now apply Hold.
      - rewrite Hc4. exact Hvalid2.
      - exists []. rewrite Hp4, Hp2. simpl. now rewrite app_nil_r. }
  destruct (add_userdata_frame _ _ _ _ Hud) as ((Hl5 & Hc5 & Hp5) & Hkeep).
  intros Hloop.
  destruct (retry_loop_frame _ _ _ _ _ _ _ _ _ Hloop) as (Hh & Hc & new & Hp & Hnew).
  repeat split.
  - intros l Hl. rewrite Hh, Hl5, Hl4 by lia. now apply Hold.
  - intros Hall. apply Hc. rewrite Hc5, Hc4. now apply Hvalid2.
  - exists new. rewrite Hp, Hp5, Hp4, Hp2. split; [reflexivity|].
    eapply Forall_impl; [exact Hnew|]. intros p Hpd. split.
    + destruct (Hkeep "token" (token v) userdata_key_not_token Htok4)
        as (d & Hd & Hget).
      rewrite Hd in Hpd. now injection Hpd as ->.
    + intros z Hz Hz0.
      destruct (Hkeep "promo_id" (pretty z) userdata_key_not_promo
                  (Hpromo4 z Hz Hz0)) as (d & Hd & Hget).
      rewrite Hd in Hpd. now injection Hpd as ->.
Qed.

(** C9: [verify_receipt] changes no object the caller holds. Every address
    allocated before the call, the one of [request_data] included, holds
    after the call what it held before, whether the call returns or
    raises; the requests it sends nevertheless carry [token] and, when one
    is given, [promo_id]. *)
Theorem verify_receipt_does_not_mutate_request
    v (request_data : loc) files promo_id userdata (w : world) :
  let w' := snd (verify_receipt v request_data files promo_id userdata w) in
  (forall l o, w_heap w !! l = Some o -> w_heap w' !! l = Some o)
  /\ (exists new, w_posts w' = w_posts w ++ new
                   /\ Forall (augmented v promo_id) new).
Proof.
  intros w'.
  destruct (verify_receipt v request_data files promo_id userdata w)
    as [r w0] eqn:Hcall.
  destruct (verify_receipt_frame _ _ _ _ _ _ _ _ Hcall) as (Hheap & _ & Hposts).
  subst w'. simpl. split; [|exact Hposts].
  intros l o Hl. rewrite Hheap; [exact Hl|]. now apply lookup_lt_Some in Hl.
Qed.

(** C5 (as amended): [verify_receipt] stores a receipt only behind its own
    [is_valid] test, so a cache that holds only valid receipts holds only
    valid receipts after any call, whatever the service answers. *)
Theorem verify_receipt_keeps_cache_valid
    v (request_data : loc) files promo_id userdata (w : world) :
  cache_all_valid (w_cache w) ->
  cache_all_valid
    (w_cache (snd (verify_receipt v request_data files promo_id userdata w))).
Proof.
  intros Hall.
  destruct (verify_receipt v request_data files promo_id userdata w)
    as [r w0] eqn:Hcall.
  destruct (verify_receipt_frame _ _ _ _ _ _ _ _ Hcall) as (_ & Hvalid & _).
  simpl. now apply Hvalid.
Qed.

Lemma cache_key_truthy (o : obj) (k : string) :
  cache_key_of o = Some k -> key_truthy (Some k) = Some k.
Proof.
  intros Hk. assert (Hne : k <> "").
  { destruct o as [d|p]; simpl in Hk.
    - destruct (PyDict.get d "qrraw"); [|discriminate].
      injection Hk as <-. apply MD5.hexdigest_nonempty.
    - injection Hk as <-. apply MD5.hexdigest_nonempty. }
  simpl. destruct (String.eqb_spec k ""); [contradiction|reflexivity].
Qed.

(** C7: when the request has a cache key and the cache holds a receipt
    under it, [verify_receipt] returns that receipt and performs no network
    call (and no sleep, and closes nothing); the cache records one hit. *)
Theorem verify_receipt_cache_hit
    v (request_data : loc) files promo_id userdata (w : world)
    (o : obj) (k : string) (r : Receipt) :
  w_heap w !! request_data = Some o ->
  cache_key_of o = Some k ->
  PyDict.get (cache (w_cache w)) k = Some r ->
  exists w',
    verify_receipt v request_data files promo_id userdata w = (Ok r, w')
    /\ w_posts w' = w_posts w
    /\ w_sleeps w' = w_sleeps w
    /\ w_closed w' = w_closed w
    /\ cache (w_cache w') = cache (w_cache w)
    /\ hits (w_cache w') = hits (w_cache w) + 1
    /\ misses (w_cache w') = misses (w_cache w).
Proof.
  intros Hreq Hkey Hget. unfold verify_receipt. rewrite Hreq.
  unfold check_cache. rewrite Hkey, (cache_key_truthy o k Hkey).
  unfold cache_get. simpl. rewrite Hget. simpl.
  eexists. split; [reflexivity|]. simpl. auto 10.
Qed.

(** ** The parser and the retry loop on particular answers *)

Lemma parse_date_none (date_str : string) :
  date_str = "" \/ strptime date_str "%Y-%m-%dT%H:%M:%S" = None ->
  parse_date (JStr date_str) = Ok None.
Proof.
  unfold parse_date. simpl.
  destruct (String.eqb_spec date_str "") as [->|Hne]; simpl; [reflexivity|].
  intros [H|H]; [contradiction|now rewrite H].
Qed.

(** C3, on the code: for a response with [code == 1] whose timestamp is
    absent or does not parse ([parse_date] yields [None]) and whose items
    parse, [from_api_response] raises [AttributeError] at
    [date_time.strftime] instead of returning a receipt. *)
Theorem from_api_response_raises_without_timestamp
    (now : datetime) (response payload date_str items_raw : json)
    (items_seq : list json) (parsed : list ReceiptItem) :
  Py.get response "code" (JInt (-1)) = Ok (JInt 1) ->
  (d ← Py.get response "data" (JObj []); Py.get d "json" (JObj [])) = Ok payload ->
  Py.get payload "dateTime" (JStr "") = Ok date_str ->
  parse_date date_str = Ok None ->
  Py.get payload "items" (JArr []) = Ok items_raw ->
  Py.iter items_raw = Ok items_seq ->
  parse_items items_seq = Ok parsed ->
  from_api_response now response = Raise AttributeError.
Proof.
  intros Hcode Hdata Hstamp Hdate Hraw Hseq Hitems.
  unfold from_api_response. rewrite Hcode. simpl.
  destruct (Py.get response "data" (JObj [])) as [d|e]; simpl in Hdata;
    [|discriminate].
  simpl. rewrite Hdata. simpl.
  rewrite Hstamp. simpl. rewrite Hdate. simpl.
  rewrite Hraw. simpl. rewrite Hseq. simpl. rewrite Hitems. simpl.
  destruct payload; try discriminate. reflexivity.
Qed.

(** What [from_api_response] makes of a retryable answer. *)
Lemma from_api_response_retryable (now : datetime) (response : json) (c : Z) :
  Py.get response "code" (JInt (-1)) = Ok (JInt c) ->
  c = 2 \/ c = 3 \/ c = 4 ->
  exists msg, from_api_response now response
              = Ok (invalid_receipt (JInt c) (JStr msg) now)
              /\ msg <> "Max retries exceeded".
Proof.
  intros Hcode Hc. unfold from_api_response. rewrite Hcode.
  destruct Hc as [-> | [-> | ->]]; simpl; eexists; (split; [reflexivity|discriminate]).
Qed.

Lemma heap_setitem_env rd k val (w : world) :
  w_now (heap_setitem rd k val w) = w_now w
  /\ w_net (heap_setitem rd k val w) = w_net w
  /\ w_closed (heap_setitem rd k val w) = w_closed w
  /\ w_sleeps (heap_setitem rd k val w) = w_sleeps w.
Proof.
  unfold heap_setitem. destruct (w_heap w !! rd) as [[d|p]|]; simpl; auto.
Qed.

Lemma add_promo_env rd promo (w : world) :
  w_now (add_promo rd promo w) = w_now w
  /\ w_net (add_promo rd promo w) = w_net w
  /\ w_closed (add_promo rd promo w) = w_closed w
  /\ w_sleeps (add_promo rd promo w) = w_sleeps w.
Proof.
  unfold add_promo. destruct promo as [z|]; auto.
  destruct (z =? 0); auto. apply heap_setitem_env.
Qed.

Lemma add_promo_is_dict rd promo (w : world) :
  is_dict rd w -> is_dict rd (add_promo rd promo w).
Proof.
  intros H. unfold add_promo. destruct promo as [z|]; auto.
  destruct (z =? 0); auto. now apply heap_setitem_is_dict.
Qed.

Lemma retry_loop_unfold v rd files cache_key (remaining attempt : nat) (w : world) :
  retry_loop v rd files cache_key (S remaining) attempt w
  = let rh := retry_handler v in
    let more := Z.of_nat attempt <? max_retries rh - 1 in
    match requests_post rd files w with
    | (PostRaise e, w1) => (Raise e, close_files files w1)
    | (PostFail msg, w1) =>
        if more then
          match time_sleep (network_delay rh attempt) w1 with
          | Ok w2 =>
              retry_loop v rd files cache_key remaining (S attempt)
                (close_files files w2)
          | Raise e => (Raise e, close_files files w1)
          end
        else (Ok (network_error_receipt msg w1), close_files files w1)
    | (PostJson response, w1) =>
        match Py.get response "code" (JInt (-1)) with
        | Raise e => (Raise e, close_files files w1)
        | Ok c =>
            if Py.eq_int c 1 then
              let (r, w2) := on_success cache_key response w1 in
              (r, close_files files w2)
            else if should_retry c && more then
              match time_sleep (get_delay rh c attempt) w1 with
              | Ok w2 =>
                  retry_loop v rd files cache_key remaining (S attempt)
                    (close_files files w2)
              | Raise e => (Raise e, close_files files w1)
              end
            else (from_api_response (w_now w1) response, close_files files w1)
        end
    end.
Proof. reflexivity. Qed.

(** A post that reads no closed file and finds the request dict in place
    is logged and answered by the network. *)
Lemma requests_post_sent rd files (w : world) d :
  w_heap w !! rd = Some (ODict d) ->
  reads_closed_file w files = false ->
  requests_post rd files w
  = (match w_net w (List.length (w_posts w)) with
     | NetError msg => PostFail msg
     | NetJson body => PostJson body
     end,
     log_post {| post_data := d; post_files := files |} w).
Proof.
  intros Hd Hopen. unfold requests_post. rewrite Hd, Hopen.
  now destruct (w_net w (List.length (w_posts w))).
Qed.

Lemma get_delay_nonneg (rh : RetryHandler) (c : json) (attempt : nat) :
  (0 <= base_delay rh)%Q -> (0 <= get_delay rh c attempt)%Q.
Proof.
  intros Hbase. unfold get_delay.
  destruct (Py.eq_int c 3); [|destruct (Py.eq_int c 4); [|destruct (Py.eq_int c 2)]].
  - apply Qmult_le_0_compat; [exact Hbase|].
    change 0%Q with (inject_Z 0). rewrite <- Zle_Qle. apply Z.pow_nonneg. lia.
  - apply Qmult_le_0_compat; [exact Hbase|discriminate].
  - apply Qmult_le_0_compat; [exact Hbase|]. apply Qpower_0_le. discriminate.
  - exact Hbase.
Qed.

Lemma time_sleep_nonneg (delay : Q) (w : world) :
  (0 <= delay)%Q -> time_sleep delay w = Ok (sleep delay w).
Proof.
  intros Hd. unfold time_sleep. apply Qle_bool_iff in Hd. now rewrite Hd.
Qed.

(** When every remaining attempt is answered with a retryable code, the
    last iteration takes the fall-through [return] and hands back the
    parse of the last answer. *)
Lemma retry_loop_all_retryable v rd cache_key (m : nat)
    (resp : nat -> json) (c : nat -> Z) :
  max_retries (retry_handler v) = Z.of_nat (S m) ->
  (0 <= base_delay (retry_handler v))%Q ->
  (forall j, (j <= m)%nat ->
     Py.get (resp j) "code" (JInt (-1)) = Ok (JInt (c j))
     /\ (c j = 2 \/ c j = 3 \/ c j = 4)) ->
  forall (remaining attempt : nat) (w : world),
    (attempt + S remaining = S m)%nat ->
    is_dict rd w ->
    (forall i, (i <= remaining)%nat ->
       w_net w (List.length (w_posts w) + i)%nat = NetJson (resp (attempt + i)%nat)) ->
    exists w',
      retry_loop v rd None cache_key (S remaining) attempt w
      = (from_api_response (w_now w) (resp m), w')
      /\ List.length (w_posts w') = (List.length (w_posts w) + S remaining)%nat
      /\ List.length (w_sleeps w') = (List.length (w_sleeps w) + remaining)%nat
      /\ w_now w' = w_now w.
Proof.
  intros Hmax Hbase Hresp. induction remaining as [|remaining IH];
    intros attempt w Hsum (d & Hd) Hnet;
    rewrite retry_loop_unfold, (requests_post_sent rd None w d Hd eq_refl);
    pose proof (Hnet 0%nat ltac:(lia)) as Hnet0;
    rewrite !Nat.add_0_r in Hnet0; rewrite Hnet0;
    destruct (Hresp attempt ltac:(lia)) as (Hcode & Hc);
    cbv zeta; rewrite Hcode, Hmax;
    replace (Py.eq_int (JInt (c attempt)) 1) with false
      by (destruct Hc as [-> | [-> | ->]]; reflexivity);
    replace (should_retry (JInt (c attempt))) with true
      by (destruct Hc as [-> | [-> | ->]]; reflexivity).
  - assert (attempt = m) by lia. subst attempt.
    replace (Z.of_nat m <? Z.of_nat (S m) - 1) with false
      by (symmetry; apply Z.ltb_ge; lia).
    cbn [andb close_files]. eexists. split; [reflexivity|].
    cbn [log_post w_posts w_sleeps w_now]. rewrite length_app.
    cbn [List.length]. repeat split; lia.
  - replace (Z.of_nat attempt <? Z.of_nat (S m) - 1) with true
      by (symmetry; apply Z.ltb_lt; lia).
    cbn [andb]. rewrite time_sleep_nonneg by now apply get_delay_nonneg.
    cbn [close_files].
    match goal with
    | |- context [retry_loop _ _ _ _ _ _ ?w2] =>
        destruct (IH (S attempt) w2) as (w' & Hloop & Hposts & Hsleeps & Hnow)
    end.
    + lia.
    + exists d. exact Hd.
    + intros i Hi. cbn [sleep log_post w_posts w_net]. rewrite length_app.
      cbn [List.length].
      replace (List.length (w_posts w) + 1 + i)%nat
        with (List.length (w_posts w) + S i)%nat by lia.
      rewrite Hnet by lia. f_equal. f_equal. lia.
    + exists w'. split; [exact Hloop|].
      cbn [sleep log_post w_posts w_sleeps w_now] in Hposts, Hsleeps, Hnow.
      rewrite length_app in Hposts, Hsleeps. cbn [List.length] in Hposts, Hsleeps.
      repeat split; try lia. exact Hnow.
Qed.

(** The world in which the retry loop starts: the fresh request dict holds
    the token and the promo id; nothing else has changed. *)
Definition prepared (v : ReceiptVerifier) (rd : loc) (promo_id : option Z)
    (w : world) : world :=
  add_promo rd promo_id (heap_setitem rd "token" (token v) w).

Lemma prepared_env v rd promo_id (w : world) :
  w_now (prepared v rd promo_id w) = w_now w
  /\ w_net (prepared v rd promo_id w) = w_net w
  /\ w_posts (prepared v rd promo_id w) = w_posts w
  /\ w_closed (prepared v rd promo_id w) = w_closed w
  /\ w_sleeps (prepared v rd promo_id w) = w_sleeps w
  /\ w_cache (prepared v rd promo_id w) = w_cache w
  /\ (is_dict rd w -> is_dict rd (prepared v rd promo_id w)).
Proof.
  unfold prepared.
  destruct (add_promo_env rd promo_id (heap_setitem rd "token" (token v) w))
    as (A1 & A2 & A3 & A4).
  destruct (heap_setitem_env rd "token" (token v) w) as (B1 & B2 & B3 & B4).
  destruct (add_promo_writes_only rd promo_id (heap_setitem rd "token" (token v) w))
    as (_ & C2 & C3).
  destruct (heap_setitem_writes_only rd "token" (token v) w) as (_ & D2 & D3).
  repeat split; try congruence.
  intros Hd. now apply add_promo_is_dict, heap_setitem_is_dict.
Qed.

(** [verify_receipt] after a cache miss (or without a cache key). *)
Lemma verify_receipt_miss v req files promo_id userdata (w : world) (o : obj) :
  w_heap w !! req = Some o ->
  (forall k, cache_key_of o = Some k -> PyDict.get (cache (w_cache w)) k = None) ->
  exists c',
    cache c' = cache (w_cache w) /\ max_size c' = max_size (w_cache w)
    /\ verify_receipt v req files promo_id userdata w
       = let rd := List.length (w_heap w) in
         let fresh := match o with OParams p => to_dict p | ODict d => d end in
         let w4 := prepared v rd promo_id
                     (with_cache (with_heap w (w_heap w ++ [ODict fresh])) c') in
         match add_userdata rd userdata w4 with
         | Raise e => (Raise e, w4)
         | Ok w5 =>
             retry_loop v rd files (cache_key_of o)
               (Z.to_nat (max_retries (retry_handler v))) 0 w5
         end.
Proof.
  intros Hreq Hmiss. unfold verify_receipt. rewrite Hreq. unfold check_cache.
  destruct (cache_key_of o) as [k|] eqn:Hk.
  - rewrite (cache_key_truthy o k Hk). unfold cache_get.
    cbn [w_cache with_heap]. rewrite (Hmiss k eq_refl).
    eexists. split; [|split; [|reflexivity]]; reflexivity.
  - cbn [key_truthy]. exists (w_cache w). repeat split.
Qed.

(** C2, on the code: with [max_retries >= 1], a non-negative base delay, a
    request that misses the cache and a service that answers every attempt with a retryable code,
    [verify_receipt] performs [max_retries] posts and returns the receipt
    parsed from the last answer, with that code and its canned message; it
    is not the "Max retries exceeded" receipt. *)
Theorem exhausted_retries_return_last_response
    v (request_data : loc) (p : RequestParams) promo_id (w : world)
    (m : nat) (resp : nat -> json) (c : nat -> Z) :
  max_retries (retry_handler v) = Z.of_nat (S m) ->
  (0 <= base_delay (retry_handler v))%Q ->
  w_heap w !! request_data = Some (OParams p) ->
  PyDict.get (cache (w_cache w)) (fingerprint p) = None ->
  (forall i, (i <= m)%nat ->
     w_net w (List.length (w_posts w) + i)%nat = NetJson (resp i)
     /\ Py.get (resp i) "code" (JInt (-1)) = Ok (JInt (c i))
     /\ (c i = 2 \/ c i = 3 \/ c i = 4)) ->
  let out := verify_receipt v request_data None promo_id None w in
  fst out = from_api_response (w_now w) (resp m)
  /\ (exists msg, fst out = Ok (invalid_receipt (JInt (c m)) (JStr msg) (w_now w))
                  /\ msg <> "Max retries exceeded")
  /\ fst out <> Ok (max_retries_receipt (snd out))
  /\ List.length (w_posts (snd out)) = (List.length (w_posts w) + S m)%nat.
Proof.
  intros Hmax Hbase Hreq Hmiss Hnet out.
  assert (Hout : exists w', out = (from_api_response (w_now w) (resp m), w')
            /\ List.length (w_posts w') = (List.length (w_posts w) + S m)%nat).
  { destruct (verify_receipt_miss v request_data None promo_id None w
                (OParams p) Hreq) as (c' & _ & _ & Hcall).
    { intros k [= <-]. exact Hmiss. }
    subst out. rewrite Hcall. cbv zeta. cbn [add_userdata].
    rewrite Hmax, Nat2Z.id.
    match goal with
    | |- context [retry_loop _ ?rd _ _ _ _ (prepared _ _ _ ?w2)] =>
        destruct (prepared_env v rd promo_id w2)
          as (Enow & Enet & Eposts & _ & _ & _ & Edict);
        destruct (retry_loop_all_retryable v rd (cache_key_of (OParams p)) m
                    resp c Hmax Hbase (fun j Hj => proj2 (Hnet j Hj)) m 0%nat
                    (prepared v rd promo_id w2))
          as (w' & Hloop & Hposts & _ & _)
    end.
    - lia.
    - apply Edict. eexists. cbn [with_cache with_heap w_heap].
      rewrite lookup_app_r by lia. now rewrite Nat.sub_diag.
    - intros i Hi. rewrite Enet, Eposts. cbn [with_cache with_heap w_net w_posts].
      apply Hnet. exact Hi.
    - exists w'. rewrite Hloop, Enow, Hposts, Eposts. split; reflexivity. }
  destruct Hout as (w' & Hout & Hposts).
  destruct (Hnet m (Nat.le_refl m)) as (_ & Hcode & Hc).
  destruct (from_api_response_retryable (w_now w) (resp m) (c m) Hcode Hc)
    as (msg & Hparse & Hmsg).
  rewrite Hout. cbn [fst snd]. repeat split.
  - exists msg. split; [exact Hparse|exact Hmsg].
  - rewrite Hparse. unfold max_retries_receipt, invalid_receipt.
    intros [= E1 E2 E3]. apply Hmsg. exact E3.
  - exact Hposts.
Qed.

Lemma requests_post_closed rd files (w : world) d :
  w_heap w !! rd = Some (ODict d) ->
  reads_closed_file w files = true ->
  requests_post rd files w = (PostRaise ValueError, w).
Proof.
  intros Hd Hclosed. unfold requests_post. now rewrite Hd, Hclosed.
Qed.

Lemma is_closed_after_close (w : world) (h : handle) :
  is_closed (close h w) h = true.
Proof.
  unfold is_closed, close. cbn [w_closed]. rewrite existsb_app. cbn [existsb].
  rewrite Nat.eqb_refl. now rewrite orb_true_r.
Qed.

(** C8, on the code: the [finally] block sits inside the loop. With a file
    handle attached, at least two attempts allowed and a retryable first
    answer, the handle is closed before the second attempt; that attempt
    reads the closed file and raises [ValueError]; and [close] has then
    been called twice on the handle. *)
Theorem retry_runs_on_closed_handle
    v (request_data : loc) (d : PyDict.t string) (h : handle) (w : world)
    (resp : json) (c : Z) :
  2 <= max_retries (retry_handler v) ->
  (0 <= base_delay (retry_handler v))%Q ->
  w_heap w !! request_data = Some (ODict d) ->
  PyDict.get d "qrraw" = None ->
  is_closed w h = false ->
  w_net w (List.length (w_posts w)) = NetJson resp ->
  Py.get resp "code" (JInt (-1)) = Ok (JInt c) ->
  c = 2 \/ c = 3 \/ c = 4 ->
  exists w',
    verify_receipt v request_data (Some [("qrfile", FileObj h)]) None None w
    = (Raise ValueError, w')
    /\ w_closed w' = w_closed w ++ [h; h]
    /\ List.length (w_posts w') = S (List.length (w_posts w))
    /\ List.length (w_sleeps w') = S (List.length (w_sleeps w)).
Proof.
  intros Hmax Hbase Hreq Hraw Hopen Hnet Hcode Hc.
  destruct (verify_receipt_miss v request_data (Some [("qrfile", FileObj h)])
              None None w (ODict d) Hreq) as (c' & _ & _ & Hcall).
  { cbn [cache_key_of]. rewrite Hraw. discriminate. }
  rewrite Hcall. cbv zeta. cbn [add_userdata].
  destruct (Z.to_nat (max_retries (retry_handler v))) as [|[|k]] eqn:Hk;
    try lia.
  match goal with
  | |- context [retry_loop _ ?rd _ _ _ _ (prepared _ _ _ ?w2)] =>
      destruct (prepared_env v rd None w2)
        as (Enow & Enet & Eposts & Eclosed & Esleeps & _ & Edict);
      assert (Hdict : is_dict rd (prepared v rd None w2));
      [ apply Edict; eexists; cbn [with_cache with_heap w_heap];
        rewrite lookup_app_r by lia; now rewrite Nat.sub_diag |];
      set (w4 := prepared v rd None w2) in *
  end.
  cbn [with_cache with_heap w_now w_net w_posts w_closed w_sleeps]
    in Enow, Enet, Eposts, Eclosed, Esleeps.
  destruct Hdict as (d4 & Hd4).
  rewrite retry_loop_unfold. cbv zeta.
  rewrite (requests_post_sent _ _ w4 d4 Hd4).
  2:{ unfold reads_closed_file. cbn [existsb snd]. unfold is_closed.
      rewrite Eclosed. fold (is_closed w h). now rewrite Hopen. }
  rewrite Enet, Eposts, Hnet, Hcode.
  replace (Py.eq_int (JInt c) 1) with false
    by (destruct Hc as [-> | [-> | ->]]; reflexivity).
  replace (should_retry (JInt c)) with true
    by (destruct Hc as [-> | [-> | ->]]; reflexivity).
  replace (Z.of_nat 0 <? max_retries (retry_handler v) - 1) with true
    by (symmetry; apply Z.ltb_lt; lia).
  cbn [andb]. rewrite time_sleep_nonneg by now apply get_delay_nonneg.
  rewrite retry_loop_unfold. cbv zeta.
  cbn [close_files fold_left snd].
  rewrite (requests_post_closed _ _ _ d4).
  - eexists. split; [reflexivity|].
    cbn [close_files fold_left snd close sleep log_post
         w_closed w_posts w_sleeps].
    rewrite Eclosed, Eposts, Esleeps, <- app_assoc, !length_app.
    cbn [List.length app]. repeat split; lia.
  - exact Hd4.
  - unfold reads_closed_file. cbn [existsb snd].
    rewrite is_closed_after_close. reflexivity.
Qed.

(** ** More on the parser *)

Lemma bind_Ok {A B : Type} (m : result A) (k : A -> result B) (b : B) :
  (x ← m; k x) = Ok b -> exists a, m = Ok a /\ k a = Ok b.
Proof.
  destruct m as [a|e]; simpl; [|discriminate]. intros H. exists a. auto.
Qed.

(** Peel the binds of a computation known to return. *)
Ltac bind_inv H :=
  repeat (let a := fresh "a" in let Ha := fresh "Ha" in
          apply bind_Ok in H; destruct H as (a & Ha & H)).

Lemma eq_int_unique (c : json) (n m : Z) :
  Py.eq_int c n = true -> Py.eq_int c m = true -> n = m.
Proof.
  destruct c as [|b|z|q|s0|l|d]; simpl; try discriminate.
  - intros Hn Hm. apply Z.eqb_eq in Hn, Hm. congruence.
  - intros Hn Hm. apply Z.eqb_eq in Hn, Hm. congruence.
  - intros Hn Hm. apply Qeq_bool_iff in Hn, Hm.
    rewrite Hn in Hm. unfold Qeq, inject_Z in Hm. simpl in Hm. lia.
Qed.

Lemma error_message_of_Some (c : json) (msg : string) :
  error_message_of c = Ok (Some msg) -> Py.eq_int c 1 = false.
Proof.
  unfold error_message_of. destruct (Py.hashable c); [|discriminate].
  destruct (find (fun e => Py.eq_int c (fst e)) error_messages)
    as [[n s0]|] eqn:Hf; [|discriminate]. intros _.
  apply find_some in Hf. destruct Hf as [Hin Heq]. simpl in Heq.
  destruct (Py.eq_int c 1) eqn:H1; [|reflexivity].
  pose proof (eq_int_unique c n 1 Heq H1) as ->.
  simpl in Hin. repeat (destruct Hin as [Hin|Hin]; [discriminate Hin|]).
  contradiction.
Qed.

(** X1: whatever [from_api_response] returns, the receipt is valid exactly
    when the response code equals 1. A valid receipt carries no error
    message and keeps the response verbatim; an invalid one carries an
    error message, the time of the call, and no business data. *)
Theorem from_api_response_validity (now : datetime) (response : json)
    (r : Receipt) :
  from_api_response now response = Ok r ->
  Py.get response "code" (JInt (-1)) = Ok (code r)
  /\ is_valid r = Py.eq_int (code r) 1
  /\ (is_valid r = true ->
      error_message r = None /\ raw_response r = response)
  /\ (is_valid r = false ->
      exists msg, r = invalid_receipt (code r) msg now).
Proof.
  unfold from_api_response. intros H.
  apply bind_Ok in H. destruct H as (c & Hc & H).
  apply bind_Ok in H. destruct H as (canned & Hcanned & H).
  destruct canned as [msg|].
  - injection H as <-. simpl. split; [exact Hc|]. split.
    + symmetry. now apply (error_message_of_Some c msg).
    + split; [discriminate|]. intros _. eexists. reflexivity.
  - destruct (Py.eq_int c 1) eqn:H1; simpl in H.
    + bind_inv H. injection H as <-. simpl.
      split; [exact Hc|]. split; [now rewrite H1|]. split; [auto|discriminate].
    + apply bind_Ok in H. destruct H as (error & _ & H). injection H as <-.
      simpl. rewrite H1. split; [exact Hc|]. split; [reflexivity|].
      split; [discriminate|]. intros _. eexists. reflexivity.
Qed.

(** X2: an integer code other than 1, or no code at all (read as -1),
    never makes [from_api_response] fail: the result is the invalid receipt
    with the canned message of codes 0, 2, 3, 4, 5, and otherwise with the
    response's [error] entry, or "Unknown error" when there is none. *)
Theorem from_api_response_error_code (now : datetime)
    (d : list (string * json)) (z : Z) :
  PyDict.get d "code" = Some (JInt z)
  \/ (PyDict.get d "code" = None /\ z = -1) ->
  z <> 1 ->
  from_api_response now (JObj d)
  = Ok (invalid_receipt (JInt z)
          (match z with
           | 0 => JStr "Invalid receipt"
           | 2 => JStr "Receipt data not yet available"
           | 3 => JStr "Request limit exceeded"
           | 4 => JStr "Wait before retrying"
           | 5 => JStr "Data not received"
           | _ => match PyDict.get d "error" with
                  | Some e => e
                  | None => JStr "Unknown error"
                  end
           end) now).
Proof.
  intros Hcode Hz. unfold from_api_response.
  assert (Hget : Py.get (JObj d) "code" (JInt (-1)) = Ok (JInt z)).
  { simpl. destruct Hcode as [-> | [-> ->]]; reflexivity. }
  rewrite Hget. clear Hget Hcode.
  destruct (Z.eq_dec z 0) as [-> | H0]; [reflexivity|].
  destruct (Z.eq_dec z 2) as [-> | H2]; [reflexivity|].
  destruct (Z.eq_dec z 3) as [-> | H3]; [reflexivity|].
  destruct (Z.eq_dec z 4) as [-> | H4]; [reflexivity|].
  destruct (Z.eq_dec z 5) as [-> | H5]; [reflexivity|].
  assert (Hnone : error_message_of (JInt z) = Ok None).
  { unfold error_message_of. simpl.
    repeat match goal with
           | |- context [z =? ?k] =>
               destruct (Z.eqb_spec z k); [contradiction|]
           end.
    reflexivity. }
  cbv beta iota delta [mbind result_bind]. rewrite Hnone.
  cbn [Py.eq_int negb Py.get].
  destruct (Z.eqb_spec z 1); [contradiction|]. cbn [negb].
  destruct z as [|p|p]; try congruence; try reflexivity.
  repeat (destruct p as [p|p|]; try congruence; try reflexivity).
Qed.

(** X3: the items of a receipt are the entries of the response's [items]
    array, as many and in the same order; each keeps the entry's name and
    quantity as they are and has the entry's price and sum divided by 100. *)
Theorem parse_items_pointwise (l : list json) (its : list ReceiptItem) :
  parse_items l = Ok its ->
  List.length its = List.length l
  /\ forall (i : nat) (raw : json) (it : ReceiptItem),
       l !! i = Some raw -> its !! i = Some it ->
       Py.get raw "name" (JStr "") = Ok (item_name it)
       /\ Py.get raw "quantity" (JInt 0) = Ok (item_quantity it)
       /\ (p ← Py.get raw "price" (JInt 0); Py.div100 p) = Ok (item_price it)
       /\ (p ← Py.get raw "sum" (JInt 0); Py.div100 p) = Ok (item_sum it).
Proof.
  revert its. induction l as [|raw0 l IH]; intros its H; simpl in H.
  - injection H as <-. split; [reflexivity|]. intros i raw it Hl. discriminate Hl.
  - apply bind_Ok in H. destruct H as (it0 & Hit0 & H).
    apply bind_Ok in H. destruct H as (rest & Hrest & H). injection H as <-.
    destruct (IH rest Hrest) as (Hlen & Hpt). split; [simpl; now rewrite Hlen|].
    intros [|i] raw it Hl Hi; simpl in Hl, Hi.
    + injection Hl as <-. injection Hi as <-. clear IH Hrest Hpt.
      unfold parse_item in Hit0.
      apply bind_Ok in Hit0. destruct Hit0 as (name & Hname & H).
      apply bind_Ok in H. destruct H as (price_raw & Hpr & H).
      apply bind_Ok in H. destruct H as (price & Hprice & H).
      apply bind_Ok in H. destruct H as (quantity & Hq & H).
      apply bind_Ok in H. destruct H as (sum_raw & Hsr & H).
      apply bind_Ok in H. destruct H as (sum & Hsum & H).
      injection H as <-. simpl. rewrite Hpr, Hsr. simpl. auto.
    + now apply (Hpt i).
Qed.

(** A price or a sum that is not a number makes the parse of the item, and
    with it of the whole list, raise [TypeError]. *)
Lemma parse_items_malformed (l1 l2 : list json) (raw : json)
    (its : list ReceiptItem) (e : exn) :
  parse_items l1 = Ok its -> parse_item raw = Raise e ->
  parse_items (l1 ++ raw :: l2) = Raise e.
Proof.
  revert its. induction l1 as [|x l1 IH]; intros its H1 Hraw; simpl.
  - now rewrite Hraw.
  - simpl in H1. apply bind_Ok in H1. destruct H1 as (it0 & Hit0 & H1).
    apply bind_Ok in H1. destruct H1 as (rest & Hrest & _).
    rewrite Hit0. simpl. now rewrite (IH rest Hrest Hraw).
Qed.

(** ** The retry schedule *)

(** The delay the loop sleeps before the next attempt when the outcome of
    an attempt is retried: the transport schedule after a
    [RequestException], [get_delay] after a decoded response whose code is
    not 1 and is retryable; [None] when the outcome ends the call. *)
Definition retry_delay (rh : RetryHandler) (o : net_outcome) (attempt : nat)
  : option Q :=
  match o with
  | NetError _ => Some (network_delay rh attempt)
  | NetJson response =>
      match Py.get response "code" (JInt (-1)) with
      | Ok c =>
          if negb (Py.eq_int c 1) && should_retry c
          then Some (get_delay rh c attempt)
          else None
      | Raise _ => None
      end
  end.

Lemma network_delay_nonneg (rh : RetryHandler) (attempt : nat) :
  (0 <= base_delay rh)%Q -> (0 <= network_delay rh attempt)%Q.
Proof.
  intros Hbase. unfold network_delay.
  apply Qmult_le_0_compat; [exact Hbase|].
  change 0%Q with (inject_Z 0). rewrite <- Zle_Qle. apply Z.pow_nonneg. lia.
Qed.

Lemma retry_delay_nonneg (rh : RetryHandler) o attempt delay :
  (0 <= base_delay rh)%Q -> retry_delay rh o attempt = Some delay ->
  (0 <= delay)%Q.
Proof.
  intros Hbase. unfold retry_delay. destruct o as [msg|response].
  - intros [= <-]. now apply network_delay_nonneg.
  - destruct (Py.get response "code" (JInt (-1))) as [c|e]; [|discriminate].
    destruct (negb (Py.eq_int c 1) && should_retry c); [|discriminate].
    intros [= <-]. now apply get_delay_nonneg.
Qed.

(** One iteration that is retried: the post is logged, the loop sleeps and
    goes on with the next attempt. *)
Lemma retry_loop_retried v rd cache_key (remaining attempt : nat) (w : world)
    (d : PyDict.t string) (delay : Q) :
  w_heap w !! rd = Some (ODict d) ->
  (0 <= base_delay (retry_handler v))%Q ->
  Z.of_nat attempt < max_retries (retry_handler v) - 1 ->
  retry_delay (retry_handler v) (w_net w (List.length (w_posts w))) attempt
  = Some delay ->
  retry_loop v rd None cache_key (S remaining) attempt w
  = retry_loop v rd None cache_key remaining (S attempt)
      (sleep delay (log_post {| post_data := d; post_files := None |} w)).
Proof.
  intros Hd Hbase Hmore Hdelay.
  pose proof (retry_delay_nonneg _ _ _ _ Hbase Hdelay) as Hnonneg.
  rewrite retry_loop_unfold, (requests_post_sent rd None w d Hd eq_refl).
  cbv zeta. apply Z.ltb_lt in Hmore. rewrite Hmore.
  unfold retry_delay in Hdelay.
  destruct (w_net w (List.length (w_posts w))) as [msg|response].
  - injection Hdelay as <-. now rewrite time_sleep_nonneg.
  - destruct (Py.get response "code" (JInt (-1))) as [c|e]; [|discriminate].
    destruct (Py.eq_int c 1); [discriminate|].
    destruct (should_retry c); [|discriminate].
    injection Hdelay as <-. cbn [negb andb]. now rewrite time_sleep_nonneg.
Qed.

(** The world after [k] retried attempts. *)
Definition after_retries (w : world) (d : PyDict.t string)
    (delays : nat -> Q) (k : nat) : world :=
  {| w_heap := w_heap w; w_cache := w_cache w; w_closed := w_closed w;
     w_posts := w_posts w
                ++ repeat {| post_data := d; post_files := None |} k;
     w_sleeps := w_sleeps w ++ map delays (seq 0 k);
     w_now := w_now w; w_net := w_net w |}.

Lemma after_retries_0 (w : world) d delays : after_retries w d delays 0 = w.
Proof.
  unfold after_retries. simpl. rewrite !app_nil_r. now destruct w.
Qed.

Lemma after_retries_S (w : world) d delays (k : nat) :
  sleep (delays k)
    (log_post {| post_data := d; post_files := None |} (after_retries w d delays k))
  = after_retries w d delays (S k).
Proof.
  unfold after_retries, sleep, log_post. cbn [w_heap w_cache w_closed w_posts
    w_sleeps w_now w_net]. f_equal.
  - rewrite <- app_assoc. f_equal.
    change ({| post_data := d; post_files := None |}
              :: repeat {| post_data := d; post_files := None |} k)
      with (repeat {| post_data := d; post_files := None |} (S k)).
    symmetry. apply repeat_cons.
  - rewrite <- app_assoc. f_equal. rewrite seq_S, map_app. reflexivity.
Qed.

(** While the outcomes are retried and attempts remain, the loop goes from
    attempt to attempt, one post and one sleep each. *)
Lemma retry_loop_prefix v rd cache_key (w : world) (d : PyDict.t string)
    (delays : nat -> Q) (k : nat) :
  w_heap w !! rd = Some (ODict d) ->
  (0 <= base_delay (retry_handler v))%Q ->
  Z.of_nat k <= max_retries (retry_handler v) - 1 ->
  (forall i, (i < k)%nat ->
     retry_delay (retry_handler v) (w_net w (List.length (w_posts w) + i)%nat) i
     = Some (delays i)) ->
  forall remaining,
    retry_loop v rd None cache_key (k + remaining) 0 w
    = retry_loop v rd None cache_key remaining k (after_retries w d delays k).
Proof.
  intros Hd Hbase. induction k as [|k IH]; intros Hk Hdelays remaining.
  - now rewrite after_retries_0.
  - replace (S k + remaining)%nat with (k + S remaining)%nat by lia.
    rewrite IH by (try lia; intros i Hi; apply Hdelays; lia).
    rewrite (retry_loop_retried v rd cache_key remaining k
               (after_retries w d delays k) d (delays k)).
    + now rewrite after_retries_S.
    + exact Hd.
    + exact Hbase.
    + lia.
    + cbn [after_retries w_net w_posts]. rewrite length_app, repeat_length.
      apply Hdelays. lia.
Qed.

(** A decoded response that is neither a success nor retried ends the
    call with its parse; every file object is then closed. *)
Lemma retry_loop_terminal v rd files cache_key (remaining attempt : nat)
    (w : world) (d : PyDict.t string) (response c : json) :
  w_heap w !! rd = Some (ODict d) ->
  reads_closed_file w files = false ->
  w_net w (List.length (w_posts w)) = NetJson response ->
  Py.get response "code" (JInt (-1)) = Ok c ->
  Py.eq_int c 1 = false ->
  should_retry c = false
  \/ max_retries (retry_handler v) - 1 <= Z.of_nat attempt ->
  retry_loop v rd files cache_key (S remaining) attempt w
  = (from_api_response (w_now w) response,
     close_files files (log_post {| post_data := d; post_files := files |} w)).
Proof.
  intros Hd Hopen Hnet Hcode H1 Hstop.
  rewrite retry_loop_unfold, (requests_post_sent rd files w d Hd Hopen), Hnet.
  cbv zeta. rewrite Hcode, H1.
  destruct Hstop as [-> | Hlast]; [reflexivity|].
  replace (Z.of_nat attempt <? max_retries (retry_handler v) - 1) with false
    by (symmetry; apply Z.ltb_ge; lia).
  now rewrite andb_false_r.
Qed.

(** A transport failure on the last attempt ends the call with the
    network-error receipt. *)
Lemma retry_loop_last_failure v rd files cache_key (remaining attempt : nat)
    (w : world) (d : PyDict.t string) (msg : string) :
  w_heap w !! rd = Some (ODict d) ->
  reads_closed_file w files = false ->
  w_net w (List.length (w_posts w)) = NetError msg ->
  max_retries (retry_handler v) - 1 <= Z.of_nat attempt ->
  retry_loop v rd files cache_key (S remaining) attempt w
  = (Ok (network_error_receipt msg w),
     close_files files (log_post {| post_data := d; post_files := files |} w)).
Proof.
  intros Hd Hopen Hnet Hlast.
  rewrite retry_loop_unfold, (requests_post_sent rd files w d Hd Hopen), Hnet.
  cbv zeta.
  replace (Z.of_nat attempt <? max_retries (retry_handler v) - 1) with false
    by (symmetry; apply Z.ltb_ge; lia).
  reflexivity.
Qed.

Lemma from_api_response_success_valid (now : datetime) (response c : json)
    (r : Receipt) :
  Py.get response "code" (JInt (-1)) = Ok c -> Py.eq_int c 1 = true ->
  from_api_response now response = Ok r -> is_valid r = true.
Proof.
  intros Hc H1 H. unfold from_api_response in H. rewrite Hc in H.
  apply bind_Ok in H. destruct H as (c0 & [= <-] & H).
  apply bind_Ok in H. destruct H as (canned & Hcanned & H).
  destruct canned as [msg|].
  - apply error_message_of_Some in Hcanned. congruence.
  - rewrite H1 in H. simpl in H. bind_inv H. now injection H as <-.
Qed.

Lemma prepared_start v promo_id (w : world) (fresh : PyDict.t string)
    (c' : ReceiptCache) :
  let rd := List.length (w_heap w) in
  let w0 := prepared v rd promo_id
              (with_cache (with_heap w (w_heap w ++ [ODict fresh])) c') in
  (exists d, w_heap w0 !! rd = Some (ODict d))
  /\ (forall l, (l < rd)%nat -> w_heap w0 !! l = w_heap w !! l)
  /\ w_posts w0 = w_posts w /\ w_sleeps w0 = w_sleeps w
  /\ w_closed w0 = w_closed w /\ w_now w0 = w_now w /\ w_net w0 = w_net w
  /\ w_cache w0 = c'.
Proof.
  intros rd w0. subst w0.
  set (w2 := with_cache (with_heap w (w_heap w ++ [ODict fresh])) c').
  destruct (prepared_env v rd promo_id w2)
    as (Enow & Enet & Eposts & Eclosed & Esleeps & Ecache & Edict).
  destruct (add_promo_writes_only rd promo_id
              (heap_setitem rd "token" (token v) w2)) as (Hl1 & _ & _).
  destruct (heap_setitem_writes_only rd "token" (token v) w2) as (Hl2 & _ & _).
  split.
  { apply Edict. exists fresh. subst w2 rd. cbn [with_cache with_heap w_heap].
    rewrite lookup_app_r by lia. now rewrite Nat.sub_diag. }
  split.
  { intros l Hl. unfold prepared. rewrite Hl1, Hl2 by lia.
    subst w2. cbn [with_cache with_heap w_heap]. now apply lookup_app_l. }
  rewrite Eposts, Esleeps, Eclosed, Enow, Enet, Ecache. subst w2.
  cbn [with_cache with_heap w_posts w_sleeps w_closed w_now w_net w_cache].
  repeat split.
Qed.

(** Where the retry loop starts after a cache miss without [userdata]: a
    fresh request dict at the first free address, everything else as the
    caller left it; the cache has counted a miss when the request has a
    cache key and is untouched when it has none. *)
Lemma verify_receipt_starts v req files promo_id (w : world) (o : obj) :
  w_heap w !! req = Some o ->
  (forall k, cache_key_of o = Some k -> PyDict.get (cache (w_cache w)) k = None) ->
  exists (w0 : world) (d : PyDict.t string),
    verify_receipt v req files promo_id None w
    = retry_loop v (List.length (w_heap w)) files (cache_key_of o)
        (Z.to_nat (max_retries (retry_handler v))) 0 w0
    /\ w_heap w0 !! List.length (w_heap w) = Some (ODict d)
    /\ (forall l, (l < List.length (w_heap w))%nat ->
          w_heap w0 !! l = w_heap w !! l)
    /\ w_posts w0 = w_posts w /\ w_sleeps w0 = w_sleeps w
    /\ w_closed w0 = w_closed w /\ w_now w0 = w_now w /\ w_net w0 = w_net w
    /\ cache (w_cache w0) = cache (w_cache w)
    /\ max_size (w_cache w0) = max_size (w_cache w)
    /\ hits (w_cache w0) = hits (w_cache w)
    /\ (cache_key_of o = None -> w_cache w0 = w_cache w).
Proof.
  intros Hreq Hmiss. unfold verify_receipt. rewrite Hreq. unfold check_cache.
  destruct (cache_key_of o) as [k|] eqn:Hk.
  - rewrite (cache_key_truthy o k Hk). unfold cache_get.
    cbn [w_cache with_heap]. rewrite (Hmiss k eq_refl).
    cbn [add_userdata].
    match goal with
    | |- context [add_promo ?rd _ (heap_setitem _ _ _ (with_cache (with_heap _ (_ ++ [ODict ?fresh])) ?c'))] =>
        destruct (prepared_start v promo_id w fresh c')
          as ((d & Hd) & Hl & Hp & Hs & Hcl & Hnow & Hnet & Hcache)
    end.
    eexists. exists d. split; [reflexivity|].
    fold (prepared v (List.length (w_heap w)) promo_id).
    unfold prepared in *. rewrite Hcache. cbn [cache max_size hits].
    repeat split; auto. discriminate.
  - cbn [key_truthy add_userdata].
    match goal with
    | |- context [add_promo ?rd _ (heap_setitem _ _ _ (with_heap _ (_ ++ [ODict ?fresh])))] =>
        destruct (prepared_start v promo_id w fresh (w_cache w))
          as ((d & Hd) & Hl & Hp & Hs & Hcl & Hnow & Hnet & Hcache)
    end.
    eexists. exists d. split; [reflexivity|].
    unfold prepared in *.
    change (with_cache (with_heap w ?h) (w_cache w)) with (with_heap w h) in *.
    rewrite Hcache. repeat split; auto.
Qed.

Lemma to_nat_split (z : Z) (k : nat) :
  Z.of_nat k < z -> Z.to_nat z = (k + S (Z.to_nat z - S k))%nat.
Proof. lia. Qed.

(** X4: the backoff schedule. After a cache miss, when the first [k]
    outcomes are retried (transport failures or retryable codes) and the
    next decoded response has a code other than 1 that is not retryable, or
    comes on the last attempt, [verify_receipt] returns the parse of that
    response after exactly [k + 1] posts, having slept exactly the [k]
    delays of the retried outcomes, in order; the cache entries are as
    before. *)
Theorem retried_then_terminal
    v (request_data : loc) promo_id (w : world) (o : obj)
    (k : nat) (delays : nat -> Q) (response c : json) :
  w_heap w !! request_data = Some o ->
  (forall key, cache_key_of o = Some key ->
     PyDict.get (cache (w_cache w)) key = None) ->
  (0 <= base_delay (retry_handler v))%Q ->
  Z.of_nat k < max_retries (retry_handler v) ->
  (forall i, (i < k)%nat ->
     retry_delay (retry_handler v) (w_net w (List.length (w_posts w) + i)%nat) i
     = Some (delays i)) ->
  w_net w (List.length (w_posts w) + k)%nat = NetJson response ->
  Py.get response "code" (JInt (-1)) = Ok c ->
  Py.eq_int c 1 = false ->
  should_retry c = false \/ max_retries (retry_handler v) = Z.of_nat (S k) ->
  let out := verify_receipt v request_data None promo_id None w in
  fst out = from_api_response (w_now w) response
  /\ List.length (w_posts (snd out)) = (List.length (w_posts w) + S k)%nat
  /\ w_sleeps (snd out) = w_sleeps w ++ map delays (seq 0 k)
  /\ cache (w_cache (snd out)) = cache (w_cache w).
Proof.
  intros Hreq Hmiss Hbase Hk Hdelays Hnet Hcode H1 Hstop out. subst out.
  destruct (verify_receipt_starts v request_data None promo_id w o Hreq Hmiss)
    as (w0 & d & Hcall & Hd & _ & Hp & Hs & _ & Hnow & Hn & Hcache & _).
  rewrite Hcall, (to_nat_split _ k Hk).
  rewrite (retry_loop_prefix v _ _ w0 d delays k Hd Hbase) by
    (try lia; intros i Hi; rewrite Hn, Hp; now apply Hdelays).
  rewrite (retry_loop_terminal v _ None _ _ k (after_retries w0 d delays k)
             d response c).
  - cbn [fst snd close_files log_post after_retries w_posts w_sleeps w_cache
         w_now].
    rewrite Hnow, Hp, Hs, Hcache, !length_app, repeat_length.
    cbn [List.length]. repeat split. lia.
  - exact Hd.
  - reflexivity.
  - cbn [after_retries w_net w_posts]. rewrite length_app, repeat_length, Hn, Hp.
    exact Hnet.
  - exact Hcode.
  - exact H1.
  - destruct Hstop as [Hstop|Hstop]; [now left|right; lia].
Qed.

(** X5: transport failures only. After a cache miss, when every one of the
    [max_retries >= 1] attempts ends in a [RequestException],
    [verify_receipt] returns the network-error receipt carrying the message
    of the last failure, after [max_retries] posts and after sleeping
    [base_delay * 2^i] between attempt [i] and the next. *)
Theorem transport_failures_exhaust_retries
    v (request_data : loc) promo_id (w : world) (o : obj)
    (m : nat) (msg : nat -> string) :
  w_heap w !! request_data = Some o ->
  (forall key, cache_key_of o = Some key ->
     PyDict.get (cache (w_cache w)) key = None) ->
  (0 <= base_delay (retry_handler v))%Q ->
  max_retries (retry_handler v) = Z.of_nat (S m) ->
  (forall i, (i <= m)%nat ->
     w_net w (List.length (w_posts w) + i)%nat = NetError (msg i)) ->
  let out := verify_receipt v request_data None promo_id None w in
  fst out = Ok (invalid_receipt (JInt (-1))
                  (JStr ("Network error: " +:+ msg m)) (w_now w))
  /\ List.length (w_posts (snd out)) = (List.length (w_posts w) + S m)%nat
  /\ w_sleeps (snd out)
     = w_sleeps w ++ map (network_delay (retry_handler v)) (seq 0 m)
  /\ cache (w_cache (snd out)) = cache (w_cache w).
Proof.
  intros Hreq Hmiss Hbase Hmax Hnet out. subst out.
  destruct (verify_receipt_starts v request_data None promo_id w o Hreq Hmiss)
    as (w0 & d & Hcall & Hd & _ & Hp & Hs & _ & Hnow & Hn & Hcache & _).
  rewrite Hcall, (to_nat_split _ m) by lia.
  rewrite (retry_loop_prefix v _ _ w0 d (network_delay (retry_handler v)) m
             Hd Hbase) by
    (try lia; intros i Hi; rewrite Hn, Hp, Hnet by lia; reflexivity).
  rewrite (retry_loop_last_failure v _ None _ _ m
             (after_retries w0 d (network_delay (retry_handler v)) m) d (msg m)).
  - cbn [fst snd close_files log_post after_retries w_posts w_sleeps w_cache
         w_now network_error_receipt].
    unfold network_error_receipt. cbn [after_retries w_now].
    rewrite Hnow, Hp, Hs, Hcache, !length_app, repeat_length.
    cbn [List.length]. repeat split. lia.
  - exact Hd.
  - reflexivity.
  - cbn [after_retries w_net w_posts]. rewrite length_app, repeat_length, Hn, Hp.
    now apply Hnet.
  - lia.
Qed.

(** X6: with [max_retries <= 0] the loop body never runs. After a cache
    miss the call returns the "Max retries exceeded" receipt without any
    post or sleep, and without closing the file objects it was given. *)
Theorem no_attempt_without_retries
    v (request_data : loc) files promo_id (w : world) (o : obj) :
  w_heap w !! request_data = Some o ->
  (forall key, cache_key_of o = Some key ->
     PyDict.get (cache (w_cache w)) key = None) ->
  max_retries (retry_handler v) <= 0 ->
  let out := verify_receipt v request_data files promo_id None w in
  fst out = Ok (invalid_receipt (JInt (-1)) (JStr "Max retries exceeded")
                  (w_now w))
  /\ w_posts (snd out) = w_posts w
  /\ w_sleeps (snd out) = w_sleeps w
  /\ w_closed (snd out) = w_closed w.
Proof.
  intros Hreq Hmiss Hmax out. subst out.
  destruct (verify_receipt_starts v request_data files promo_id w o Hreq Hmiss)
    as (w0 & d & Hcall & _ & _ & Hp & Hs & Hcl & Hnow & _).
  rewrite Hcall. replace (Z.to_nat (max_retries (retry_handler v))) with 0%nat
    by lia.
  cbn [retry_loop fst snd]. unfold max_retries_receipt. rewrite Hnow.
  auto.
Qed.

Lemma evict_ok (c : ReceiptCache) :
  0 < max_size c -> exists d, evict c = Ok d.
Proof.
  intros Hpos. unfold evict, PyDict.len.
  destruct (Z.geb_spec (Z.of_nat (List.length (cache c))) (max_size c)) as [Hge|_];
    [|eauto].
  destruct (cache c) as [|[k0 r0] rest]; simpl in *; [lia|eauto].
Qed.

Lemma on_success_stores cache_key (key : string) response (w : world)
    (r : Receipt) :
  from_api_response (w_now w) response = Ok r ->
  is_valid r = true ->
  key_truthy cache_key = Some key ->
  0 < max_size (w_cache w) ->
  exists c', on_success cache_key response w = (Ok r, with_cache w c')
             /\ PyDict.get (cache c') key = Some r.
Proof.
  intros Hparse Hvalid Hkey Hpos. unfold on_success.
  rewrite Hparse, Hkey, Hvalid. unfold cache_put.
  destruct (evict_ok (w_cache w) Hpos) as (d & ->). simpl.
  eexists. split; [reflexivity|]. simpl. apply PyDict.get_set_eq.
Qed.

Lemma retry_loop_success v rd files cache_key (remaining attempt : nat)
    (w : world) (d : PyDict.t string) (response c : json) :
  w_heap w !! rd = Some (ODict d) ->
  reads_closed_file w files = false ->
  w_net w (List.length (w_posts w)) = NetJson response ->
  Py.get response "code" (JInt (-1)) = Ok c ->
  Py.eq_int c 1 = true ->
  retry_loop v rd files cache_key (S remaining) attempt w
  = let (r, w2) :=
      on_success cache_key response
        (log_post {| post_data := d; post_files := files |} w) in
    (r, close_files files w2).
Proof.
  intros Hd Hopen Hnet Hcode H1.
  rewrite retry_loop_unfold, (requests_post_sent rd files w d Hd Hopen), Hnet.
  cbv zeta. now rewrite Hcode, H1.
Qed.

(** A call that finds its key in the cache. *)
Lemma verify_receipt_returns_cached v req files promo_id userdata (w : world)
    (o : obj) (key : string) (r : Receipt) :
  w_heap w !! req = Some o -> cache_key_of o = Some key ->
  PyDict.get (cache (w_cache w)) key = Some r ->
  fst (verify_receipt v req files promo_id userdata w) = Ok r
  /\ w_posts (snd (verify_receipt v req files promo_id userdata w)) = w_posts w
  /\ w_sleeps (snd (verify_receipt v req files promo_id userdata w)) = w_sleeps w.
Proof.
  intros Hreq Hkey Hget. unfold verify_receipt. rewrite Hreq.
  unfold check_cache. rewrite Hkey, (cache_key_truthy o key Hkey).
  unfold cache_get. simpl. rewrite Hget. simpl. auto.
Qed.

(** A miss followed, after [k] retried outcomes, by a response with code 1
    that parses to [r]. *)
Lemma verify_receipt_success
    v (req : loc) promo_id (w : world) (o : obj) (key : string)
    (k : nat) (delays : nat -> Q) (response c : json) (r : Receipt) :
  w_heap w !! req = Some o ->
  cache_key_of o = Some key ->
  PyDict.get (cache (w_cache w)) key = None ->
  0 < max_size (w_cache w) ->
  (0 <= base_delay (retry_handler v))%Q ->
  Z.of_nat k < max_retries (retry_handler v) ->
  (forall i, (i < k)%nat ->
     retry_delay (retry_handler v) (w_net w (List.length (w_posts w) + i)%nat) i
     = Some (delays i)) ->
  w_net w (List.length (w_posts w) + k)%nat = NetJson response ->
  Py.get response "code" (JInt (-1)) = Ok c ->
  Py.eq_int c 1 = true ->
  from_api_response (w_now w) response = Ok r ->
  exists w',
    verify_receipt v req None promo_id None w = (Ok r, w')
    /\ PyDict.get (cache (w_cache w')) key = Some r
    /\ (forall l, (l < List.length (w_heap w))%nat ->
          w_heap w' !! l = w_heap w !! l)
    /\ (List.length (w_heap w) <= List.length (w_heap w'))%nat
    /\ List.length (w_posts w') = (List.length (w_posts w) + S k)%nat
    /\ w_sleeps w' = w_sleeps w ++ map delays (seq 0 k)
    /\ w_now w' = w_now w /\ w_net w' = w_net w
    /\ max_size (w_cache w') = max_size (w_cache w).
Proof.
  intros Hreq Hkey Hmiss Hpos Hbase Hk Hdelays Hnet Hcode H1 Hparse.
  assert (Hmiss' : forall key', cache_key_of o = Some key' ->
                     PyDict.get (cache (w_cache w)) key' = None)
    by (intros key' Hk'; congruence).
  destruct (verify_receipt_starts v req None promo_id w o Hreq Hmiss')
    as (w0 & d & Hcall & Hd & Hold & Hp & Hs & _ & Hnow & Hn & Hcache & Hsize & _).
  rewrite Hcall, (to_nat_split _ k Hk).
  rewrite (retry_loop_prefix v _ _ w0 d delays k Hd Hbase) by
    (try lia; intros i Hi; rewrite Hn, Hp; now apply Hdelays).
  rewrite (retry_loop_success v _ None _ _ k (after_retries w0 d delays k)
             d response c Hd eq_refl); try assumption.
  2:{ cbn [after_retries w_net w_posts].
      rewrite length_app, repeat_length, Hn, Hp. exact Hnet. }
  destruct (on_success_stores (cache_key_of o) key response
              (log_post {| post_data := d; post_files := None |}
                 (after_retries w0 d delays k)) r) as (c' & Hsucc & Hget).
  - cbn [log_post after_retries w_now]. now rewrite Hnow.
  - now apply (from_api_response_success_valid (w_now w) response c).
  - rewrite Hkey. now apply (cache_key_truthy o).
  - cbn [log_post after_retries w_cache]. now rewrite Hsize.
  - rewrite Hsucc. cbn [close_files]. eexists. split; [reflexivity|].
    cbn [with_cache log_post after_retries w_cache w_heap w_posts w_sleeps
         w_now w_net].
    split; [exact Hget|]. split; [exact Hold|]. split.
    { apply lookup_lt_Some in Hd. lia. }
    rewrite !length_app, repeat_length, Hp, Hs, Hnow, Hn. cbn [List.length].
    repeat split; try lia.
    unfold on_success in Hsucc. cbn [log_post after_retries w_now w_cache] in Hsucc.
    rewrite Hnow, Hparse in Hsucc.
    destruct (key_truthy (cache_key_of o)) as [k0|]; [|now injection Hsucc as <-].
    destruct (is_valid r); [|now injection Hsucc as <-].
    destruct (cache_put (w_cache w0) k0 r) as [c0|e] eqn:Hput;
      [|discriminate].
    injection Hsucc as <-. unfold cache_put in Hput.
    destruct (evict (w_cache w0)); [|discriminate]. simpl in Hput.
    injection Hput as <-. exact Hsize.
Qed.

(** X7: a success is cached and the next call is served from the cache.
    After a miss for a request with a cache key, in a cache of positive
    capacity, when the first [k] outcomes are retried and the next response
    has code 1 and parses to [r], the call returns [r] after [k + 1] posts
    and stores it under the key; the same request verified again returns
    [r] without any further post or sleep. *)
Theorem success_is_cached_and_reused
    v (request_data : loc) promo_id (w : world) (o : obj) (key : string)
    (k : nat) (delays : nat -> Q) (response c : json) (r : Receipt) :
  w_heap w !! request_data = Some o ->
  cache_key_of o = Some key ->
  PyDict.get (cache (w_cache w)) key = None ->
  0 < max_size (w_cache w) ->
  (0 <= base_delay (retry_handler v))%Q ->
  Z.of_nat k < max_retries (retry_handler v) ->
  (forall i, (i < k)%nat ->
     retry_delay (retry_handler v) (w_net w (List.length (w_posts w) + i)%nat) i
     = Some (delays i)) ->
  w_net w (List.length (w_posts w) + k)%nat = NetJson response ->
  Py.get response "code" (JInt (-1)) = Ok c ->
  Py.eq_int c 1 = true ->
  from_api_response (w_now w) response = Ok r ->
  let out := verify_receipt v request_data None promo_id None w in
  let again := verify_receipt v request_data None promo_id None (snd out) in
  fst out = Ok r
  /\ PyDict.get (cache (w_cache (snd out))) key = Some r
  /\ List.length (w_posts (snd out)) = (List.length (w_posts w) + S k)%nat
  /\ w_sleeps (snd out) = w_sleeps w ++ map delays (seq 0 k)
  /\ fst again = Ok r
  /\ w_posts (snd again) = w_posts (snd out)
  /\ w_sleeps (snd again) = w_sleeps (snd out).
Proof.
  intros Hreq Hkey Hmiss Hpos Hbase Hk Hdelays Hnet Hcode H1 Hparse out again.
  destruct (verify_receipt_success v request_data promo_id w o key k delays
              response c r Hreq Hkey Hmiss Hpos Hbase Hk Hdelays Hnet Hcode H1
              Hparse)
    as (w' & Hout & Hget & Hold & _ & Hposts & Hsleeps & _).
  fold out in Hout.
  assert (Hreq' : w_heap (snd out) !! request_data = Some o).
  { rewrite Hout. cbn [snd]. rewrite Hold; [exact Hreq|].
    now apply lookup_lt_Some in Hreq. }
  assert (Hget' : PyDict.get (cache (w_cache (snd out))) key = Some r)
    by (rewrite Hout; exact Hget).
  destruct (verify_receipt_returns_cached v request_data None promo_id None
              (snd out) o key r Hreq' Hkey Hget') as (A1 & A2 & A3).
  fold again in A1, A2, A3.
  rewrite Hout in *. cbn [fst snd] in *. auto 10.
Qed.

(** ** Bounds and frames that hold for every network *)

Lemma close_files_sleeps files (w : world) :
  w_sleeps (close_files files w) = w_sleeps w.
Proof.
  destruct files as [fs|]; simpl; [|reflexivity].
  revert w. induction fs as [|[name f] fs IH]; intros w; simpl; [reflexivity|].
  rewrite IH. now destruct f.
Qed.

Lemma on_success_env cache_key response (w : world) r w' :
  on_success cache_key response w = (r, w') ->
  w_sleeps w' = w_sleeps w /\ w_closed w' = w_closed w
  /\ (key_truthy cache_key = None -> w' = w).
Proof.
  unfold on_success.
  destruct (from_api_response (w_now w) response) as [formed|e];
    [|intros [= <- <-]; auto].
  destruct (key_truthy cache_key) as [k|]; [|intros [= <- <-]; auto].
  destruct (is_valid formed); [|intros [= <- <-]; auto].
  destruct (cache_put (w_cache w) k formed) as [c'|e];
    intros [= <- <-]; simpl; repeat split; discriminate.
Qed.

(** An iteration posts at most once and sleeps at most once, and not at
    all on the last attempt; without a cache key it leaves the cache
    alone. *)
Lemma retry_loop_bounds v rd files cache_key (remaining : nat) :
  forall (attempt : nat) (w : world) r w',
    max_retries (retry_handler v) <= Z.of_nat (attempt + remaining) ->
    retry_loop v rd files cache_key remaining attempt w = (r, w') ->
    (List.length (w_posts w') <= List.length (w_posts w) + remaining)%nat
    /\ (List.length (w_sleeps w') <= List.length (w_sleeps w) + (remaining - 1))%nat
    /\ (key_truthy cache_key = None -> w_cache w' = w_cache w).
Proof.
  induction remaining as [|remaining IH]; intros attempt w r w' Hsum.
  - simpl. intros [= <- <-]. repeat split; lia.
  - rewrite retry_loop_unfold. cbv zeta.
    destruct (requests_post rd files w) as [res w1] eqn:Hpost.
    destruct (requests_post_frame _ _ _ _ _ Hpost) as (_ & Hc1 & Hp1).
    assert (Hs1 : w_sleeps w1 = w_sleeps w).
    { unfold requests_post in Hpost.
      destruct (w_heap w !! rd) as [[d|p]|]; try (now injection Hpost as _ <-).
      destruct (reads_closed_file w files); [now injection Hpost as _ <-|].
      destruct (w_net w (List.length (w_posts w)));
        now injection Hpost as _ <-. }
    assert (Hlen1 : (List.length (w_posts w1) <= List.length (w_posts w) + 1)%nat).
    { destruct Hp1 as [->|(d & _ & ->)]; [lia|].
      rewrite length_app. simpl. lia. }
    assert (Hstop : forall w2, w_posts w2 = w_posts w1 ->
              w_sleeps w2 = w_sleeps w1 ->
              (key_truthy cache_key = None -> w_cache w2 = w_cache w1) ->
              (List.length (w_posts (close_files files w2))
               <= List.length (w_posts w) + S remaining)%nat
              /\ (List.length (w_sleeps (close_files files w2))
                  <= List.length (w_sleeps w) + (S remaining - 1))%nat
              /\ (key_truthy cache_key = None ->
                  w_cache (close_files files w2) = w_cache w)).
    { intros w2 Hp2 Hs2 Hc2.
      destruct (close_files_same_store files w2) as (_ & Cc & Cp & _).
      rewrite close_files_sleeps, Cc, Cp, Hp2, Hs2, Hs1.
      repeat split; try lia. intros Hnone. rewrite Hc2, Hc1; auto. }
    assert (Hgo : forall delay r0 w0,
              (Z.of_nat attempt <? max_retries (retry_handler v) - 1) = true ->
              match time_sleep delay w1 with
              | Ok w2 =>
                  retry_loop v rd files cache_key remaining (S attempt)
                    (close_files files w2)
              | Raise e => (Raise e, close_files files w1)
              end = (r0, w0) ->
              (List.length (w_posts w0) <= List.length (w_posts w) + S remaining)%nat
              /\ (List.length (w_sleeps w0)
                  <= List.length (w_sleeps w) + (S remaining - 1))%nat
              /\ (key_truthy cache_key = None -> w_cache w0 = w_cache w)).
    { intros delay r0 w0 Hmore. apply Z.ltb_lt in Hmore. unfold time_sleep.
      destruct (Qle_bool 0 delay); [|intros [= <- <-]; apply Hstop; auto].
      intros Hloop. apply IH in Hloop; [|lia].
      destruct Hloop as (Ip & Is & Ic).
      destruct (close_files_same_store files (sleep delay w1)) as (_ & Cc & Cp & _).
      rewrite close_files_sleeps in Is. rewrite Cp in Ip. rewrite Cc in Ic.
      cbn [sleep w_posts w_sleeps w_cache] in Ip, Is, Ic.
      rewrite length_app in Is. cbn [List.length] in Is. rewrite Hs1 in Is.
      repeat split; try lia. intros Hnone. rewrite Ic, Hc1; auto. }
    destruct res as [e|msg|response].
    + intros [= <- <-]. apply Hstop; auto.
    + destruct (Z.of_nat attempt <? max_retries (retry_handler v) - 1) eqn:Hmore.
      * now apply Hgo.
      * intros [= <- <-]. apply Hstop; auto.
    + destruct (Py.get response "code" (JInt (-1))) as [c|e].
      * destruct (Py.eq_int c 1).
        -- destruct (on_success cache_key response w1) as [r2 w2] eqn:Hsucc.
           destruct (on_success_frame _ _ _ _ _ Hsucc) as (_ & Sp & _).
           destruct (on_success_env _ _ _ _ _ Hsucc) as (Ss & _ & Sn).
           intros [= <- <-]. apply Hstop; auto.
           intros Hnone. now rewrite (Sn Hnone).
        -- destruct (Z.of_nat attempt <? max_retries (retry_handler v) - 1) eqn:Hmore.
           ++ destruct (should_retry c); cbn [andb].
              ** now apply Hgo.
              ** intros [= <- <-]. apply Hstop; auto.
           ++ rewrite andb_false_r. intros [= <- <-]. apply Hstop; auto.
      * intros [= <- <-]. apply Hstop; auto.
Qed.

Lemma heap_setitem_logs rd k val (w : world) :
  w_posts (heap_setitem rd k val w) = w_posts w
  /\ w_sleeps (heap_setitem rd k val w) = w_sleeps w
  /\ w_cache (heap_setitem rd k val w) = w_cache w.
Proof.
  unfold heap_setitem. destruct (w_heap w !! rd) as [[d|p]|]; simpl; auto.
Qed.

Lemma add_userdata_logs rd userdata (w w' : world) :
  add_userdata rd userdata w = Ok w' ->
  w_posts w' = w_posts w /\ w_sleeps w' = w_sleeps w /\ w_cache w' = w_cache w.
Proof.
  unfold add_userdata. destruct userdata as [u|]; [|intros [= <-]; auto].
  destruct (w_heap w !! u) as [[ud|p]|]; try discriminate. intros [= <-].
  clear. revert w. induction ud as [|[k val] ud IH]; intros w; simpl; [auto|].
  destruct (IH (heap_setitem rd ("userdata_" +:+ k) val w)) as (A & B & C).
  destruct (heap_setitem_logs rd ("userdata_" +:+ k) val w) as (A' & B' & C').
  repeat split; congruence.
Qed.

(** X8: whatever the service and the network do, one call of
    [verify_receipt] performs at most [max_retries] posts and at most
    [max_retries - 1] sleeps (none when [max_retries <= 1]). *)
Theorem verify_receipt_attempts_bounded
    v (request_data : loc) files promo_id userdata (w : world) :
  let out := verify_receipt v request_data files promo_id userdata w in
  (List.length (w_posts (snd out))
   <= List.length (w_posts w) + Z.to_nat (max_retries (retry_handler v)))%nat
  /\ (List.length (w_sleeps (snd out))
      <= List.length (w_sleeps w)
         + (Z.to_nat (max_retries (retry_handler v)) - 1))%nat.
Proof.
  intros out. subst out. unfold verify_receipt.
  destruct (w_heap w !! request_data) as [o|]; [|simpl; lia].
  match goal with
  | |- context [check_cache ?ck ?w1] =>
      destruct (check_cache ck w1) as [cached w2] eqn:Hcheck;
      destruct (check_cache_frame _ _ _ _ Hcheck) as (_ & Hp2 & Hs2 & _)
  end.
  cbn [with_heap w_posts w_sleeps] in Hp2, Hs2.
  destruct cached as [cached|]; [simpl; rewrite Hp2, Hs2; lia|].
  match goal with
  | |- context [add_userdata ?rd ?u (add_promo ?rd' ?p ?w3)] =>
      destruct (add_promo_env rd' p w3) as (_ & _ & _ & Hs4);
      destruct (add_promo_writes_only rd' p w3) as (_ & _ & Hp4);
      destruct (add_userdata rd u (add_promo rd' p w3)) as [w5|e] eqn:Hud
  end.
  2:{ simpl. rewrite Hp4, Hs4.
      rewrite (proj1 (heap_setitem_logs _ _ _ _)),
              (proj1 (proj2 (heap_setitem_logs _ _ _ _))), Hp2, Hs2. lia. }
  destruct (add_userdata_logs _ _ _ _ Hud) as (Hp5 & Hs5 & _).
  match goal with
  | |- context [retry_loop ?v ?rd ?f ?ck ?n 0 w5] =>
      destruct (retry_loop v rd f ck n 0 w5) as [r w'] eqn:Hloop
  end.
  apply retry_loop_bounds in Hloop; [|lia].
  destruct Hloop as (Hp & Hs & _). cbn [snd].
  rewrite Hp5, Hp4, (proj1 (heap_setitem_logs _ _ _ _)), Hp2 in Hp.
  rewrite Hs5, Hs4, (proj1 (proj2 (heap_setitem_logs _ _ _ _))), Hs2 in Hs.
  lia.
Qed.

(** Without a cache key the cache is neither read nor written. *)
Lemma verify_receipt_without_key v req files promo_id userdata (w : world)
    (o : obj) :
  w_heap w !! req = Some o -> cache_key_of o = None ->
  w_cache (snd (verify_receipt v req files promo_id userdata w)) = w_cache w.
Proof.
  intros Hreq Hnone. unfold verify_receipt. rewrite Hreq, Hnone.
  unfold check_cache. cbn [key_truthy].
  match goal with
  | |- context [add_userdata ?rd ?u (add_promo ?rd' ?p ?w3)] =>
      destruct (add_promo_writes_only rd' p w3) as (_ & Hc4 & _);
      destruct (add_userdata rd u (add_promo rd' p w3)) as [w5|e] eqn:Hud
  end.
  2:{ simpl. rewrite Hc4. now rewrite (proj2 (proj2 (heap_setitem_logs _ _ _ _))). }
  destruct (add_userdata_logs _ _ _ _ Hud) as (_ & _ & Hc5).
  match goal with
  | |- context [retry_loop ?v ?rd ?f ?ck ?n 0 w5] =>
      destruct (retry_loop v rd f ck n 0 w5) as [r w'] eqn:Hloop
  end.
  apply retry_loop_bounds in Hloop; [|lia].
  destruct Hloop as (_ & _ & Hc). cbn [snd].
  rewrite (Hc eq_refl), Hc5, Hc4.
  now rewrite (proj2 (proj2 (heap_setitem_logs _ _ _ _))).
Qed.

(** X9: a dict request without a [qrraw] entry (a manual-parameter dict, a
    QR image URL, a QR image upload) has no cache key: the call neither
    reads nor writes the cache, whatever the outcome. *)
Theorem dict_request_without_qrraw_bypasses_cache
    v (request_data : loc) (d : PyDict.t string) files promo_id userdata
    (w : world) :
  w_heap w !! request_data = Some (ODict d) ->
  PyDict.get d "qrraw" = None ->
  w_cache (snd (verify_receipt v request_data files promo_id userdata w))
  = w_cache w.
Proof.
  intros Hreq Hraw.
  apply (verify_receipt_without_key v request_data files promo_id userdata w
           (ODict d) Hreq).
  cbn [cache_key_of]. now rewrite Hraw.
Qed.

(** ** File objects *)

(** The file objects of [files], in the order of [files.values()]. *)
Definition file_handles (files : option (PyDict.t file_value)) : list handle :=
  match files with
  | Some fs =>
      flat_map (fun f => match snd f with
                         | FileObj h => [h]
                         | FileData _ => []
                         end) fs
  | None => []
  end.

Lemma close_files_closed files (w : world) :
  w_closed (close_files files w) = w_closed w ++ file_handles files.
Proof.
  destruct files as [fs|]; simpl; [|now rewrite app_nil_r].
  revert w. induction fs as [|[name f] fs IH]; intros w; simpl.
  - now rewrite app_nil_r.
  - rewrite IH. destruct f; simpl; [now rewrite <- app_assoc|reflexivity].
Qed.

Lemma reads_closed_file_closed files (w w' : world) :
  w_closed w' = w_closed w ->
  reads_closed_file w' files = reads_closed_file w files.
Proof.
  intros Hcl. unfold reads_closed_file, is_closed. now rewrite Hcl.
Qed.

(** X10: when the first attempt ends the call (its outcome is not one
    that is retried, or [max_retries] is 1), every file object passed in
    [files] has been closed exactly once when the call returns or raises:
    the handles closed by the call are those of [files], once each, in
    order. *)
Theorem single_attempt_closes_files_once
    v (request_data : loc) files promo_id (w : world) (o : obj) :
  w_heap w !! request_data = Some o ->
  (forall key, cache_key_of o = Some key ->
     PyDict.get (cache (w_cache w)) key = None) ->
  reads_closed_file w files = false ->
  1 <= max_retries (retry_handler v) ->
  retry_delay (retry_handler v) (w_net w (List.length (w_posts w))) 0 = None
  \/ max_retries (retry_handler v) = 1 ->
  let out := verify_receipt v request_data files promo_id None w in
  w_closed (snd out) = w_closed w ++ file_handles files
  /\ List.length (w_posts (snd out)) = S (List.length (w_posts w))
  /\ w_sleeps (snd out) = w_sleeps w.
Proof.
  intros Hreq Hmiss Hopen Hmax Hexit out. subst out.
  destruct (verify_receipt_starts v request_data files promo_id w o Hreq Hmiss)
    as (w0 & d & Hcall & Hd & _ & Hp & Hs & Hcl & _ & Hn & _).
  rewrite Hcall.
  destruct (Z.to_nat (max_retries (retry_handler v))) as [|rem] eqn:Hrem;
    [lia|].
  rewrite retry_loop_unfold. cbv zeta.
  rewrite (requests_post_sent _ files w0 d Hd)
    by (rewrite (reads_closed_file_closed files w w0 Hcl); exact Hopen).
  rewrite Hn, Hp.
  assert (Hdone : forall (r : result Receipt) w1,
            w_closed w1 = w_closed w0 ->
            w_posts w1 = w_posts w0
                         ++ [{| post_data := d; post_files := files |}] ->
            w_sleeps w1 = w_sleeps w0 ->
            w_closed (snd (r, close_files files w1))
            = w_closed w ++ file_handles files
            /\ List.length (w_posts (snd (r, close_files files w1)))
               = S (List.length (w_posts w))
            /\ w_sleeps (snd (r, close_files files w1)) = w_sleeps w).
  { intros r w1 H1 H2 H3. cbn [snd].
    destruct (close_files_same_store files w1) as (_ & _ & Cp & _).
    rewrite close_files_closed, close_files_sleeps, Cp, H1, H2, H3, Hcl, Hs.
    rewrite length_app, Hp. cbn [List.length]. repeat split. lia. }
  assert (Hlast : max_retries (retry_handler v) = 1 ->
            (Z.of_nat 0 <? max_retries (retry_handler v) - 1) = false)
    by (intros ->; reflexivity).
  unfold retry_delay in Hexit.
  destruct (w_net w (List.length (w_posts w))) as [msg|response].
  - destruct Hexit as [Hexit|Hexit]; [discriminate|]. rewrite (Hlast Hexit).
    now apply Hdone.
  - destruct (Py.get response "code" (JInt (-1))) as [c|e];
      [|now apply Hdone].
    destruct (Py.eq_int c 1) eqn:H1.
    + destruct (on_success (cache_key_of o) response
                  (log_post {| post_data := d; post_files := files |} w0))
        as [r w2] eqn:Hsucc.
      destruct (on_success_frame _ _ _ _ _ Hsucc) as (_ & Sp & _).
      destruct (on_success_env _ _ _ _ _ Hsucc) as (Ss & Scl & _).
      apply Hdone; [rewrite Scl|rewrite Sp|rewrite Ss]; reflexivity.
    + cbn [negb andb] in Hexit.
      destruct (should_retry c) eqn:Hretry.
      * destruct Hexit as [Hexit|Hexit]; [discriminate|].
        rewrite (Hlast Hexit). cbn [andb]. now apply Hdone.
      * cbn [andb]. now apply Hdone.
Qed.

(** ** More on the cache *)

Lemma get_del_ne {V : Type} (d : PyDict.t V) (k k' : string) :
  k <> k' -> PyDict.get (PyDict.del d k) k' = PyDict.get d k'.
Proof.
  intros Hne. induction d as [|[k0 v0] d IH]; simpl; [reflexivity|].
  destruct (String.eqb_spec k0 k) as [->|Hk0]; simpl.
  - destruct (String.eqb_spec k k'); [contradiction|reflexivity].
  - now rewrite IH.
Qed.

(** X11: what [put] changes. A [put] that returns makes the key map to the
    receipt (the next [get] is a hit returning it), keeps the capacity and
    the counters, and leaves the entry of every other key as it was,
    except the earliest-inserted key when the cache was at capacity. *)
Theorem cache_put_then_get (c c' : ReceiptCache) (key : string) (r : Receipt) :
  cache_put c key r = Ok c' ->
  fst (cache_get c' key) = Some r
  /\ max_size c' = max_size c /\ hits c' = hits c /\ misses c' = misses c
  /\ forall k', k' <> key ->
       cache_size c < max_size c \/ PyDict.first_key (cache c) <> Some k' ->
       PyDict.get (cache c') k' = PyDict.get (cache c) k'.
Proof.
  unfold cache_put. destruct (evict c) as [d|e] eqn:He; simpl; [|discriminate].
  intros [= <-]. simpl. split.
  { unfold cache_get. simpl. now rewrite PyDict.get_set_eq. }
  repeat split. intros k' Hne Hkeep.
  rewrite PyDict.get_set_ne by congruence.
  unfold evict, cache_size in *.
  destruct (Z.geb_spec (PyDict.len (cache c)) (max_size c)) as [Hge|Hlt].
  - destruct Hkeep as [Hkeep|Hkeep]; [lia|].
    destruct (cache c) as [|[k0 r0] rest]; simpl in *; [discriminate|].
    injection He as <-. rewrite String.eqb_refl.
    destruct (String.eqb_spec k0 k'); [subst; contradiction|reflexivity].
  - now injection He as <-.
Qed.

(** [put] over a list of entries, stopping at the first exception. *)
Fixpoint put_all (c : ReceiptCache) (l : list (string * Receipt))
  : result ReceiptCache :=
  match l with
  | [] => Ok c
  | (k, r) :: l' => c' ← cache_put c k r; put_all c' l'
  end.

Lemma put_all_app (c : ReceiptCache) (l1 l2 : list (string * Receipt)) :
  put_all c (l1 ++ l2) = (c' ← put_all c l1; put_all c' l2).
Proof.
  revert c. induction l1 as [|[k r] l1 IH]; intros c; simpl; [reflexivity|].
  destruct (cache_put c k r) as [c'|e]; simpl; [apply IH|reflexivity].
Qed.

Lemma skipn_cons_tail {A : Type} (j : nat) (l : list A) (a : A) (rest : list A) :
  skipn j l = a :: rest -> skipn (S j) l = rest.
Proof.
  revert l. induction j as [|j IH]; intros l H.
  - change (l = a :: rest) in H. subst l. reflexivity.
  - destruct l as [|x l]; [discriminate|]. apply IH. exact H.
Qed.

Lemma in_skipn {A : Type} (j : nat) (l : list A) (a : A) :
  In a (skipn j l) -> In a l.
Proof.
  intros Hin. rewrite <- (firstn_skipn j l). apply in_or_app. now right.
Qed.

(** X12: first in, first out. Storing receipts under pairwise distinct
    keys in a new cache of capacity [N >= 1] never fails and leaves exactly
    the last [N] of them (all of them while there are at most [N]), in
    insertion order. *)
Theorem put_all_keeps_last_entries (size : Z) (l : list (string * Receipt)) :
  0 < size ->
  List.NoDup (PyDict.keys l) ->
  exists c, put_all (cache_init size) l = Ok c
            /\ cache c = skipn (List.length l - Z.to_nat size) l
            /\ max_size c = size.
Proof.
  intros Hsize. induction l as [|[k r] l IH] using rev_ind; intros Hnodup.
  - exists (cache_init size). repeat split.
  - unfold PyDict.keys in Hnodup. rewrite map_app in Hnodup.
    apply NoDup_remove in Hnodup. simpl in Hnodup. rewrite app_nil_r in Hnodup.
    destruct Hnodup as [Hnodup Hfresh].
    destruct (IH Hnodup) as (c & Hput & Hc & Hm).
    rewrite put_all_app, Hput. simpl.
    assert (Hnew : PyDict.get (cache c) k = None).
    { apply PyDict.get_none_keys. rewrite Hc. intros Hin. apply Hfresh.
      unfold PyDict.keys in Hin. apply in_map_iff in Hin.
      destruct Hin as (e & He & Hin). apply in_map_iff. exists e.
      split; [exact He|]. now apply in_skipn in Hin. }
    destruct (Z_lt_le_dec (Z.of_nat (List.length l)) size) as [Hlt|Hge].
    + unfold cache_put. rewrite evict_below_capacity
        by (unfold cache_size, PyDict.len; rewrite Hc, Hm, length_skipn; lia).
      simpl. eexists. split; [reflexivity|]. simpl. rewrite Hm.
      split; [|reflexivity]. rewrite PyDict.set_fresh by exact Hnew.
      rewrite Hc, length_app. simpl.
      replace (List.length l - Z.to_nat size)%nat with 0%nat by lia.
      replace (List.length l + 1 - Z.to_nat size)%nat with 0%nat by lia.
      reflexivity.
    + destruct (cache c) as [|[k0 r0] rest] eqn:Hcache.
      { exfalso. symmetry in Hc. apply (f_equal (@List.length _)) in Hc.
        rewrite length_skipn in Hc. simpl in Hc. lia. }
      unfold cache_put.
      rewrite (evict_at_capacity c k0 r0 rest Hcache)
        by (unfold cache_size, PyDict.len; rewrite Hcache, Hc, Hm, length_skipn;
            lia).
      simpl. eexists. split; [reflexivity|]. simpl. rewrite Hm.
      split; [|reflexivity].
      assert (Hrest : PyDict.get rest k = None).
      { simpl in Hnew.
        destruct (String.eqb k0 k); [discriminate|exact Hnew]. }
      rewrite PyDict.set_fresh by exact Hrest.
      rewrite length_app. simpl.
      replace (List.length l + 1 - Z.to_nat size)%nat
        with (S (List.length l - Z.to_nat size)) by lia.
      rewrite skipn_app.
      replace (S (List.length l - Z.to_nat size) - List.length l)%nat
        with 0%nat by lia.
      simpl. f_equal. symmetry. now apply (skipn_cons_tail _ _ (k0, r0)).
Qed.

(** [get] over a list of keys. *)
Definition get_all (c : ReceiptCache) (keys : list string) : ReceiptCache :=
  fold_left (fun c' k => snd (cache_get c' k)) keys c.

(** X13: the counters count. A run of [get] calls leaves the entries and
    the capacity alone, adds to [hits] the number of looked-up keys that
    are in the cache and to [misses] the number of those that are not. *)
Theorem get_all_counts (c : ReceiptCache) (keys : list string) :
  cache (get_all c keys) = cache c
  /\ max_size (get_all c keys) = max_size c
  /\ hits (get_all c keys)
     = hits c + Z.of_nat (List.length (List.filter (PyDict.mem (cache c)) keys))
  /\ misses (get_all c keys)
     = misses c
       + Z.of_nat (List.length
                     (List.filter (fun k => negb (PyDict.mem (cache c) k)) keys)).
Proof.
  unfold get_all. revert c. induction keys as [|k keys IH]; intros c.
  - simpl. repeat split; lia.
  - cbn [fold_left]. destruct (IH (snd (cache_get c k))) as (Hc & Hm & Hh & Hmi).
    destruct (cache_get_entries c k) as (Ec & Em & _).
    rewrite Hc, Hm, Hh, Hmi, Ec, Em. split; [reflexivity|]. split; [reflexivity|].
    cbn [List.filter]. unfold cache_get, PyDict.mem.
    destruct (PyDict.get (cache c) k); cbn [snd hits misses negb List.length];
      split; lia.
Qed.

(** ** What is sent *)

(** The request dict after the token, the promo id and the userdata
    entries have been written to it (lines "Add token" to the end of the
    [userdata] loop of [verify_receipt]). *)
Definition sent_dict (v : ReceiptVerifier) (promo_id : option Z)
    (fresh ud : PyDict.t string) : PyDict.t string :=
  fold_left (fun d e => PyDict.set d ("userdata_" +:+ fst e) (snd e)) ud
    (match promo_id with
     | Some p =>
         if p =? 0 then PyDict.set fresh "token" (token v)
         else PyDict.set (PyDict.set fresh "token" (token v))
                "promo_id" (pretty p)
     | None => PyDict.set fresh "token" (token v)
     end).

Lemma heap_setitem_at rd k val (w : world) (d : PyDict.t string) :
  w_heap w !! rd = Some (ODict d) ->
  w_heap (heap_setitem rd k val w) !! rd = Some (ODict (PyDict.set d k val)).
Proof.
  intros Hd. unfold heap_setitem. rewrite Hd. simpl.
  apply list_lookup_insert_eq. now apply lookup_lt_Some in Hd.
Qed.

Lemma userdata_fold_at rd (ud : PyDict.t string) :
  forall (w : world) (d : PyDict.t string),
    w_heap w !! rd = Some (ODict d) ->
    w_heap (fold_left
              (fun w' e => heap_setitem rd ("userdata_" +:+ fst e) (snd e) w')
              ud w) !! rd
    = Some (ODict (fold_left
                     (fun d' e => PyDict.set d' ("userdata_" +:+ fst e) (snd e))
                     ud d)).
Proof.
  induction ud as [|[k val] ud IH]; intros w d Hd; simpl; [exact Hd|].
  apply IH. now apply heap_setitem_at.
Qed.

(** Every post of a call carries the same data: the augmented copy of the
    request. *)
Lemma verify_receipt_posts_data v req files promo_id userdata (w : world)
    (o : obj) (ud : PyDict.t string) :
  w_heap w !! req = Some o ->
  (userdata = None /\ ud = [])
  \/ (exists u, userdata = Some u /\ w_heap w !! u = Some (ODict ud)) ->
  exists new,
    w_posts (snd (verify_receipt v req files promo_id userdata w))
    = w_posts w ++ new
    /\ Forall (fun p => post_data p
                        = sent_dict v promo_id
                            (match o with
                             | OParams p0 => to_dict p0
                             | ODict d => d
                             end) ud) new.
Proof.
  intros Hreq Hud. unfold verify_receipt. rewrite Hreq.
  set (rd := List.length (w_heap w)).
  set (fresh := match o with OParams p => to_dict p | ODict d => d end).
  set (w1 := with_heap w (w_heap w ++ [ODict fresh])).
  destruct (check_cache (cache_key_of o) w1) as [cached w2] eqn:Hcheck.
  destruct (check_cache_frame _ _ _ _ Hcheck) as (Hh2 & Hp2 & _).
  cbn [w1 with_heap w_heap w_posts] in Hh2, Hp2.
  destruct cached as [cached|].
  { exists []. cbn [snd]. rewrite Hp2, app_nil_r. auto. }
  assert (Hd2 : w_heap w2 !! rd = Some (ODict fresh)).
  { rewrite Hh2. unfold rd. rewrite lookup_app_r by lia.
    now rewrite Nat.sub_diag. }
  assert (Hold2 : forall l, (l < rd)%nat -> w_heap w2 !! l = w_heap w !! l).
  { intros l Hl. rewrite Hh2. now apply lookup_app_l. }
  set (w3 := heap_setitem rd "token" (token v) w2).
  assert (Hd3 : w_heap w3 !! rd
                = Some (ODict (PyDict.set fresh "token" (token v))))
    by now apply heap_setitem_at.
  destruct (heap_setitem_writes_only rd "token" (token v) w2) as (Hl3 & _ & Hp3).
  fold w3 in Hl3, Hp3.
  set (w4 := add_promo rd promo_id w3).
  destruct (add_promo_writes_only rd promo_id w3) as (Hl4 & _ & Hp4).
  fold w4 in Hl4, Hp4.
  set (d4 := match promo_id with
             | Some p =>
                 if p =? 0 then PyDict.set fresh "token" (token v)
                 else PyDict.set (PyDict.set fresh "token" (token v))
                        "promo_id" (pretty p)
             | None => PyDict.set fresh "token" (token v)
             end).
  assert (Hd4 : w_heap w4 !! rd = Some (ODict d4)).
  { subst w4 d4. unfold add_promo. destruct promo_id as [p|]; [|exact Hd3].
    destruct (p =? 0); [exact Hd3|]. now apply heap_setitem_at. }
  destruct (add_userdata rd userdata w4) as [w5|e] eqn:Hadd.
  2:{ exists []. cbn [snd]. rewrite Hp4, Hp3, Hp2, app_nil_r. auto. }
  assert (Hd5 : w_heap w5 !! rd = Some (ODict (sent_dict v promo_id fresh ud))).
  { unfold sent_dict. fold d4. unfold add_userdata in Hadd.
    destruct Hud as [(-> & ->)|(u & -> & Hu)].
    - injection Hadd as <-. exact Hd4.
    - assert (Hu4 : w_heap w4 !! u = Some (ODict ud)).
      { apply lookup_lt_Some in Hu as Hlt. fold rd in Hlt.
        rewrite Hl4, Hl3, Hold2 by lia. exact Hu. }
      rewrite Hu4 in Hadd. injection Hadd as <-. now apply userdata_fold_at. }
  destruct (add_userdata_logs _ _ _ _ Hadd) as (Hp5 & _ & _).
  destruct (retry_loop v rd files (cache_key_of o)
              (Z.to_nat (max_retries (retry_handler v))) 0 w5)
    as [r w'] eqn:Hloop.
  destruct (retry_loop_frame _ _ _ _ _ _ _ _ _ Hloop) as (_ & _ & new & Hp & Hnew).
  exists new. cbn [snd]. rewrite Hp, Hp5, Hp4, Hp3, Hp2. split; [reflexivity|].
  eapply Forall_impl; [exact Hnew|]. intros p Hpd. cbn beta in Hpd.
  pose proof (eq_trans (eq_sym Hpd) Hd5) as E. now injection E.
Qed.

Lemma userdata_sets_keep (ud : PyDict.t string) (d : PyDict.t string)
    (k val : string) :
  (forall e, In e ud -> "userdata_" +:+ fst e <> k) ->
  PyDict.get d k = Some val ->
  PyDict.get (fold_left
                (fun d' e => PyDict.set d' ("userdata_" +:+ fst e) (snd e))
                ud d) k = Some val.
Proof.
  revert d. induction ud as [|[k0 v0] ud IH]; intros d Hne Hget; simpl;
    [exact Hget|].
  apply IH; [intros e He; apply Hne; now right|].
  rewrite PyDict.get_set_ne; [exact Hget|]. apply (Hne (k0, v0)). now left.
Qed.

Lemma sent_dict_keeps v promo_id (fresh ud : PyDict.t string) (k val : string) :
  k <> "token" -> k <> "promo_id" ->
  (forall k', k <> "userdata_" +:+ k') ->
  PyDict.get fresh k = Some val ->
  PyDict.get (sent_dict v promo_id fresh ud) k = Some val.
Proof.
  intros Htok Hpromo Hud Hget. unfold sent_dict.
  apply userdata_sets_keep; [intros e _ Heq; now apply (Hud (fst e))|].
  destruct promo_id as [p|]; [destruct (p =? 0)|];
    repeat (rewrite PyDict.get_set_ne by congruence); exact Hget.
Qed.

(** X14: every attempt of a call sends the same parameters, and the
    request's own entries reach the service as they are: each post of the
    call carries, under every key of the request other than [token],
    [promo_id] and the [userdata_] names, the request's value. *)
Theorem request_entries_are_sent_unchanged
    v (request_data : loc) files promo_id userdata (w : world) (o : obj)
    (ud : PyDict.t string) :
  w_heap w !! request_data = Some o ->
  (userdata = None /\ ud = [])
  \/ (exists u, userdata = Some u /\ w_heap w !! u = Some (ODict ud)) ->
  let fresh := match o with OParams p0 => to_dict p0 | ODict d => d end in
  exists new,
    w_posts (snd (verify_receipt v request_data files promo_id userdata w))
    = w_posts w ++ new
    /\ Forall (fun p =>
         post_data p = sent_dict v promo_id fresh ud
         /\ forall k val,
              k <> "token" -> k <> "promo_id" ->
              (forall k', k <> "userdata_" +:+ k') ->
              PyDict.get fresh k = Some val ->
              PyDict.get (post_data p) k = Some val) new.
Proof.
  intros Hreq Hud fresh.
  destruct (verify_receipt_posts_data v request_data files promo_id userdata w
              o ud Hreq Hud) as (new & Hposts & Hdata).
  exists new. split; [exact Hposts|].
  eapply Forall_impl; [exact Hdata|]. intros p Hp. cbn beta in Hp.
  split; [exact Hp|]. intros k val Htok Hpromo Hk Hget. rewrite Hp.
  now apply sent_dict_keeps.
Qed.

Lemma userdata_key_injective (a b : string) :
  "userdata_" +:+ a = "userdata_" +:+ b -> a = b.
Proof. cbn. intros H. now injection H. Qed.

Lemma userdata_sets_entries (ud : PyDict.t string) :
  forall (d : PyDict.t string) (k val : string),
    List.NoDup (PyDict.keys ud) ->
    PyDict.get ud k = Some val ->
    PyDict.get (fold_left
                  (fun d' e => PyDict.set d' ("userdata_" +:+ fst e) (snd e))
                  ud d) ("userdata_" +:+ k) = Some val.
Proof.
  induction ud as [|[k0 v0] ud IH]; intros d k val Hnodup Hget;
    [discriminate|].
  unfold PyDict.keys in Hnodup. simpl in Hnodup.
  apply NoDup_cons_iff in Hnodup. destruct Hnodup as [Hfresh Hnodup].
  simpl in Hget. cbn [fold_left fst snd].
  destruct (String.eqb_spec k0 k) as [->|Hne].
  - injection Hget as <-. apply userdata_sets_keep.
    + intros e He Heq. apply userdata_key_injective in Heq. apply Hfresh.
      rewrite <- Heq. now apply in_map.
    + apply PyDict.get_set_eq.
  - now apply IH.
Qed.

(** X15: user-supplied key/value pairs travel under their own names.
    Every post of a call given a [userdata] dict carries each of its
    entries [key: value] as [userdata_<key>: value], next to the
    verifier's own [token], which no userdata key can replace. *)
Theorem userdata_is_sent_namespaced
    v (request_data : loc) files promo_id (u : loc) (w : world) (o : obj)
    (ud : PyDict.t string) :
  w_heap w !! request_data = Some o ->
  w_heap w !! u = Some (ODict ud) ->
  List.NoDup (PyDict.keys ud) ->
  exists new,
    w_posts (snd (verify_receipt v request_data files promo_id (Some u) w))
    = w_posts w ++ new
    /\ Forall (fun p =>
         PyDict.get (post_data p) "token" = Some (token v)
         /\ forall k val,
              PyDict.get ud k = Some val ->
              PyDict.get (post_data p) ("userdata_" +:+ k) = Some val) new.
Proof.
  intros Hreq Hu Hnodup.
  destruct (verify_receipt_posts_data v request_data files promo_id (Some u) w
              o ud Hreq) as (new & Hposts & Hdata).
  { right. exists u. auto. }
  exists new. split; [exact Hposts|].
  eapply Forall_impl; [exact Hdata|]. intros p Hp. cbn beta in Hp.
  rewrite Hp. split.
  - unfold sent_dict. apply userdata_sets_keep.
    + intros e _. apply userdata_key_not_token.
    + destruct promo_id as [z|]; [destruct (z =? 0)|];
        repeat (rewrite PyDict.get_set_ne by discriminate);
        apply PyDict.get_set_eq.
  - intros k val Hget. unfold sent_dict. now apply userdata_sets_entries.
Qed.

(** ** The shape of the backoff *)

Section Backoff.
Context `{LM : LibM}.

(** X16: with a non-negative base delay, the delays that scale the base
    by a power of two (code 3, code 4, the schedule after transport
    failures) and the unscaled one (codes outside 2, 3 and 4) are, as
    floats and up to attempt 1023, never negative, never below the base
    delay and never smaller than at the attempt before. Code 2, whose
    products round, is left out. *)
Theorem delays_start_at_base_and_never_shrink
    (base : Binary64.float) (c : json) (attempt : nat) :
  Binary64.valid base = true ->
  Binary64.leb Binary64.zero base = true ->
  Z.of_nat attempt < 1023 ->
  Py.eq_int c 2 = false ->
  (exists d d',
      Float.get_delay base c attempt = Ok d
      /\ Float.get_delay base c (S attempt) = Ok d'
      /\ Binary64.leb Binary64.zero d = true
      /\ Binary64.leb base d = true
      /\ Binary64.leb d d' = true)
  /\ (exists d d',
      Float.network_delay base attempt = Ok d
      /\ Float.network_delay base (S attempt) = Ok d'
      /\ Binary64.leb Binary64.zero d = true
      /\ Binary64.leb base d = true
      /\ Binary64.leb d d' = true).
Proof.
  intros Hvalid Hpos Hsmall Hc2.
  assert (Hbase : forall k,
            Binary64.leb base (Binary64.mul base (Binary64.power_of_two k))
            = true).
  { intros k. rewrite <- (Binary64.mul_one base Hvalid) at 1.
    change Binary64.one with (Binary64.power_of_two 0).
    apply Binary64.mul_power_of_two_mono; [assumption|assumption|lia]. }
  assert (Hscale : forall k, Z.of_nat k < 1023 ->
            exists d d',
              Float.mul_int base (2 ^ Z.of_nat k) = Ok d
              /\ Float.mul_int base (2 ^ Z.of_nat (S k)) = Ok d'
              /\ Binary64.leb Binary64.zero d = true
              /\ Binary64.leb base d = true
              /\ Binary64.leb d d' = true).
  { intros k Hk. rewrite !mul_int_power_of_two.
    destruct (Z.leb_spec (Z.of_nat k) 1023); [|lia].
    destruct (Z.leb_spec (Z.of_nat (S k)) 1023); [|lia].
    eexists. eexists. split; [reflexivity|]. split; [reflexivity|].
    split; [now apply Binary64.mul_power_of_two_nonneg|].
    split; [apply Hbase|].
    apply Binary64.mul_power_of_two_mono; [assumption|assumption|lia]. }
  split; [|exact (Hscale attempt Hsmall)].
  unfold Float.get_delay. rewrite Hc2.
  destruct (Py.eq_int c 3); [exact (Hscale attempt Hsmall)|].
  destruct (Py.eq_int c 4).
  - change (Float.mul_int base 2)
      with (Ok (Binary64.mul base (Binary64.power_of_two 1))).
    eexists. eexists. split; [reflexivity|]. split; [reflexivity|].
    split; [now apply Binary64.mul_power_of_two_nonneg|].
    split; [apply Hbase|].
    apply Binary64.mul_power_of_two_mono; [assumption|assumption|lia].
  - exists base, base. split; [reflexivity|]. split; [reflexivity|].
    split; [exact Hpos|].
    assert (Hrefl : Binary64.leb base base = true).
    { rewrite <- (Binary64.mul_one base Hvalid).
      change Binary64.one with (Binary64.power_of_two 0).
      apply Binary64.mul_power_of_two_mono; [assumption|assumption|lia]. }
    auto.
Qed.

End Backoff.

Lemma requests_post_closed_log rd files (w : world) res w1 :
  requests_post rd files w = (res, w1) -> w_closed w1 = w_closed w.
Proof.
  unfold requests_post.
  destruct (w_heap w !! rd) as [[d|p]|]; try (now intros [= _ <-]).
  destruct (reads_closed_file w files); [now intros [= _ <-]|].
  destruct (w_net w (List.length (w_posts w))); now intros [= _ <-].
Qed.

(** Handles are only ever added to the log of closed handles, and an
    iteration of the loop closes every file object on its way out. *)
Lemma retry_loop_closes v rd files cache_key (remaining : nat) :
  forall (attempt : nat) (w : world) r w',
    retry_loop v rd files cache_key remaining attempt w = (r, w') ->
    exists more,
      w_closed w'
      = w_closed w
        ++ (match remaining with O => [] | S _ => file_handles files end)
        ++ more.
Proof.
  induction remaining as [|remaining IH]; intros attempt w r w'.
  - simpl. intros [= <- <-]. exists []. now rewrite app_nil_r.
  - rewrite retry_loop_unfold. cbv zeta.
    destruct (requests_post rd files w) as [res w1] eqn:Hpost.
    apply requests_post_closed_log in Hpost.
    assert (Hstop : forall w2, w_closed w2 = w_closed w1 ->
              exists more,
                w_closed (close_files files w2)
                = w_closed w ++ file_handles files ++ more).
    { intros w2 H2. exists []. rewrite close_files_closed, H2, Hpost.
      now rewrite app_nil_r. }
    assert (Hgo : forall delay r0 w0,
              match time_sleep delay w1 with
              | Ok w2 =>
                  retry_loop v rd files cache_key remaining (S attempt)
                    (close_files files w2)
              | Raise e => (Raise e, close_files files w1)
              end = (r0, w0) ->
              exists more,
                w_closed w0 = w_closed w ++ file_handles files ++ more).
    { intros delay r0 w0. unfold time_sleep.
      destruct (Qle_bool 0 delay); [|intros [= <- <-]; now apply Hstop].
      intros Hloop. apply IH in Hloop. destruct Hloop as (more & Hmore).
      rewrite close_files_closed in Hmore. cbn [sleep w_closed] in Hmore.
      rewrite Hpost in Hmore. eexists. rewrite Hmore, <- !app_assoc.
      reflexivity. }
    destruct res as [e|msg|response].
    + intros [= <- <-]. now apply Hstop.
    + destruct (Z.of_nat attempt <? max_retries (retry_handler v) - 1).
      * apply Hgo.
      * intros [= <- <-]. now apply Hstop.
    + destruct (Py.get response "code" (JInt (-1))) as [c|e].
      * destruct (Py.eq_int c 1).
        -- destruct (on_success cache_key response w1) as [r2 w2] eqn:Hsucc.
           destruct (on_success_env _ _ _ _ _ Hsucc) as (_ & Scl & _).
           intros [= <- <-]. now apply Hstop.
        -- destruct (should_retry c
                     && (Z.of_nat attempt <? max_retries (retry_handler v) - 1)).
           ++ apply Hgo.
           ++ intros [= <- <-]. now apply Hstop.
      * intros [= <- <-]. now apply Hstop.
Qed.

(** X17: once an attempt is made, the file objects do get closed. After a
    cache miss with [max_retries >= 1], every file object of [files] is
    closed by the time the call returns or raises, whatever the service
    and the network do; handles closed before the call stay closed. *)
Theorem attempted_call_closes_files
    v (request_data : loc) files promo_id (w : world) (o : obj) :
  w_heap w !! request_data = Some o ->
  (forall key, cache_key_of o = Some key ->
     PyDict.get (cache (w_cache w)) key = None) ->
  1 <= max_retries (retry_handler v) ->
  exists more,
    w_closed (snd (verify_receipt v request_data files promo_id None w))
    = w_closed w ++ file_handles files ++ more.
Proof.
  intros Hreq Hmiss Hmax.
  destruct (verify_receipt_starts v request_data files promo_id w o Hreq Hmiss)
    as (w0 & d & Hcall & _ & _ & _ & _ & Hcl & _).
  rewrite Hcall.
  destruct (Z.to_nat (max_retries (retry_handler v))) as [|rem] eqn:Hrem;
    [lia|].
  destruct (retry_loop v (List.length (w_heap w)) files (cache_key_of o)
              (S rem) 0 w0) as [r w'] eqn:Hloop.
  apply retry_loop_closes in Hloop. destruct Hloop as (more & Hmore).
  exists more. cbn [snd]. now rewrite Hmore, Hcl.
Qed.

(** ** The module-level entry points *)

(** A new object at the first free address. *)
Definition alloc (o : obj) (w : world) : loc * world :=
  (List.length (w_heap w), with_heap w (w_heap w ++ [o])).

(** [from_qr_string(_qr_string)], for the module's [verifier]. *)
Definition from_qr_string (verifier : ReceiptVerifier) (_qr_string : string)
    (w : world) : result Receipt * world :=
  let (request, w1) :=
    alloc (ODict (RequestBuilder.from_qr_string _qr_string)) w in
  verify_receipt verifier request None None None w1.

(** [from_params(data)]: [from_manual_params] hands the caller's dict on. *)
Definition from_params (verifier : ReceiptVerifier) (data : loc) (w : world)
  : result Receipt * world :=
  let request := data in
  verify_receipt verifier request None None None w.

(** [from_qr_url(_url)] *)
Definition from_qr_url (verifier : ReceiptVerifier) (_url : string) (w : world)
  : result Receipt * world :=
  let (request, w1) := alloc (ODict (RequestBuilder.from_qr_url _url)) w in
  verify_receipt verifier request None None None w1.

(** [from_qr_img(_file_path)]: the third component is what is printed.
    A caught [FileNotFoundError], whoever raised it, makes the function
    fall off its end, returning [None]; every other exception leaves the
    function. *)
Definition from_qr_img (verifier : ReceiptVerifier)
    (path_str : string -> string) (exists_ : string -> result bool)
    (open_rb : string -> result handle) (_file_path : string) (w : world)
  : result (option Receipt) * world * list string :=
  match RequestBuilder.from_qr_file path_str exists_ open_rb _file_path with
  | Ok (file_request, files) =>
      let (request, w1) := alloc (ODict file_request) w in
      match verify_receipt verifier request (Some files) None None w1 with
      | (Ok r, w2) => (Ok (Some r), w2, [])
      | (Raise (FileNotFoundError msg), w2) =>
          (Ok None, w2, ["File error: " +:+ msg])
      | (Raise e, w2) => (Raise e, w2, [])
      end
  | Raise (FileNotFoundError msg) => (Ok None, w, ["File error: " +:+ msg])
  | Raise e => (Raise e, w, [])
  end.

Lemma alloc_lookup (o : obj) (w : world) :
  w_heap (snd (alloc o w)) !! fst (alloc o w) = Some o
  /\ w_posts (snd (alloc o w)) = w_posts w
  /\ w_sleeps (snd (alloc o w)) = w_sleeps w
  /\ w_closed (snd (alloc o w)) = w_closed w
  /\ w_cache (snd (alloc o w)) = w_cache w
  /\ w_now (snd (alloc o w)) = w_now w
  /\ w_net (snd (alloc o w)) = w_net w.
Proof.
  unfold alloc. cbn [fst snd with_heap w_heap w_posts w_sleeps w_closed w_cache
                     w_now w_net].
  rewrite lookup_app_r by lia. rewrite Nat.sub_diag. repeat split.
Qed.

(** X18: the same QR string verified twice through [from_qr_string]
    reaches the service once. In a cache of positive capacity that does
    not hold the string's key, when the first call succeeds (after [k]
    retried outcomes) with a receipt [r], the second call returns [r]
    without any post or sleep of its own. *)
Theorem from_qr_string_twice
    v (qr_string : string) (w : world)
    (k : nat) (delays : nat -> Q) (response c : json) (r : Receipt) :
  PyDict.get (cache (w_cache w)) (MD5.hexdigest qr_string) = None ->
  0 < max_size (w_cache w) ->
  (0 <= base_delay (retry_handler v))%Q ->
  Z.of_nat k < max_retries (retry_handler v) ->
  (forall i, (i < k)%nat ->
     retry_delay (retry_handler v) (w_net w (List.length (w_posts w) + i)%nat) i
     = Some (delays i)) ->
  w_net w (List.length (w_posts w) + k)%nat = NetJson response ->
  Py.get response "code" (JInt (-1)) = Ok c ->
  Py.eq_int c 1 = true ->
  from_api_response (w_now w) response = Ok r ->
  let first := from_qr_string v qr_string w in
  let second := from_qr_string v qr_string (snd first) in
  fst first = Ok r
  /\ List.length (w_posts (snd first)) = (List.length (w_posts w) + S k)%nat
  /\ fst second = Ok r
  /\ w_posts (snd second) = w_posts (snd first)
  /\ w_sleeps (snd second) = w_sleeps (snd first).
Proof.
  intros Hmiss Hpos Hbase Hk Hdelays Hnet Hcode H1 Hparse first second.
  set (o := ODict (RequestBuilder.from_qr_string qr_string)).
  assert (Hkey : cache_key_of o = Some (MD5.hexdigest qr_string)) by reflexivity.
  destruct (alloc_lookup o w) as (Ha & Hp & Hs & _ & Hc & Hnow & Hn).
  destruct (verify_receipt_success v (fst (alloc o w)) None (snd (alloc o w)) o
              (MD5.hexdigest qr_string) k delays response c r Ha Hkey)
    as (w' & Hout & Hget & _ & _ & Hposts & _ & _ & _ & _).
  { now rewrite Hc. }
  { now rewrite Hc. }
  { exact Hbase. }
  { exact Hk. }
  { intros i Hi. rewrite Hn, Hp. now apply Hdelays. }
  { rewrite Hn, Hp. exact Hnet. }
  { exact Hcode. }
  { exact H1. }
  { rewrite Hnow. exact Hparse. }
  assert (Hfirst : first = (Ok r, w')) by exact Hout.
  destruct (alloc_lookup o w') as (Ha' & Hp' & Hs' & _ & Hc' & _).
  destruct (verify_receipt_returns_cached v (fst (alloc o w')) None None None
              (snd (alloc o w')) o (MD5.hexdigest qr_string) r Ha' Hkey)
    as (B1 & B2 & B3).
  { now rewrite Hc'. }
  assert (Hsecond : second
            = verify_receipt v (fst (alloc o w')) None None None (snd (alloc o w')))
    by (subst second; rewrite Hfirst; reflexivity).
  rewrite Hsecond, Hfirst. cbn [fst snd].
  rewrite B1, B2, B3, Hp', Hs', Hposts, Hp. auto.
Qed.

(** X19: [from_qr_img]. A missing file is reported on the output and
    answered with [None]. When the existence test or [open] raises, nothing
    has been sent, cached or closed: a [FileNotFoundError] is reported and
    answered with [None], every other error (a directory, an unreadable
    file) leaves the function. When [open] gives a file object and
    [max_retries >= 1], that object is closed during the call, however the
    call ends, and the cache is left as it was: image uploads are never
    cached. *)
Theorem from_qr_img_outcomes
    v (path_str : string -> string) (exists_ : string -> result bool)
    (open_rb : string -> result handle) (file_path : string) (w : world) :
  let out := from_qr_img v path_str exists_ open_rb file_path w in
  (exists_ file_path = Ok false ->
   out = (Ok None, w,
          ["File error: "
           +:+ ("QR image file not found: " +:+ path_str file_path)]))
  /\ (forall e,
        exists_ file_path = Raise e
        \/ (exists_ file_path = Ok true /\ open_rb file_path = Raise e) ->
        out = match e with
              | FileNotFoundError msg => (Ok None, w, ["File error: " +:+ msg])
              | _ => (Raise e, w, [])
              end)
  /\ (forall f,
        exists_ file_path = Ok true -> open_rb file_path = Ok f ->
        1 <= max_retries (retry_handler v) ->
        (exists more, w_closed (snd (fst out)) = w_closed w ++ [f] ++ more)
        /\ w_cache (snd (fst out)) = w_cache w).
Proof.
  intros out. subst out. split; [|split].
  - intros Hmissing. unfold from_qr_img, RequestBuilder.from_qr_file.
    now rewrite Hmissing.
  - intros e [Hex|[Hex Hopen]];
      unfold from_qr_img, RequestBuilder.from_qr_file; rewrite Hex;
      [|cbn; rewrite Hopen]; destruct e; reflexivity.
  - intros f Hexists Hopen Hmax.
    unfold from_qr_img, RequestBuilder.from_qr_file. rewrite Hexists.
    cbn. rewrite Hopen. cbn.
    unfold alloc. cbv beta iota.
    set (files := [("qrfile", FileObj f)]).
    set (o := ODict []).
    destruct (alloc_lookup o w) as (Ha & _ & _ & Hcl & Hc & _).
    assert (Hnokey : forall key, cache_key_of o = Some key ->
              PyDict.get (cache (w_cache (snd (alloc o w)))) key = None)
      by discriminate.
    destruct (verify_receipt_starts v (fst (alloc o w)) (Some files) None
                (snd (alloc o w)) o Ha Hnokey)
      as (w0 & d & Hcall & _ & _ & _ & _ & Hcl0 & _ & _ & _ & _ & _ & Hc0).
    unfold alloc in *. cbn [fst snd] in *. cbv beta iota.
    match type of Hcall with
    | _ = ?rhs =>
        match goal with
        | |- context [verify_receipt ?a ?b ?c0 ?d0 ?e ?f0] =>
            replace (verify_receipt a b c0 d0 e f0) with rhs
              by (symmetry; exact Hcall)
        end
    end.
    destruct (Z.to_nat (max_retries (retry_handler v))) as [|rem] eqn:Hrem;
      [lia|].
    match goal with
    | |- context [retry_loop ?a ?b ?c0 ?d0 ?e ?f0 ?g] =>
        destruct (retry_loop a b c0 d0 e f0 g) as [r w'] eqn:Hloop
    end.
    pose proof (retry_loop_closes _ _ _ _ _ _ _ _ _ Hloop) as (more & Hmore).
    pose proof Hloop as Hb. apply retry_loop_bounds in Hb; [|lia].
    destruct Hb as (_ & _ & Hcache).
    assert (Hin : exists more0, w_closed w' = w_closed w ++ [f] ++ more0).
    { exists more. rewrite Hmore, Hcl0. cbn [with_heap w_closed].
      reflexivity. }
    assert (Hsame : w_cache w' = w_cache w).
    { rewrite (Hcache eq_refl), (Hc0 eq_refl). exact Hc. }
    destruct r as [r|e]; [|destruct e]; cbn [fst snd]; auto.
Qed.

(** X20: [from_qr_url] and, for a dict without a [qrraw] entry,
    [from_params] leave the cache exactly as it was, counters included:
    requests by image URL or by a plain parameter dict are never served
    from the cache and never stored in it. *)
Theorem url_and_dict_requests_are_never_cached
    v (url : string) (data : loc) (d : PyDict.t string) (w : world) :
  w_cache (snd (from_qr_url v url w)) = w_cache w
  /\ (w_heap w !! data = Some (ODict d) -> PyDict.get d "qrraw" = None ->
      w_cache (snd (from_params v data w)) = w_cache w).
Proof.
  split.
  - unfold from_qr_url.
    destruct (alloc_lookup (ODict (RequestBuilder.from_qr_url url)) w)
      as (Ha & _ & _ & _ & Hc & _).
    unfold alloc in *. cbn [fst snd] in *. cbv beta iota.
    rewrite (verify_receipt_without_key v _ None None None _
               (ODict (RequestBuilder.from_qr_url url)) Ha eq_refl).
    exact Hc.
  - intros Hdata Hraw. unfold from_params. cbv zeta.
    apply (verify_receipt_without_key v data None None None w (ODict d) Hdata).
    cbn [cache_key_of]. now rewrite Hraw.
Qed.

(** ** Where valid receipts come from *)

Lemma requests_post_answer rd files (w : world) response w1 :
  requests_post rd files w = (PostJson response, w1) ->
  w_net w (List.length (w_posts w)) = NetJson response
  /\ w_now w1 = w_now w /\ w_net w1 = w_net w
  /\ w_posts w1 = w_posts w ++ [{| post_data := match w_heap w !! rd with
                                                 | Some (ODict d) => d
                                                 | _ => []
                                                 end;
                                   post_files := files |}].
Proof.
  unfold requests_post.
  destruct (w_heap w !! rd) as [[d|p]|]; try discriminate.
  destruct (reads_closed_file w files); [discriminate|].
  destruct (w_net w (List.length (w_posts w))) as [msg|body]; [discriminate|].
  intros [= <- <-]. auto.
Qed.

Lemma requests_post_env rd files (w : world) res w1 :
  requests_post rd files w = (res, w1) ->
  w_now w1 = w_now w /\ w_net w1 = w_net w
  /\ (List.length (w_posts w) <= List.length (w_posts w1))%nat.
Proof.
  unfold requests_post.
  destruct (w_heap w !! rd) as [[d|p]|]; try (intros [= _ <-]; auto).
  destruct (reads_closed_file w files); [intros [= _ <-]; auto|].
  destruct (w_net w (List.length (w_posts w)));
    intros [= _ <-]; cbn [log_post w_now w_net w_posts];
    rewrite length_app; repeat split; lia.
Qed.

(** A valid receipt returned by the loop is the parse of a response
    received during the loop. *)
Lemma retry_loop_valid_source v rd files cache_key (remaining : nat) :
  forall (attempt : nat) (w : world) (r : Receipt) w',
    retry_loop v rd files cache_key remaining attempt w = (Ok r, w') ->
    is_valid r = true ->
    exists (i : nat) (response : json),
      (List.length (w_posts w) <= i)%nat
      /\ w_net w i = NetJson response
      /\ from_api_response (w_now w) response = Ok r.
Proof.
  induction remaining as [|remaining IH]; intros attempt w r w'.
  - simpl. intros [= <- <-]. discriminate.
  - rewrite retry_loop_unfold. cbv zeta.
    destruct (requests_post rd files w) as [res w1] eqn:Hpost.
    destruct (requests_post_env _ _ _ _ _ Hpost) as (Hnow1 & Hnet1 & Hlen1).
    assert (Hgo : forall delay,
              match time_sleep delay w1 with
              | Ok w2 =>
                  retry_loop v rd files cache_key remaining (S attempt)
                    (close_files files w2)
              | Raise e => (Raise e, close_files files w1)
              end = (Ok r, w') ->
              is_valid r = true ->
              exists (i : nat) (response : json),
                (List.length (w_posts w) <= i)%nat
                /\ w_net w i = NetJson response
                /\ from_api_response (w_now w) response = Ok r).
    { intros delay. unfold time_sleep.
      destruct (Qle_bool 0 delay); [|discriminate].
      intros Hloop Hvalid.
      destruct (IH _ _ _ _ Hloop Hvalid) as (i & response & Hi & Hnet & Hparse).
      destruct (close_files_same_store files (sleep delay w1))
        as (_ & _ & Cp & Cnow & Cnet).
      rewrite Cp in Hi. rewrite Cnet in Hnet. rewrite Cnow in Hparse.
      cbn [sleep w_posts w_net w_now] in Hi, Hnet, Hparse.
      exists i, response. rewrite <- Hnet1, <- Hnow1. repeat split; auto. lia. }
    destruct res as [e|msg|response].
    + discriminate.
    + destruct (Z.of_nat attempt <? max_retries (retry_handler v) - 1).
      * apply Hgo.
      * intros [= <- <-]. discriminate.
    + destruct (requests_post_answer _ _ _ _ _ Hpost) as (Hnet & _).
      destruct (Py.get response "code" (JInt (-1))) as [c|e]; [|discriminate].
      destruct (Py.eq_int c 1).
      * unfold on_success. rewrite Hnow1.
        destruct (from_api_response (w_now w) response) as [formed|e] eqn:Hparse;
          [|discriminate].
        intros Hres Hvalid. exists (List.length (w_posts w)), response.
        split; [lia|]. split; [exact Hnet|]. rewrite Hparse. f_equal.
        destruct (key_truthy cache_key) as [k|]; [|now injection Hres].
        destruct (is_valid formed); [|now injection Hres].
        destruct (cache_put (w_cache w1) k formed); [now injection Hres|].
        discriminate.
      * destruct (should_retry c
                  && (Z.of_nat attempt <? max_retries (retry_handler v) - 1)).
        -- apply Hgo.
        -- rewrite Hnow1. intros [= Hparse <-] Hvalid.
           exists (List.length (w_posts w)), response. auto.
Qed.

Lemma from_api_response_valid_code (now : datetime) (response : json)
    (r : Receipt) :
  from_api_response now response = Ok r -> is_valid r = true ->
  exists c, Py.get response "code" (JInt (-1)) = Ok c /\ Py.eq_int c 1 = true.
Proof.
  unfold from_api_response. intros H Hvalid.
  apply bind_Ok in H. destruct H as (c & Hc & H).
  apply bind_Ok in H. destruct H as (canned & _ & H).
  exists c. split; [exact Hc|].
  destruct canned as [msg|]; [injection H as <-; discriminate|].
  destruct (Py.eq_int c 1); [reflexivity|]. simpl in H.
  apply bind_Ok in H. destruct H as (error & _ & H). injection H as <-.
  discriminate.
Qed.

(** X21: valid receipts are never made up. A valid receipt returned by
    [verify_receipt] was either in the cache under the request's key, or is
    the parse of a response with code 1 that the service gave during this
    call. *)
Theorem valid_receipt_comes_from_cache_or_service
    v (request_data : loc) files promo_id userdata (w : world) (o : obj)
    (r : Receipt) :
  w_heap w !! request_data = Some o ->
  fst (verify_receipt v request_data files promo_id userdata w) = Ok r ->
  is_valid r = true ->
  (exists key, cache_key_of o = Some key
               /\ PyDict.get (cache (w_cache w)) key = Some r)
  \/ (exists (i : nat) (response c : json),
        (List.length (w_posts w) <= i)%nat
        /\ w_net w i = NetJson response
        /\ Py.get response "code" (JInt (-1)) = Ok c
        /\ Py.eq_int c 1 = true
        /\ from_api_response (w_now w) response = Ok r).
Proof.
  intros Hreq Hres Hvalid. unfold verify_receipt in Hres. rewrite Hreq in Hres.
  match type of Hres with
  | context [check_cache ?ck ?w1] =>
      destruct (check_cache ck w1) as [cached w2] eqn:Hcheck
  end.
  destruct cached as [cached|].
  - left. cbn [fst] in Hres. injection Hres as ->.
    unfold check_cache in Hcheck.
    destruct (cache_key_of o) as [key|] eqn:Hkey; [|discriminate].
    rewrite (cache_key_truthy o key Hkey) in Hcheck.
    unfold cache_get in Hcheck. cbn [with_heap w_cache] in Hcheck.
    exists key. split; [reflexivity|].
    destruct (PyDict.get (cache (w_cache w)) key); [|discriminate].
    now injection Hcheck as -> _.
  - right.
    assert (Henv2 : w_posts w2 = w_posts w /\ w_now w2 = w_now w
                    /\ w_net w2 = w_net w).
    { unfold check_cache in Hcheck.
      destruct (key_truthy (cache_key_of o)) as [k|].
      - destruct (cache_get _ k) as [x c']. injection Hcheck as _ <-. auto.
      - injection Hcheck as <-. auto. }
    destruct Henv2 as (Hp2 & Hnow2 & Hnet2).
    match type of Hres with
    | context [add_userdata ?rd ?u (add_promo ?rd' ?p ?w3)] =>
        destruct (add_promo_env rd' p w3) as (Hnow4 & Hnet4 & _ & _);
        destruct (add_promo_writes_only rd' p w3) as (_ & _ & Hp4);
        destruct (heap_setitem_env rd' "token" (token v) w2)
          as (Hnow3 & Hnet3 & _ & _);
        destruct (heap_setitem_logs rd' "token" (token v) w2) as (Hp3 & _ & _);
        destruct (add_userdata rd u (add_promo rd' p w3)) as [w5|e] eqn:Hud
    end; [|discriminate].
    assert (Henv5 : w_posts w5 = w_posts w /\ w_now w5 = w_now w
                    /\ w_net w5 = w_net w).
    { destruct (add_userdata_logs _ _ _ _ Hud) as (Hp5 & _ & _).
      rewrite Hp5, Hp4, Hp3, Hp2. split; [reflexivity|].
      unfold add_userdata in Hud.
      destruct userdata as [u|].
      - destruct (w_heap _ !! u) as [[ud|p]|]; try discriminate.
        injection Hud as <-.
        rewrite <- Hnow2, <- Hnet2, <- Hnow3, <- Hnet3, <- Hnow4, <- Hnet4.
        clear. generalize (add_promo (List.length (w_heap w)) promo_id
                             (heap_setitem (List.length (w_heap w)) "token"
                                (token v) w2)).
        induction ud as [|[k val] ud IH]; intros w0; cbn [fold_left];
          [auto|].
        destruct (IH (heap_setitem (List.length (w_heap w))
                        ("userdata_" +:+ fst (k, val)) (snd (k, val)) w0))
          as (A & B).
        destruct (heap_setitem_env (List.length (w_heap w))
                    ("userdata_" +:+ fst (k, val)) (snd (k, val)) w0)
          as (A' & B' & _).
        split; congruence.
      - injection Hud as <-. split; congruence. }
    destruct Henv5 as (Hp5 & Hnow5 & Hnet5).
    match type of Hres with
    | context [retry_loop ?a ?b ?c0 ?d0 ?e ?f w5] =>
        destruct (retry_loop a b c0 d0 e f w5) as [res w'] eqn:Hloop
    end.
    cbn [fst] in Hres. subst res.
    destruct (retry_loop_valid_source _ _ _ _ _ _ _ _ _ Hloop Hvalid)
      as (i & response & Hi & Hnet & Hparse).
    rewrite Hp5 in Hi. rewrite Hnet5 in Hnet. rewrite Hnow5 in Hparse.
    destruct (from_api_response_valid_code _ _ _ Hparse Hvalid) as (c & Hc & H1).
    exists i, response, c. auto.
Qed.

End Model.

(** ** A [datetime] instance for running the code

    Timestamps in the zero-padded layout [YYYY-MM-DDTHH:MM:SS], with the
    field ranges checked. It serves the worked examples below; the general
    statements above hold for every [DateTimeLib]. *)

Module IsoDate.

Record t : Type := {
  year : Z; month : Z; day : Z; hour : Z; minute : Z; second : Z
}.

Definition digit (a : ascii) : option Z :=
  let c := Z.of_N (N_of_ascii a) in
  if (48 <=? c) && (c <=? 57) then Some (c - 48) else None.

Definition two (a b : ascii) : option Z :=
  x ← digit a; y ← digit b; Some (10 * x + y).

Definition in_range (lo hi x : Z) : option Z :=
  if (lo <=? x) && (x <=? hi) then Some x else None.

Definition parse (s : string) : option t :=
  match list_ascii_of_string s with
  | [y1; y2; y3; y4; "-"; m1; m2; "-"; d1; d2; "T";
     h1; h2; ":"; mi1; mi2; ":"; s1; s2]%char =>
      yh ← two y1 y2; yl ← two y3 y4;
      y ← in_range 1 9999 (100 * yh + yl);
      mo ← two m1 m2 ≫= in_range 1 12;
      d ← two d1 d2 ≫= in_range 1 31;
      h ← two h1 h2 ≫= in_range 0 23;
      mi ← two mi1 mi2 ≫= in_range 0 59;
      se ← two s1 s2 ≫= in_range 0 59;
      Some {| year := y; month := mo; day := d;
              hour := h; minute := mi; second := se |}
  | _ => None
  end.

Definition show_digit (x : Z) : ascii := ascii_of_N (Z.to_N (48 + x mod 10)).

Definition show2 (x : Z) (rest : string) : string :=
  String (show_digit (x / 10)) (String (show_digit x) rest).

Definition format (d : t) (fmt : string) : string :=
  if String.eqb fmt "%H:%M:%S" then
    show2 (hour d) (String ":" (show2 (minute d) (String ":" (show2 (second d) ""))))
  else if String.eqb fmt "%Y-%m-%d" then
    show2 (year d / 100) (show2 (year d)
      (String "-" (show2 (month d) (String "-" (show2 (day d) "")))))
  else "".

End IsoDate.

#[global] Instance iso_datetime : DateTimeLib IsoDate.t := {|
  strptime := fun s fmt =>
    if String.eqb fmt "%Y-%m-%dT%H:%M:%S" then IsoDate.parse s else None;
  strftime := IsoDate.format
|}.

(** ** Worked examples *)

Module Examples.

Definition epoch : IsoDate.t :=
  {| IsoDate.year := 2020; IsoDate.month := 9; IsoDate.day := 24;
     IsoDate.hour := 18; IsoDate.minute := 37; IsoDate.second := 0 |}.

(** A successful answer of the service for the receipt of the docstring. *)
Definition receipt_json (stamp : list (string * json)) : json :=
  JObj [ ("code", JInt 1);
         ("data", JObj [
            ("json", JObj (stamp ++ [
               ("user", JStr "Shop");
               ("fiscalDriveNumber", JStr "9282440300682838");
               ("totalSum", JInt 100000);
               ("items", JArr [ JObj [ ("name", JStr "Tea");
                                       ("price", JInt 10050);
                                       ("quantity", JInt 2);
                                       ("sum", JInt 20100) ] ]) ]));
            ("html", JStr "<table></table>") ]) ].

Definition good_response : json :=
  receipt_json [("dateTime", JStr "2020-09-24T18:37:00")].

(** The same answer with an unparsable timestamp, and with none. *)
Definition bad_stamp_response : json :=
  receipt_json [("dateTime", JStr "24.09.2020 18:37")].

Definition no_stamp_response : json := receipt_json [].

Definition coded (c : Z) : json := JObj [("code", JInt c)].

(** A valid receipt, as parsed from [good_response]. *)
Definition valid_receipt : Receipt :=
  match from_api_response epoch good_response with
  | Ok r => r
  | Raise _ => invalid_receipt (JInt (-1)) (JStr "unreachable") epoch
  end.

Definition rejected_receipt : Receipt :=
  invalid_receipt (JInt 0) (JStr "Invalid receipt") epoch.

(** A world with the given heap, cache and network, nothing logged yet. *)
Definition world_of (heap : list obj) (c : ReceiptCache)
    (net : nat -> net_outcome) : world :=
  {| w_heap := heap; w_cache := c; w_closed := []; w_posts := [];
     w_sleeps := []; w_now := epoch; w_net := net |}.

(** The network answers with the listed outcomes, then fails. *)
Definition answers (l : list net_outcome) : nat -> net_outcome :=
  fun i => nth i l (NetError "connection refused").

Definition verifier : ReceiptVerifier := verifier_init "secret" 3.

Example good_response_parses :
  is_valid valid_receipt = true
  /\ date valid_receipt = "2020-09-24"
  /\ time valid_receipt = "18:37:00"
  /\ (total_sum valid_receipt == 1000)%Q
  /\ map item_name (items valid_receipt) = [JStr "Tea"].
Proof. vm_compute. repeat split. Qed.

(** *** The cache *)

Definition two_entries : ReceiptCache :=
  {| cache := [("A", valid_receipt); ("B", valid_receipt)];
     max_size := 2; hits := 0; misses := 0 |}.

(** C4 (as stated) fails: in a cache of capacity 2 filled with [A] then
    [B], reading [A] and then inserting [C] evicts [A], the entry read most
    recently. *)
Lemma eviction_removes_entry_just_read :
  exists c2 c3 c4,
    (c1 ← cache_put (cache_init 2) "A" valid_receipt;
     cache_put c1 "B" valid_receipt) = Ok c2
    /\ cache_get c2 "A" = (Some valid_receipt, c3)
    /\ cache_put c3 "C" valid_receipt = Ok c4
    /\ PyDict.get (cache c4) "A" = None
    /\ PyDict.keys (cache c4) = ["B"; "C"].
Proof.
  exists two_entries.
  exists {| cache := cache two_entries; max_size := 2; hits := 1; misses := 0 |}.
  eexists. split; [reflexivity|]. split; [reflexivity|].
  split; [reflexivity|]. split; reflexivity.
Qed.

Lemma put_at_capacity_evicts_first_inserted_witness :
  (exists c', cache_put two_entries "C" valid_receipt = Ok c'
              /\ cache c' = [("B", valid_receipt)] ++ [("C", valid_receipt)])
  /\ cache (snd (cache_get two_entries "A")) = cache two_entries
  /\ (exists c', cache_put (snd (cache_get two_entries "A")) "C" valid_receipt = Ok c'
                 /\ cache c' = [("B", valid_receipt)] ++ [("C", valid_receipt)]).
Proof.
  apply (put_at_capacity_evicts_first_inserted two_entries
           "A" valid_receipt [("B", valid_receipt)] "C" "A" valid_receipt);
    reflexivity.
Defined.

(** C10 (as stated) fails: in a cache of capacity 2 filled with [A] then
    [B], putting [A] again evicts no other entry: [B] stays and the cache
    still holds two entries. A cache of capacity 0 stores nothing: [put]
    raises [StopIteration]. *)
Lemma overwriting_oldest_evicts_no_other_entry :
  cache_size two_entries = max_size two_entries
  /\ (exists c', cache_put two_entries "A" rejected_receipt = Ok c'
                 /\ cache c' = [("B", valid_receipt); ("A", rejected_receipt)]
                 /\ cache_size c' = cache_size two_entries)
  /\ cache_put (cache_init 0) "A" valid_receipt = Raise StopIteration.
Proof.
  split; [reflexivity|]. split; [|reflexivity].
  eexists. split; [reflexivity|]. split; reflexivity.
Qed.

Lemma put_evicts_before_insert_and_bounds_size_witness :
  List.NoDup (PyDict.keys (cache two_entries))
  /\ (exists c', cache_put two_entries "B" rejected_receipt = Ok c'
                 /\ PyDict.get (cache c') "B" = Some rejected_receipt
                 /\ PyDict.get (cache c') "A" = None
                 /\ cache_size c' = cache_size two_entries - 1
                 /\ cache_size c' <= max_size c').
Proof.
  assert (Hnodup : List.NoDup (PyDict.keys (cache two_entries))).
  { repeat constructor; simpl; intuition discriminate. }
  split; [exact Hnodup|].
  destruct (put_evicts_before_insert_and_bounds_size
              two_entries "B" rejected_receipt Hnodup) as (Hevict & _ & Hbound).
  destruct (Hevict "A" valid_receipt [("B", valid_receipt)] eq_refl)
    as (c' & Hput & Hget & Hgone & _ & Hless & _).
  { vm_compute. discriminate. }
  exists c'. split; [exact Hput|]. split; [exact Hget|].
  split; [apply Hgone; discriminate|]. split.
  - apply Hless; [discriminate|]. vm_compute. discriminate.
  - apply (Hbound ltac:(vm_compute; discriminate) c' Hput).
Defined.

(** C5 (as stated) fails: [put] stores a receipt with [is_valid == false]
    like any other. *)
Lemma put_stores_invalid_receipt :
  is_valid rejected_receipt = false
  /\ exists c', cache_put (cache_init 1000) "k" rejected_receipt = Ok c'
                /\ PyDict.get (cache c') "k" = Some rejected_receipt
                /\ ~ cache_all_valid c'.
Proof.
  split; [reflexivity|]. eexists. split; [reflexivity|]. split; [reflexivity|].
  intros Hall. inversion Hall as [|e l Hhead Htail]. discriminate Hhead.
Qed.

(** *** Calls of [verify_receipt] *)

Definition cached_key : string := fingerprint docstring_params.

Definition warm_cache : ReceiptCache :=
  {| cache := [(cached_key, valid_receipt)]; max_size := 100;
     hits := 0; misses := 0 |}.

(** The manual request of the docstring at address 0. *)
Definition manual_heap : list obj := [OParams docstring_params].

Definition succeeding : world :=
  world_of manual_heap (cache_init 100) (answers [NetJson good_response]).

Definition warm : world :=
  world_of manual_heap warm_cache (answers []).

Definition rate_limited : world :=
  world_of manual_heap (cache_init 100)
    (answers [NetJson (coded 3); NetJson (coded 3); NetJson (coded 3)]).

(** A QR image upload: [from_qr_file] returns an empty dict and the open
    file; the service asks to retry, then would succeed. *)
Definition upload : world :=
  world_of [ODict []] (cache_init 100)
    (answers [NetJson (coded 3); NetJson good_response]).

Example upload_request :
  RequestBuilder.from_qr_file id (fun _ => Ok true) (fun _ => Ok 7%nat) "qr.png"
  = Ok ([], [("qrfile", FileObj 7%nat)])
  /\ RequestBuilder.from_qr_file id (fun _ => Ok false) (fun _ => Ok 7%nat)
       "qr.png"
     = Raise (FileNotFoundError "QR image file not found: qr.png")
  /\ RequestBuilder.from_qr_file id (fun _ => Ok true)
       (fun _ => Raise IsADirectoryError) "qr.png"
     = Raise IsADirectoryError.
Proof. repeat split. Qed.

Example first_call_fills_cache :
  fst (verify_receipt verifier 0%nat None None None succeeding) = Ok valid_receipt
  /\ PyDict.keys (cache (w_cache (snd
        (verify_receipt verifier 0%nat None None None succeeding)))) = [cached_key]
  /\ List.length (w_posts (snd
        (verify_receipt verifier 0%nat None None None succeeding))) = 1%nat.
Proof. vm_compute. repeat split. Qed.

(** The same fingerprint verified twice reaches the transport once. *)
Example second_call_hits_cache :
  let first := verify_receipt verifier 0%nat None None None succeeding in
  let second := verify_receipt verifier 0%nat None None None (snd first) in
  fst second = Ok valid_receipt
  /\ List.length (w_posts (snd second)) = 1%nat
  /\ hits (w_cache (snd second)) = 1
  /\ misses (w_cache (snd second)) = 1.
Proof. vm_compute. repeat split. Qed.

Lemma verify_receipt_keeps_cache_valid_witness :
  cache_all_valid (w_cache succeeding)
  /\ cache_all_valid
       (w_cache (snd (verify_receipt verifier 0%nat None None None succeeding))).
Proof.
  assert (Hall : cache_all_valid (w_cache succeeding)) by constructor.
  split; [exact Hall|].
  apply (verify_receipt_keeps_cache_valid verifier 0%nat None None None
           succeeding Hall).
Defined.

Lemma verify_receipt_cache_hit_witness :
  exists w',
    verify_receipt verifier 0%nat None None None warm = (Ok valid_receipt, w')
    /\ w_posts w' = w_posts warm
    /\ w_sleeps w' = w_sleeps warm
    /\ w_closed w' = w_closed warm
    /\ cache (w_cache w') = cache (w_cache warm)
    /\ hits (w_cache w') = hits (w_cache warm) + 1
    /\ misses (w_cache w') = misses (w_cache warm).
Proof.
  assert (Hget : PyDict.get (cache (w_cache warm)) cached_key = Some valid_receipt)
    by (vm_compute; reflexivity).
  exact (verify_receipt_cache_hit verifier 0%nat None None None warm
           (OParams docstring_params) cached_key valid_receipt
           eq_refl eq_refl Hget).
Defined.

Lemma exhausted_retries_return_last_response_witness :
  let out := verify_receipt verifier 0%nat None None None rate_limited in
  fst out = from_api_response (w_now rate_limited) (coded 3)
  /\ (exists msg,
        fst out = Ok (invalid_receipt (JInt 3) (JStr msg) (w_now rate_limited))
        /\ msg <> "Max retries exceeded")
  /\ fst out <> Ok (max_retries_receipt (snd out))
  /\ List.length (w_posts (snd out))
     = (List.length (w_posts rate_limited) + 3)%nat.
Proof.
  assert (Hnet : forall i, (i <= 2)%nat ->
            w_net rate_limited (List.length (w_posts rate_limited) + i)%nat
            = NetJson (coded 3)
            /\ Py.get (coded 3) "code" (JInt (-1)) = Ok (JInt 3)
            /\ (3 = 2 \/ 3 = 3 \/ 3 = 4)).
  { intros i Hi. destruct i as [|[|[|i]]]; try lia; repeat split; auto. }
  assert (Hbase : (0 <= base_delay (retry_handler verifier))%Q) by discriminate.
  exact (exhausted_retries_return_last_response verifier 0%nat docstring_params
           None rate_limited 2 (fun _ => coded 3) (fun _ => 3)
           eq_refl Hbase eq_refl eq_refl Hnet).
Defined.

Example rate_limited_outcome :
  fst (verify_receipt verifier 0%nat None None None rate_limited)
  = Ok (invalid_receipt (JInt 3) (JStr "Request limit exceeded") epoch)
  /\ w_sleeps (snd (verify_receipt verifier 0%nat None None None rate_limited))
     = [1 * inject_Z 1; 1 * inject_Z 2]%Q.
Proof. vm_compute. split; reflexivity. Qed.

Lemma from_api_response_raises_without_timestamp_witness :
  from_api_response epoch bad_stamp_response = Raise AttributeError
  /\ from_api_response epoch no_stamp_response = Raise AttributeError.
Proof.
  split.
  - eapply (from_api_response_raises_without_timestamp epoch bad_stamp_response);
      reflexivity.
  - eapply (from_api_response_raises_without_timestamp epoch no_stamp_response);
      reflexivity.
Defined.

Lemma retry_runs_on_closed_handle_witness :
  exists w',
    verify_receipt verifier 0%nat (Some [("qrfile", FileObj 7%nat)]) None None upload
    = (Raise ValueError, w')
    /\ w_closed w' = w_closed upload ++ [7%nat; 7%nat]
    /\ List.length (w_posts w') = S (List.length (w_posts upload))
    /\ List.length (w_sleeps w') = S (List.length (w_sleeps upload)).
Proof.
  assert (Hmax : 2 <= max_retries (retry_handler verifier)) by (simpl; lia).
  assert (Hbase : (0 <= base_delay (retry_handler verifier))%Q) by discriminate.
  exact (retry_runs_on_closed_handle verifier 0%nat [] 7%nat upload (coded 3) 3
           Hmax Hbase eq_refl eq_refl eq_refl eq_refl eq_refl
           (or_intror (or_introl eq_refl))).
Defined.

(** *** Further worked examples *)

Lemma from_api_response_validity_witness :
  Py.get good_response "code" (JInt (-1)) = Ok (code valid_receipt)
  /\ is_valid valid_receipt = Py.eq_int (code valid_receipt) 1
  /\ (is_valid valid_receipt = true ->
      error_message valid_receipt = None
      /\ raw_response valid_receipt = good_response)
  /\ (is_valid valid_receipt = false ->
      exists msg, valid_receipt = invalid_receipt (code valid_receipt) msg epoch).
Proof.
  assert (Hparse : from_api_response epoch good_response = Ok valid_receipt)
    by (vm_compute; reflexivity).
  exact (from_api_response_validity epoch good_response valid_receipt Hparse).
Defined.

Definition refused : list (string * json) :=
  [("code", JInt 7); ("error", JStr "Service unavailable")].

Lemma from_api_response_error_code_witness :
  from_api_response epoch (JObj refused)
  = Ok (invalid_receipt (JInt 7) (JStr "Service unavailable") epoch)
  /\ from_api_response epoch (JObj [])
     = Ok (invalid_receipt (JInt (-1)) (JStr "Unknown error") epoch).
Proof.
  split.
  - apply (from_api_response_error_code epoch refused 7); [now left|lia].
  - apply (from_api_response_error_code epoch [] (-1)); [now right|lia].
Defined.

Definition tea : json :=
  JObj [("name", JStr "Tea"); ("price", JInt 10050);
        ("quantity", JFloat (3 # 2)); ("sum", JInt 15075)].

Definition tea_item : ReceiptItem :=
  {| item_name := JStr "Tea"; item_price := inject_Z 10050 / 100;
     item_quantity := JFloat (3 # 2); item_sum := inject_Z 15075 / 100 |}.

Lemma parse_items_pointwise_witness :
  List.length [tea_item] = List.length [tea]
  /\ forall (i : nat) (raw : json) (it : ReceiptItem),
       [tea] !! i = Some raw -> [tea_item] !! i = Some it ->
       Py.get raw "name" (JStr "") = Ok (item_name it)
       /\ Py.get raw "quantity" (JInt 0) = Ok (item_quantity it)
       /\ (p ← Py.get raw "price" (JInt 0); Py.div100 p) = Ok (item_price it)
       /\ (p ← Py.get raw "sum" (JInt 0); Py.div100 p) = Ok (item_sum it).
Proof.
  exact (parse_items_pointwise [tea] [tea_item] eq_refl).
Defined.

(** Codes 3, then 4, then the terminal 5. *)
Definition backing_off : world :=
  world_of manual_heap (cache_init 100)
    (answers [NetJson (coded 3); NetJson (coded 4); NetJson (coded 5)]).

Definition backing_off_delays (i : nat) : Q :=
  get_delay (retry_handler verifier) (JInt (3 + Z.of_nat i)) i.

Lemma base_delay_nonneg : (0 <= base_delay (retry_handler verifier))%Q.
Proof. discriminate. Qed.

Lemma retried_then_terminal_witness :
  let out := verify_receipt verifier 0%nat None None None backing_off in
  fst out = from_api_response (w_now backing_off) (coded 5)
  /\ List.length (w_posts (snd out)) = (List.length (w_posts backing_off) + 3)%nat
  /\ w_sleeps (snd out) = w_sleeps backing_off ++ map backing_off_delays (seq 0 2)
  /\ cache (w_cache (snd out)) = cache (w_cache backing_off).
Proof.
  assert (Hmiss : forall key, cache_key_of (OParams docstring_params) = Some key ->
            PyDict.get (cache (w_cache backing_off)) key = None)
    by (intros key _; reflexivity).
  assert (Hk : Z.of_nat 2 < max_retries (retry_handler verifier))
    by (simpl; lia).
  assert (Hdelays : forall i, (i < 2)%nat ->
            retry_delay (retry_handler verifier)
              (w_net backing_off (List.length (w_posts backing_off) + i)%nat) i
            = Some (backing_off_delays i)).
  { intros i Hi. destruct i as [|[|i]]; [reflexivity|reflexivity|lia]. }
  exact (retried_then_terminal verifier 0%nat None backing_off
           (OParams docstring_params) 2 backing_off_delays (coded 5) (JInt 5)
           eq_refl Hmiss base_delay_nonneg Hk Hdelays eq_refl eq_refl eq_refl
           (or_introl eq_refl)).
Defined.

Example backing_off_sleeps :
  w_sleeps (snd (verify_receipt verifier 0%nat None None None backing_off))
  = [1 * inject_Z 1; 1 * 2]%Q.
Proof. vm_compute. reflexivity. Qed.

Definition offline : world :=
  world_of manual_heap (cache_init 100) (answers []).

Lemma transport_failures_exhaust_retries_witness :
  let out := verify_receipt verifier 0%nat None None None offline in
  fst out = Ok (invalid_receipt (JInt (-1))
                  (JStr ("Network error: " +:+ "connection refused"))
                  (w_now offline))
  /\ List.length (w_posts (snd out)) = (List.length (w_posts offline) + 3)%nat
  /\ w_sleeps (snd out)
     = w_sleeps offline ++ map (network_delay (retry_handler verifier)) (seq 0 2)
  /\ cache (w_cache (snd out)) = cache (w_cache offline).
Proof.
  assert (Hmiss : forall key, cache_key_of (OParams docstring_params) = Some key ->
            PyDict.get (cache (w_cache offline)) key = None)
    by (intros key _; reflexivity).
  assert (Hnet : forall i, (i <= 2)%nat ->
            w_net offline (List.length (w_posts offline) + i)%nat
            = NetError "connection refused").
  { intros i Hi. destruct i as [|i]; reflexivity. }
  exact (transport_failures_exhaust_retries verifier 0%nat None offline
           (OParams docstring_params) 2 (fun _ => "connection refused")
           eq_refl Hmiss base_delay_nonneg eq_refl Hnet).
Defined.

Definition no_retries : ReceiptVerifier := verifier_init "secret" 0.

Lemma no_attempt_without_retries_witness :
  let out := verify_receipt no_retries 0%nat
               (Some [("qrfile", FileObj 7%nat)]) None None succeeding in
  fst out = Ok (invalid_receipt (JInt (-1)) (JStr "Max retries exceeded")
                  (w_now succeeding))
  /\ w_posts (snd out) = w_posts succeeding
  /\ w_sleeps (snd out) = w_sleeps succeeding
  /\ w_closed (snd out) = w_closed succeeding.
Proof.
  assert (Hmiss : forall key, cache_key_of (OParams docstring_params) = Some key ->
            PyDict.get (cache (w_cache succeeding)) key = None)
    by (intros key _; reflexivity).
  assert (Hmax : max_retries (retry_handler no_retries) <= 0) by (simpl; lia).
  exact (no_attempt_without_retries no_retries 0%nat
           (Some [("qrfile", FileObj 7%nat)]) None succeeding
           (OParams docstring_params) eq_refl Hmiss Hmax).
Defined.

(** Code 3, then the receipt. *)
Definition second_try : world :=
  world_of manual_heap (cache_init 100)
    (answers [NetJson (coded 3); NetJson good_response]).

Definition second_try_delays (i : nat) : Q :=
  get_delay (retry_handler verifier) (JInt 3) i.

Lemma success_is_cached_and_reused_witness :
  let out := verify_receipt verifier 0%nat None None None second_try in
  let again := verify_receipt verifier 0%nat None None None (snd out) in
  fst out = Ok valid_receipt
  /\ PyDict.get (cache (w_cache (snd out))) cached_key = Some valid_receipt
  /\ List.length (w_posts (snd out)) = (List.length (w_posts second_try) + 2)%nat
  /\ w_sleeps (snd out) = w_sleeps second_try ++ map second_try_delays (seq 0 1)
  /\ fst again = Ok valid_receipt
  /\ w_posts (snd again) = w_posts (snd out)
  /\ w_sleeps (snd again) = w_sleeps (snd out).
Proof.
  assert (Hpos : 0 < max_size (w_cache second_try)) by (simpl; lia).
  assert (Hk : Z.of_nat 1 < max_retries (retry_handler verifier))
    by (simpl; lia).
  assert (Hdelays : forall i, (i < 1)%nat ->
            retry_delay (retry_handler verifier)
              (w_net second_try (List.length (w_posts second_try) + i)%nat) i
            = Some (second_try_delays i)).
  { intros i Hi. destruct i as [|i]; [reflexivity|lia]. }
  assert (Hparse : from_api_response (w_now second_try) good_response
                   = Ok valid_receipt) by (vm_compute; reflexivity).
  exact (success_is_cached_and_reused verifier 0%nat None second_try
           (OParams docstring_params) cached_key 1 second_try_delays
           good_response (JInt 1) valid_receipt
           eq_refl eq_refl eq_refl Hpos base_delay_nonneg Hk Hdelays
           eq_refl eq_refl eq_refl Hparse).
Defined.

(** The manual parameters as the plain dict the chat bot passes. *)
Definition manual_dict : PyDict.t string := to_dict docstring_params.

Definition manual_dict_call : world :=
  world_of [ODict manual_dict] warm_cache (answers [NetJson good_response]).

Lemma dict_request_without_qrraw_bypasses_cache_witness :
  w_cache (snd (verify_receipt verifier 0%nat None None None manual_dict_call))
  = w_cache manual_dict_call.
Proof.
  exact (dict_request_without_qrraw_bypasses_cache verifier 0%nat manual_dict
           None None None manual_dict_call eq_refl eq_refl).
Defined.

(** An upload answered at once with the terminal code 0. *)
Definition rejected_upload : world :=
  world_of [ODict []] (cache_init 100) (answers [NetJson (coded 0)]).

Definition one_file : option (PyDict.t file_value) :=
  Some [("qrfile", FileObj 7%nat)].

Lemma upload_has_no_key :
  forall key, cache_key_of (ODict []) = Some key ->
    PyDict.get (cache (w_cache rejected_upload)) key = None.
Proof. intros key Hkey. discriminate Hkey. Qed.

Lemma single_attempt_closes_files_once_witness :
  let out := verify_receipt verifier 0%nat one_file None None rejected_upload in
  w_closed (snd out) = w_closed rejected_upload ++ file_handles one_file
  /\ List.length (w_posts (snd out)) = S (List.length (w_posts rejected_upload))
  /\ w_sleeps (snd out) = w_sleeps rejected_upload.
Proof.
  assert (Hmax : 1 <= max_retries (retry_handler verifier)) by (simpl; lia).
  exact (single_attempt_closes_files_once verifier 0%nat one_file None
           rejected_upload (ODict []) eq_refl upload_has_no_key eq_refl Hmax
           (or_introl eq_refl)).
Defined.

Lemma attempted_call_closes_files_witness :
  exists more,
    w_closed (snd (verify_receipt verifier 0%nat one_file None None upload))
    = w_closed upload ++ file_handles one_file ++ more.
Proof.
  assert (Hmax : 1 <= max_retries (retry_handler verifier)) by (simpl; lia).
  assert (Hmiss : forall key, cache_key_of (ODict []) = Some key ->
            PyDict.get (cache (w_cache upload)) key = None)
    by (intros key Hkey; discriminate Hkey).
  exact (attempted_call_closes_files verifier 0%nat one_file None upload
           (ODict []) eq_refl Hmiss Hmax).
Defined.

Lemma cache_put_then_get_witness :
  exists c',
    cache_put two_entries "C" valid_receipt = Ok c'
    /\ fst (cache_get c' "C") = Some valid_receipt
    /\ max_size c' = max_size two_entries
    /\ hits c' = hits two_entries /\ misses c' = misses two_entries
    /\ forall k', k' <> "C" ->
         cache_size two_entries < max_size two_entries
         \/ PyDict.first_key (cache two_entries) <> Some k' ->
         PyDict.get (cache c') k' = PyDict.get (cache two_entries) k'.
Proof.
  eexists. split; [reflexivity|].
  apply (cache_put_then_get two_entries _ "C" valid_receipt). reflexivity.
Defined.

Definition three_puts : list (string * @Receipt IsoDate.t) :=
  [("A", valid_receipt); ("B", valid_receipt); ("C", valid_receipt)].

Lemma put_all_keeps_last_entries_witness :
  exists c, put_all (cache_init 2) three_puts = Ok c
            /\ cache c = skipn (List.length three_puts - Z.to_nat 2) three_puts
            /\ max_size c = 2.
Proof.
  assert (Hsize : 0 < 2) by lia.
  assert (Hnodup : List.NoDup (PyDict.keys three_puts)).
  { unfold three_puts, PyDict.keys. simpl.
    repeat constructor; simpl; intuition discriminate. }
  exact (put_all_keeps_last_entries 2 three_puts Hsize Hnodup).
Defined.

Example three_puts_leave_B_and_C :
  option_map (fun c => PyDict.keys (cache c))
    (match put_all (cache_init 2) three_puts with
     | Ok c => Some c
     | Raise _ => None
     end) = Some ["B"; "C"].
Proof. vm_compute. reflexivity. Qed.

(** A manual request with a promo id and two userdata entries. *)
Definition campaign : PyDict.t string := [("shop", "kiosk"); ("till", "4")].

Definition with_userdata : world :=
  world_of [OParams docstring_params; ODict campaign] (cache_init 100)
    (answers [NetJson (coded 3); NetJson good_response]).

Lemma request_entries_are_sent_unchanged_witness :
  let fresh := to_dict docstring_params in
  exists new,
    w_posts (snd (verify_receipt verifier 0%nat None (Some 5) (Some 1%nat)
                    with_userdata))
    = w_posts with_userdata ++ new
    /\ Forall (fun p =>
         post_data p = sent_dict verifier (Some 5) fresh campaign
         /\ forall k val,
              k <> "token" -> k <> "promo_id" ->
              (forall k', k <> "userdata_" +:+ k') ->
              PyDict.get fresh k = Some val ->
              PyDict.get (post_data p) k = Some val) new.
Proof.
  exact (request_entries_are_sent_unchanged verifier 0%nat None (Some 5)
           (Some 1%nat) with_userdata (OParams docstring_params) campaign
           eq_refl (or_intror (ex_intro _ 1%nat (conj eq_refl eq_refl)))).
Defined.

Lemma userdata_is_sent_namespaced_witness :
  exists new,
    w_posts (snd (verify_receipt verifier 0%nat None (Some 5) (Some 1%nat)
                    with_userdata))
    = w_posts with_userdata ++ new
    /\ Forall (fun p =>
         PyDict.get (post_data p) "token" = Some (token verifier)
         /\ forall k val,
              PyDict.get campaign k = Some val ->
              PyDict.get (post_data p) ("userdata_" +:+ k) = Some val) new.
Proof.
  assert (Hnodup : List.NoDup (PyDict.keys campaign)).
  { unfold campaign, PyDict.keys. simpl.
    repeat constructor; simpl; intuition discriminate. }
  exact (userdata_is_sent_namespaced verifier 0%nat None (Some 5) 1%nat
           with_userdata (OParams docstring_params) campaign
           eq_refl eq_refl Hnodup).
Defined.

Example with_userdata_posts :
  map post_data
    (w_posts (snd (verify_receipt verifier 0%nat None (Some 5) (Some 1%nat)
                     with_userdata)))
  = let sent := to_dict docstring_params
                ++ [("token", "secret"); ("promo_id", "5");
                    ("userdata_shop", "kiosk"); ("userdata_till", "4")] in
    [sent; sent].
Proof. vm_compute. reflexivity. Qed.

(** *** Delays in binary64 *)

(** [0.1] *)
Definition tenth : Binary64.float := S754_finite false 7205759403792794 (-56).

(** A C library whose [pow] rounds correctly for a positive base and a
    positive integer exponent. *)
#[local] Instance rounded_pow : LibM := {|
  libm_pow x y :=
    match x, y with
    | S754_finite false m e, S754_finite false my ey =>
        let n := Z.shiftl (Zpos my) ey in
        binary_normalize Binary64.prec Binary64.emax (Zpos m ^ n) (e * n) false
    | _, _ => S754_nan
    end
|}.

Example rounded_pow_values :
  libm_pow Binary64.three_halves Binary64.one = Binary64.three_halves
  /\ libm_pow Binary64.three_halves Binary64.two
     = S754_finite false 5066549580791808 (-51)
  /\ Float.three_halves_pow 0 = Ok Binary64.one
  /\ Float.three_halves_pow 2 = Ok (S754_finite false 5066549580791808 (-51))
  /\ Float.three_halves_pow 1751 = Raise OverflowError.
Proof. repeat apply conj; vm_compute; reflexivity. Qed.

(** C6 (as stated) fails: with base [1.0], code 3 and attempt 1024 nothing
    is returned, [get_delay] raises [OverflowError]; and with base [0.1],
    code 2 and attempt 1 the delay returned is
    [5404319552844596 / 2^55], which is not [1.5] times the base. *)
Lemma get_delay_overflows_and_rounds :
  Float.get_delay Binary64.one (JInt 3) 1024 = Raise OverflowError
  /\ Float.get_delay tenth (JInt 2) 1
     = Ok (S754_finite false 5404319552844596 (-55))
  /\ Binary64.exactly tenth (7205759403792794 # 72057594037927936)
  /\ ~ Binary64.exactly (S754_finite false 5404319552844596 (-55))
         ((3 # 2) * (7205759403792794 # 72057594037927936)).
Proof.
  repeat apply conj; try (vm_compute; reflexivity).
  vm_compute. intros H. discriminate H.
Qed.

Definition tenth_handler : RetryHandler :=
  {| max_retries := 3; base_delay := 7205759403792794 # 72057594037927936 |}.

Lemma get_delay_binary64_witness :
  Binary64.valid tenth = true
  /\ Binary64.exactly tenth (base_delay tenth_handler)
  /\ libm_pow Binary64.three_halves Binary64.one = Binary64.three_halves
  /\ (exists d, Float.get_delay tenth (JInt 3) 3 = Ok d
                /\ Binary64.exactly d (get_delay tenth_handler (JInt 3) 3))
  /\ Float.get_delay tenth (JInt 3) 0 = Ok tenth
  /\ Float.get_delay tenth (JInt 4) 3 = Ok (Binary64.mul Binary64.two tenth)
  /\ Float.get_delay tenth (JInt 2) 1
     = Ok (Binary64.mul Binary64.three_halves tenth).
Proof.
  assert (Hvalid : Binary64.valid tenth = true) by reflexivity.
  assert (Hexact : Binary64.exactly tenth (base_delay tenth_handler))
    by (vm_compute; reflexivity).
  assert (Hpow : libm_pow Binary64.three_halves Binary64.one
                 = Binary64.three_halves) by reflexivity.
  destruct (get_delay_binary64 tenth 3 Hvalid)
    as (H3 & _ & H30 & _ & H4 & _ & _ & H21 & _).
  destruct (H3 ltac:(simpl; lia)) as (d & Hd & Hval).
  repeat apply conj; auto.
  exists d. split; [exact Hd|].
  destruct (Hval tenth_handler Hexact) as [Hex|[Hinf _]]; [exact Hex|].
  rewrite Hd in *. 
  assert (Hfin : Float.get_delay tenth (JInt 3) 3
                 = Ok (S754_finite false 7205759403792794 (-53)))
    by (vm_compute; reflexivity).
  rewrite Hfin in Hd. injection Hd as <-. discriminate Hinf.
Defined.

Definition unit_handler : RetryHandler := retry_handler verifier.

Lemma default_delays_are_exact_witness :
  (exists d, Float.get_delay Binary64.one (JInt 3) 5 = Ok d
             /\ Binary64.valid d = true
             /\ Binary64.exactly d (get_delay unit_handler (JInt 3) 5))
  /\ (exists d, Float.network_delay Binary64.one 5 = Ok d
                /\ Binary64.valid d = true
                /\ Binary64.exactly d (network_delay unit_handler 5)).
Proof.
  apply (default_delays_are_exact unit_handler (JInt 3) 5).
  - reflexivity.
  - simpl. lia.
  - reflexivity.
Defined.

Lemma delays_start_at_base_and_never_shrink_witness :
  (exists d d',
      Float.get_delay tenth (JInt 3) 4 = Ok d
      /\ Float.get_delay tenth (JInt 3) 5 = Ok d'
      /\ Binary64.leb Binary64.zero d = true
      /\ Binary64.leb tenth d = true
      /\ Binary64.leb d d' = true)
  /\ (exists d d',
      Float.network_delay tenth 4 = Ok d
      /\ Float.network_delay tenth 5 = Ok d'
      /\ Binary64.leb Binary64.zero d = true
      /\ Binary64.leb tenth d = true
      /\ Binary64.leb d d' = true).
Proof.
  apply (delays_start_at_base_and_never_shrink tenth (JInt 3) 4).
  - reflexivity.
  - reflexivity.
  - simpl. lia.
  - reflexivity.
Defined.

(** An empty heap: [from_qr_string] allocates its own request. *)
Definition scanning : world :=
  world_of [] (cache_init 100) (answers [NetJson good_response]).

Definition scanned : string := qr_payload docstring_params.

Lemma from_qr_string_twice_witness :
  let first := from_qr_string verifier scanned scanning in
  let second := from_qr_string verifier scanned (snd first) in
  fst first = Ok valid_receipt
  /\ List.length (w_posts (snd first)) = (List.length (w_posts scanning) + 1)%nat
  /\ fst second = Ok valid_receipt
  /\ w_posts (snd second) = w_posts (snd first)
  /\ w_sleeps (snd second) = w_sleeps (snd first).
Proof.
  assert (Hpos : 0 < max_size (w_cache scanning)) by (simpl; lia).
  assert (Hk : Z.of_nat 0 < max_retries (retry_handler verifier))
    by (simpl; lia).
  assert (Hdelays : forall i, (i < 0)%nat ->
            retry_delay (retry_handler verifier)
              (w_net scanning (List.length (w_posts scanning) + i)%nat) i
            = Some 0%Q) by (intros i Hi; lia).
  assert (Hparse : from_api_response (w_now scanning) good_response
                   = Ok valid_receipt) by (vm_compute; reflexivity).
  exact (from_qr_string_twice verifier scanned scanning 0 (fun _ => 0%Q)
           good_response (JInt 1) valid_receipt
           eq_refl Hpos base_delay_nonneg Hk Hdelays eq_refl eq_refl eq_refl
           Hparse).
Defined.

Lemma valid_receipt_comes_from_cache_or_service_witness :
  (exists key, cache_key_of (OParams docstring_params) = Some key
               /\ PyDict.get (cache (w_cache succeeding)) key = Some valid_receipt)
  \/ (exists (i : nat) (response c : json),
        (List.length (w_posts succeeding) <= i)%nat
        /\ w_net succeeding i = NetJson response
        /\ Py.get response "code" (JInt (-1)) = Ok c
        /\ Py.eq_int c 1 = true
        /\ from_api_response (w_now succeeding) response = Ok valid_receipt).
Proof.
  assert (Hres : fst (verify_receipt verifier 0%nat None None None succeeding)
                 = Ok valid_receipt) by (vm_compute; reflexivity).
  assert (Hvalid : is_valid valid_receipt = true) by (vm_compute; reflexivity).
  exact (valid_receipt_comes_from_cache_or_service verifier 0%nat None None None
           succeeding (OParams docstring_params) valid_receipt
           eq_refl Hres Hvalid).
Defined.

Lemma from_qr_img_outcomes_witness :
  exists more,
    w_closed (snd (fst (from_qr_img verifier id (fun _ => Ok true)
                          (fun _ => Ok 7%nat) "qr.png" scanning)))
    = w_closed scanning ++ [7%nat] ++ more.
Proof.
  destruct (from_qr_img_outcomes verifier id (fun _ => Ok true)
              (fun _ => Ok 7%nat) "qr.png" scanning) as (_ & _ & Hopened).
  destruct (Hopened 7%nat eq_refl eq_refl) as [Hclosed _].
  - vm_compute. discriminate.
  - exact Hclosed.
Defined.

Example missing_image :
  from_qr_img verifier id (fun _ => Ok false) (fun _ => Ok 7%nat) "qr.png"
    scanning
  = (Ok None, scanning, ["File error: QR image file not found: qr.png"]).
Proof. reflexivity. Qed.

(** A directory passes the existence test and fails to open: the error
    leaves [from_qr_img], and nothing was sent or closed. *)
Example image_is_a_directory :
  from_qr_img verifier id (fun _ => Ok true) (fun _ => Raise IsADirectoryError)
    "qr.png" scanning
  = (Raise IsADirectoryError, scanning, []).
Proof. reflexivity. Qed.

End Examples.
